(** * Scheme-header extraction: schema mapper, output parser, identity

    A shallow embedding of the parts of the repository that turn a model
    completion into validated scheme records:

    - [src/models.py]              the pydantic models [SchemeHeader], [LLMResponse];
    - [src/llm/dspy_modules.py]    the single-call extractor [SchemeExtractor];
    - [src/llm/dspy_pipeline.py]   the chain-of-thought extractor
                                   [SchemeExtractionCoT], [DSPySchemeExtractor];
    - [build_scheme_header.py]     the legacy CSV builder with its [scheme_id]
                                   and [call_llm];
    - [src/llm/llm_client.py]      the client [OpenRouterLLM] with its history.

    Python values are the ones [json.loads] produces.  Text is a Rocq
    [string] whose characters stand for the code points below 256, so that
    slicing, [strip] and [startswith] act on characters exactly as in
    Python; [encode] turns such a text into its UTF-8 bytes. *)

From Stdlib Require Import ZArith List String Ascii Bool Lia DecimalString.
From Stdlib Require Import Floats.SpecFloat.
Import ListNotations.

Local Open Scope string_scope.

(** ** Python values, exceptions and the few built-ins the code uses *)

Module Py.

(** A Python [float] is an IEEE-754 binary64 number, here in the Standard
    Library's specification of floats. *)
Definition float : Type := spec_float.

Definition prec : Z := 53.
Definition emax : Z := 1024.

Definition float_zero : float := S754_zero false.
Definition float_one : float := S754_finite false 4503599627370496 (-52).
Definition float_half : float := S754_finite false 4503599627370496 (-53).

(** [float(z)] for a Python [int]: round to nearest even, [OverflowError]
    (here [None]) when the integer is out of range. *)
Definition float_of_int (z : Z) : option float :=
  match binary_normalize prec emax z 0 false with
  | S754_infinity _ => None
  | f => Some f
  end.

#[warnings="-register-all"]
Inductive value : Type :=
| VNone
| VBool (b : bool)
| VInt (z : Z)
| VFloat (f : float)
| VStr (s : string)
| VList (l : list value)
| VDict (kv : list (string * value)).

(** The exception classes that occur.  [External] is an exception raised by
    a collaborator (the language-model client, a reasoning stage). *)
Inductive exn : Type :=
| ValidationError
| JSONDecodeError
| TypeError
| AttributeError
| KeyError
| External (msg : string).

Inductive result (A : Type) : Type :=
| Ok (a : A)
| Raise (e : exn).
Arguments Ok {A} a.
Arguments Raise {A} e.

Definition bind {A B} (m : result A) (k : A -> result B) : result B :=
  match m with
  | Ok a => k a
  | Raise e => Raise e
  end.

(** [try: m  except Exception: h e] *)
Definition try_except {A} (m : result A) (h : exn -> result A) : result A :=
  match m with
  | Ok a => Ok a
  | Raise e => h e
  end.

Definition is_ok {A} (m : result A) : bool :=
  match m with Ok _ => true | Raise _ => false end.

(** *** Dictionaries: insertion-ordered, one entry per key *)

Definition dict : Type := list (string * value).

Fixpoint dict_lookup (d : dict) (k : string) : option value :=
  match d with
  | [] => None
  | (k', v) :: d' => if String.eqb k k' then Some v else dict_lookup d' k
  end.

(** [k in d] *)
Definition dict_contains (d : dict) (k : string) : bool :=
  match dict_lookup d k with Some _ => true | None => false end.

(** [d.get(k)] *)
Definition dict_get (d : dict) (k : string) : value :=
  match dict_lookup d k with Some v => v | None => VNone end.

(** [d.get(k, dflt)] *)
Definition dict_get_default (d : dict) (k : string) (dflt : value) : value :=
  match dict_lookup d k with Some v => v | None => dflt end.

(** [d[k] = v]: replaces in place, or appends a new entry *)
Fixpoint dict_setitem (d : dict) (k : string) (v : value) : dict :=
  match d with
  | [] => [(k, v)]
  | (k', v') :: d' =>
      if String.eqb k k' then (k', v) :: d' else (k', v') :: dict_setitem d' k v
  end.

(** [x.get(k, dflt)] on an arbitrary object: only a [dict] has the method. *)
Definition get (x : value) (k : string) (dflt : value) : result value :=
  match x with
  | VDict d => Ok (dict_get_default d k dflt)
  | _ => Raise AttributeError
  end.

(** *** Truth value and [or] *)

Definition float_is_zero (f : float) : bool :=
  match f with S754_zero _ => true | _ => false end.

Definition truthy (v : value) : bool :=
  match v with
  | VNone => false
  | VBool b => b
  | VInt z => negb (Z.eqb z 0)
  | VFloat f => negb (float_is_zero f)
  | VStr s => negb (String.eqb s "")
  | VList l => match l with [] => false | _ => true end
  | VDict d => match d with [] => false | _ => true end
  end.

(** [a or b] *)
Definition or_ (a b : value) : value := if truthy a then a else b.

(** *** Text *)

(** [str.isspace] on the code points below 256 *)
Definition isspace (c : ascii) : bool :=
  let n := nat_of_ascii c in
  ((9 <=? n) && (n <=? 13) || (28 <=? n) && (n <=? 32)
   || (n =? 133) || (n =? 160))%nat.

Fixpoint lstrip (s : string) : string :=
  match s with
  | String c s' => if isspace c then lstrip s' else s
  | EmptyString => EmptyString
  end.

Fixpoint rev_append (s acc : string) : string :=
  match s with
  | EmptyString => acc
  | String c s' => rev_append s' (String c acc)
  end.

Definition reverse (s : string) : string := rev_append s EmptyString.

Definition rstrip (s : string) : string := reverse (lstrip (reverse s)).

(** [s.strip()] *)
Definition strip (s : string) : string := rstrip (lstrip s).

(** [s.startswith(p)], [s.endswith(p)] *)
Definition startswith (s p : string) : bool := String.prefix p s.
Definition endswith (s p : string) : bool :=
  String.prefix (reverse p) (reverse s).

(** [s[n:]], [s[:n]], [s[a:b]] and [s[:-n]] for non-negative literals *)
Fixpoint slice_from (n : N) (s : string) : string :=
  match s with
  | EmptyString => EmptyString
  | String _ s' => if (n =? 0)%N then s else slice_from (N.pred n) s'
  end.

Fixpoint slice_to (n : N) (s : string) : string :=
  match s with
  | EmptyString => EmptyString
  | String c s' =>
      if (n =? 0)%N then EmptyString else String c (slice_to (N.pred n) s')
  end.

Definition slice (a b : N) (s : string) : string :=
  slice_to (b - a) (slice_from a s).

Definition slice_drop_last (n : N) (s : string) : string :=
  slice_to (N.of_nat (String.length s) - n) s.

(** [p in s] for two texts *)
Fixpoint substring_of (p s : string) : bool :=
  String.prefix p s
  || match s with
     | EmptyString => false
     | String _ s' => substring_of p s'
     end.

(** [sep.join(parts)] *)
Fixpoint join (sep : string) (parts : list string) : string :=
  match parts with
  | [] => ""
  | [p] => p
  | p :: rest => p ++ sep ++ join sep rest
  end.

(** *** The operators [in], [x[k]] and iteration on arbitrary objects *)

(** [k in x] for a text [k] *)
Definition contains (x : value) (k : string) : result bool :=
  match x with
  | VDict d => Ok (dict_contains d k)
  | VList l =>
      Ok (existsb (fun v => match v with VStr s => String.eqb s k | _ => false end) l)
  | VStr s => Ok (substring_of k s)
  | _ => Raise TypeError
  end.

(** [x[k]] for a text [k] *)
Definition getitem (x : value) (k : string) : result value :=
  match x with
  | VDict d =>
      match dict_lookup d k with Some v => Ok v | None => Raise KeyError end
  | _ => Raise TypeError
  end.

(** [x[k] = v] for a text [k] *)
Definition setitem (x : value) (k : string) (v : value) : result value :=
  match x with
  | VDict d => Ok (VDict (dict_setitem d k v))
  | _ => Raise TypeError
  end.

Fixpoint chars (s : string) : list value :=
  match s with
  | EmptyString => []
  | String c s' => VStr (String c EmptyString) :: chars s'
  end.

(** the elements [for e in x] walks through *)
Definition iter (x : value) : result (list value) :=
  match x with
  | VList l => Ok l
  | VDict d => Ok (map (fun kv => VStr (fst kv)) d)
  | VStr s => Ok (chars s)
  | _ => Raise TypeError
  end.

(** *** What the libraries decide

    How [json.loads] decodes, what pydantic's lax mode makes of a text or a
    number given for a date, a float or a boolean, and how Python prints a
    float, a list or an exception are the libraries' business: they are the
    fields of [Library], and every definition below works for any of them. *)

(** [datetime.date] *)
Record date : Type := mk_date { year : Z; month : Z; day : Z }.

(** [datetime.datetime]: a reading of the wall clock, in microseconds *)
Definition datetime : Type := Z.

Class Library : Type := {
  (** [json.loads]; [None] when it raises [JSONDecodeError] *)
  json_loads : string -> option value;
  (** lax coercion to [float] of a [str] or a [bool] *)
  lax_float : value -> option float;
  (** lax coercion to [date] of a value other than [None] *)
  lax_date : value -> option date;
  (** lax coercion to [bool] of a value other than a [bool] *)
  lax_bool : value -> option bool;
  (** lax coercion to [int] of a value other than an [int] *)
  lax_int : value -> option Z;
  (** [repr] of a float, a list or a dict *)
  py_repr : value -> string;
  (** [str(e)] for an exception *)
  exn_str : exn -> string
}.

Definition nl : string := String (ascii_of_nat 10) EmptyString.
Definition dq : string := String (ascii_of_nat 34) EmptyString.

(** what an f-string prints for a value *)
Definition format_value {L : Library} (v : value) : string :=
  match v with
  | VStr s => s
  | VNone => "None"
  | VBool true => "True"
  | VBool false => "False"
  | VInt z => DecimalString.NilZero.string_of_int (Z.to_int z)
  | _ => py_repr v
  end.

End Py.

Notation "x <- m ;; k" := (Py.bind m (fun x => k))
  (at level 61, m at next level, right associativity).

(** ** [src/models.py]: the pydantic models *)

Module Models.
Import Py.

(** *** Enumerations *)

Definition SchemeType : list string :=
  ["BUY_SIDE"; "SELL_SIDE"; "ONE_OFF"; "OTHER"].

Definition SchemeSubType : list string :=
  ["PERIODIC_CLAIM"; "PDC"; "PUC_FDC"; "COUPON"; "SUPER_COIN"; "PREXO";
   "BANK_OFFER"; "LIFESTYLE"; "ONE_OFF"; "OTHER"].

Definition DiscountType : list string :=
  ["PERCENTAGE"; "FLAT"; "SLAB"; "OTHER"].

(** *** Field validators *)

Section Validators.
Context {L : Library}.

(** A [str]-valued [Enum] accepts exactly the texts that are values of the
    enumeration; with [use_enum_values] the field then holds that text. *)
Definition validate_enum (members : list string) (v : value) : option string :=
  match v with
  | VStr s => if existsb (String.eqb s) members then Some s else None
  | _ => None
  end.

Definition validate_str (v : value) : option string :=
  match v with
  | VStr s => Some s
  | _ => None
  end.

Definition coerce_float (v : value) : option float :=
  match v with
  | VFloat f => Some f
  | VInt z => float_of_int z
  | VStr _ | VBool _ => lax_float v
  | _ => None
  end.

(** [Field(ge=..., le=...)] on a float: accepted when [f >= ge] and
    [f <= le] hold, which they never do of a NaN *)
Definition validate_float (ge le : option float) (v : value) : option float :=
  match coerce_float v with
  | Some f =>
      let at_least := match ge with Some b => SFleb b f | None => true end in
      let at_most := match le with Some b => SFleb f b | None => true end in
      if at_least && at_most then Some f else None
  | None => None
  end.

Definition validate_date (v : value) : option date :=
  match v with
  | VNone => None
  | _ => lax_date v
  end.

Definition validate_bool (v : value) : option bool :=
  match v with
  | VBool b => Some b
  | _ => lax_bool v
  end.

Definition validate_int_ge0 (v : value) : option Z :=
  match (match v with VInt z => Some z | _ => lax_int v end) with
  | Some z => if (z <? 0)%Z then None else Some z
  | None => None
  end.

(** [Optional[T]] *)
Definition optional {A} (f : value -> option A) (v : value) : option (option A) :=
  match v with
  | VNone => Some None
  | _ => option_map Some (f v)
  end.

(** a field without default: the keyword must be given *)
Definition required {A} (f : value -> option A) (kw : dict) (k : string) : option A :=
  match dict_lookup kw k with
  | Some v => f v
  | None => None
  end.

(** a field with a default: used when the keyword is not given *)
Definition defaulted {A} (dflt : A) (f : value -> option A) (kw : dict) (k : string)
  : option A :=
  match dict_lookup kw k with
  | Some v => f v
  | None => Some dflt
  end.

End Validators.

(** *** [SchemeHeader] *)

Record SchemeHeader : Type := mk_SchemeHeader {
  scheme_type : string;
  scheme_sub_type : string;
  scheme_name : string;
  duration_start_date : option date;
  duration_end_date : option date;
  starting_at : option date;
  ending_at : option date;
  price_drop_date : option date;
  discount_type : option string;
  discount_value : option float;
  min_order_value : option float;
  max_discount_cap : option float;
  vendor_name : option string;
  category : option string;
  remarks : option string;
  confidence : float;
  needs_escalation : bool;
  source_file : option string;
  extracted_at : datetime
}.

Notation "x <-? m ;; k" := (match m with Some x => k | None => None end)
  (at level 61, m at next level, right associativity).

Section Constructors.
Context {L : Library}.

(** the validated fields of a [SchemeHeader] built from the keywords [kw];
    [now] is the reading that [default_factory=datetime.now] gives
    [extracted_at] *)
Definition SchemeHeader_fields (now : datetime) (kw : dict) : option SchemeHeader :=
  f1 <-? required (validate_enum SchemeType) kw "scheme_type" ;;
  f2 <-? required (validate_enum SchemeSubType) kw "scheme_sub_type" ;;
  f3 <-? required validate_str kw "scheme_name" ;;
  f4 <-? defaulted None (optional validate_date) kw "duration_start_date" ;;
  f5 <-? defaulted None (optional validate_date) kw "duration_end_date" ;;
  f6 <-? defaulted None (optional validate_date) kw "starting_at" ;;
  f7 <-? defaulted None (optional validate_date) kw "ending_at" ;;
  f8 <-? defaulted None (optional validate_date) kw "price_drop_date" ;;
  f9 <-? defaulted None (optional (validate_enum DiscountType)) kw "discount_type" ;;
  f10 <-? defaulted None (optional (validate_float (Some float_zero) None)) kw "discount_value" ;;
  f11 <-? defaulted None (optional (validate_float (Some float_zero) None)) kw "min_order_value" ;;
  f12 <-? defaulted None (optional (validate_float (Some float_zero) None)) kw "max_discount_cap" ;;
  f13 <-? defaulted None (optional validate_str) kw "vendor_name" ;;
  f14 <-? defaulted None (optional validate_str) kw "category" ;;
  f15 <-? defaulted None (optional validate_str) kw "remarks" ;;
  f16 <-? required (validate_float (Some float_zero) (Some float_one)) kw "confidence" ;;
  f17 <-? defaulted false validate_bool kw "needs_escalation" ;;
  f18 <-? defaulted None (optional validate_str) kw "source_file" ;;
  Some (mk_SchemeHeader f1 f2 f3 f4 f5 f6 f7 f8 f9 f10 f11 f12 f13 f14 f15 f16
          f17 f18 now).

(** the constructor call: [ValidationError] when a field is rejected *)
Definition SchemeHeader_init (now : datetime) (kw : dict) : result SchemeHeader :=
  match SchemeHeader_fields now kw with
  | Some r => Ok r
  | None => Raise ValidationError
  end.

End Constructors.

End Models.

(** ** [LLMResponse] of [src/models.py] *)

Module Response.
Import Py Models.

Record LLMResponse : Type := mk_LLMResponse {
  schemes : list SchemeHeader;
  raw_response : option string;
  tokens_used : option Z;
  model_used : option string;
  reasoning : option string;
  cot_steps : list dict
}.

(** [List[Dict[str, Any]]] *)
Fixpoint validate_dict_list_items (l : list value) : option (list dict) :=
  match l with
  | [] => Some []
  | VDict d :: rest =>
      match validate_dict_list_items rest with
      | Some ds => Some (d :: ds)
      | None => None
      end
  | _ :: _ => None
  end.

Definition validate_dict_list (v : value) : option (list dict) :=
  match v with
  | VList l => validate_dict_list_items l
  | _ => None
  end.

Definition LLMResponse_init {L : Library} (the_schemes : list SchemeHeader) (kw : dict)
  : result LLMResponse :=
  match
    (f2 <-? defaulted None (optional validate_str) kw "raw_response" ;;
     f3 <-? defaulted None (optional validate_int_ge0) kw "tokens_used" ;;
     f4 <-? defaulted None (optional validate_str) kw "model_used" ;;
     f5 <-? defaulted None (optional validate_str) kw "reasoning" ;;
     f6 <-? defaulted [] validate_dict_list kw "cot_steps" ;;
     Some (mk_LLMResponse the_schemes f2 f3 f4 f5 f6))
  with
  | Some r => Ok r
  | None => Raise ValidationError
  end.

(** the property [needs_escalation]: [any(...)] over the schemes *)
Definition needs_escalation (r : LLMResponse) : bool :=
  existsb Models.needs_escalation (schemes r).

(** the property [average_confidence]; the sum runs left to right from
    the integer 0 *)
Definition average_confidence (r : LLMResponse) : float :=
  match schemes r with
  | [] => float_zero
  | _ =>
      SFdiv prec emax
        (fold_left (fun acc s => SFadd prec emax acc (confidence s)) (schemes r)
           float_zero)
        (binary_normalize prec emax (Z.of_nat (List.length (schemes r))) 0 false)
  end.

End Response.

(** ** [src/llm/dspy_modules.py]: class [SchemeExtractor] *)

Module DspyModules.
Import Py Models.

(** a lookup [table.get(key, dflt)] in a dict literal with text keys: a
    list or a dict as [key] is unhashable *)
Definition table_get (table : list (string * string)) (key : value) (dflt : string)
  : result value :=
  match key with
  | VStr s =>
      Ok (VStr (match find (fun kv => String.eqb s (fst kv)) table with
                | Some kv => snd kv
                | None => dflt
                end))
  | VList _ | VDict _ => Raise TypeError
  | _ => Ok (VStr dflt)
  end.

(** the text between the fences: [strip], drop a leading [```json], a
    leading [```], a trailing [```], [strip] again *)
Definition clean (response : string) : string :=
  let cleaned := strip response in
  let cleaned :=
    if startswith cleaned "```json" then slice_from 7 cleaned else cleaned in
  let cleaned :=
    if startswith cleaned "```" then slice_from 3 cleaned else cleaned in
  let cleaned :=
    if endswith cleaned "```" then slice_drop_last 3 cleaned else cleaned in
  strip cleaned.

(** [x.strip()] and the slices need a [str] *)
Definition as_str (x : value) : result string :=
  match x with
  | VStr s => Ok s
  | _ => Raise AttributeError
  end.

Definition loads {L : Library} (text : string) : result value :=
  match json_loads text with
  | Some v => Ok v
  | None => Raise JSONDecodeError
  end.


(** Both extractors parse a completion with the same statements, up to the
    body of the [try] inside the loop: [collect] is the loop
    [for scheme_data in data["schemes"]] over that body, and [parse_with]
    the method around it.  [clock n] is the [n]-th reading of
    [datetime.now] since the call began, one per constructor call.  A
    [ValidationError] skips the record ([continue]), any other exception
    leaves the loop. *)
Fixpoint collect (body : datetime -> value -> result SchemeHeader)
    (clock : nat -> datetime) (n : nat) (items : list value)
    (schemes : list SchemeHeader) : result (list SchemeHeader) :=
  match items with
  | [] => Ok schemes
  | scheme_data :: rest =>
      match body (clock n) scheme_data with
      | Ok scheme => collect body clock (S n) rest (schemes ++ [scheme])%list
      | Raise ValidationError => collect body clock (S n) rest schemes
      | Raise e => Raise e
      end
  end.

Definition parse_with {L : Library} (body : datetime -> value -> result SchemeHeader)
    (clock : nat -> datetime) (response : value) : result (list SchemeHeader) :=
  try_except
    (text <- as_str response ;;
     let cleaned := clean text in
     data <- loads cleaned ;;
     has <- contains data "schemes" ;;
     if negb has then Ok []
     else
       items <- getitem data "schemes" ;;
       items <- iter items ;;
       collect body clock 0 items [])
    (fun e =>
       match e with
       | JSONDecodeError => Ok []
       | _ => Ok []
       end).

Definition discount_type_map : list (string * string) :=
  [("Percentage of MRP", "PERCENTAGE");
   ("Percentage of NLC", "PERCENTAGE");
   ("Absolute", "FLAT");
   ("Other", "OTHER")].

Section Methods.
Context {L : Library}.

Definition _map_to_scheme_header (now : datetime) (data : value)
  : result SchemeHeader :=
  discount_type <- get data "discount_type" VNone ;;
  discount_type <-
    (if truthy discount_type
     then table_get discount_type_map discount_type "OTHER"
     else Ok discount_type) ;;
  a_scheme_type <- get data "scheme_type" (VStr "OTHER") ;;
  a_scheme_sub_type <- get data "scheme_sub_type" (VStr "OTHER") ;;
  a_scheme_name <- get data "scheme_name" (VStr "") ;;
  a_duration_start_date <- get data "duration_start_date" VNone ;;
  a_duration_end_date <- get data "duration_end_date" VNone ;;
  a_starting_at <- get data "starting_at" VNone ;;
  a_ending_at <- get data "ending_at" VNone ;;
  a_price_drop_date <- get data "price_drop_date" VNone ;;
  a_discount_value <- get data "global_cap_amount" VNone ;;
  a_max_discount_cap <- get data "global_cap_amount" VNone ;;
  a_remarks <- get data "description" VNone ;;
  a_confidence <- get data "confidence" (VFloat float_half) ;;
  a_needs_escalation <- get data "needs_escalation" (VBool false) ;;
  SchemeHeader_init now
    [("scheme_type", a_scheme_type);
     ("scheme_sub_type", a_scheme_sub_type);
     ("scheme_name", a_scheme_name);
     ("duration_start_date", a_duration_start_date);
     ("duration_end_date", a_duration_end_date);
     ("starting_at", a_starting_at);
     ("ending_at", a_ending_at);
     ("price_drop_date", a_price_drop_date);
     ("discount_type", discount_type);
     ("discount_value", a_discount_value);
     ("min_order_value", VNone);
     ("max_discount_cap", a_max_discount_cap);
     ("vendor_name", VNone);
     ("category", VNone);
     ("remarks", a_remarks);
     ("confidence", a_confidence);
     ("needs_escalation", a_needs_escalation)].

Definition _parse_response (clock : nat -> datetime) (response : value)
  : result (list SchemeHeader) :=
  parse_with _map_to_scheme_header clock response.

End Methods.
End DspyModules.

(** ** [src/llm/dspy_pipeline.py]: classes [SchemeExtractionCoT] and
    [DSPySchemeExtractor] *)

Module DspyPipeline.
Import Py Models Response.

(** [p.name] on the prediction a reasoning stage returns *)
Definition attr (p : dict) (name : string) : result value :=
  match dict_lookup p name with
  | Some v => Ok v
  | None => Raise AttributeError
  end.

(** [sep.join(items)]: every item has to be a text *)
Fixpoint join_values (sep : string) (items : list value) : result string :=
  match items with
  | [] => Ok ""
  | [VStr s] => Ok s
  | VStr s :: rest => r <- join_values sep rest ;; Ok (s ++ sep ++ r)
  | _ => Raise TypeError
  end.

Fixpoint reasonings (steps : list value) : result (list value) :=
  match steps with
  | [] => Ok []
  | step :: rest =>
      r <- getitem step "reasoning" ;;
      rs <- reasonings rest ;;
      Ok (r :: rs)
  end.

(** The seven reasoning stages ([dspy.ChainOfThought] modules): each call
    returns a prediction or raises. *)
Class Stages : Type := {
  extract_key_facts : string -> string -> result dict;
  classify_scheme : value -> value -> string -> result dict;
  extract_dates : string -> string -> result dict;
  extract_financials : string -> string -> result dict;
  extract_vendors : string -> value -> result dict;
  extract_schemes : string -> string -> result dict;
  assess_confidence : value -> string -> result dict
}.

(** The language-model client as [extract] sees it. *)
Record LM : Type := mk_LM {
  model_name : string;
  get_usage_stats : result value
}.

(** *** [SchemeExtractionCoT.forward]

    The body of the [try] appends to [cot_steps] as it goes, and the
    handler returns the steps appended before the exception: a state and
    error monad over the list of steps. *)

Definition M (A : Type) : Type := list value -> list value * result A.

Definition ret {A} (a : A) : M A := fun st => (st, Ok a).

Definition bindM {A B} (m : M A) (k : A -> M B) : M B :=
  fun st =>
    match m st with
    | (st', Ok a) => k a st'
    | (st', Raise e) => (st', Raise e)
    end.

Definition lift {A} (r : result A) : M A := fun st => (st, r).

Definition append_step (step : value) : M unit := fun st => ((st ++ [step])%list, Ok tt).

Definition get_steps : M (list value) := fun st => (st, Ok st).

Notation "x <~ m ;; k" := (bindM m (fun x => k))
  (at level 61, m at next level, right associativity).

Definition mk_step (name : string) (output : dict) (the_reasoning : value) : value :=
  VDict [("step", VStr name); ("output", VDict output); ("reasoning", the_reasoning)].

Definition failed_schemes_json : string :=
  "{" ++ dq ++ "schemes" ++ dq ++ ": []}".

Section Forward.
Context {L : Library} {St : Stages}.

Definition forward_try (mail_subject mail_body : string) : M value :=
  (* Step 1 *)
  facts <~ lift (extract_key_facts mail_subject (slice_to 8000 mail_body)) ;;
  scheme_names <~ lift (attr facts "scheme_names") ;;
  key_dates <~ lift (attr facts "key_dates") ;;
  key_amounts <~ lift (attr facts "key_amounts") ;;
  keywords <~ lift (attr facts "keywords") ;;
  vendor_names <~ lift (attr facts "vendor_names") ;;
  r1 <~ lift (attr facts "reasoning") ;;
  _ <~ append_step
         (mk_step "1_key_facts"
            [("scheme_names", scheme_names); ("key_dates", key_dates);
             ("key_amounts", key_amounts); ("keywords", keywords);
             ("vendor_names", vendor_names)] r1) ;;
  (* Step 2 *)
  classification <~
    lift (classify_scheme scheme_names keywords (slice_to 5000 mail_body)) ;;
  c_type <~ lift (attr classification "scheme_type") ;;
  c_sub_type <~ lift (attr classification "scheme_sub_type") ;;
  c_confidence <~ lift (attr classification "confidence") ;;
  r2 <~ lift (attr classification "reasoning") ;;
  _ <~ append_step
         (mk_step "2_classification"
            [("scheme_type", c_type); ("scheme_sub_type", c_sub_type);
             ("confidence", c_confidence)] r2) ;;
  (* Step 3 *)
  dates <~
    lift (extract_dates (slice_to 6000 mail_body)
            ("Keywords: " ++ format_value keywords ++ ", Dates mentioned: "
             ++ format_value key_dates)) ;;
  d_start <~ lift (attr dates "duration_start_date") ;;
  d_end <~ lift (attr dates "duration_end_date") ;;
  d_starting <~ lift (attr dates "starting_at") ;;
  d_ending <~ lift (attr dates "ending_at") ;;
  d_price_drop <~ lift (attr dates "price_drop_date") ;;
  r3 <~ lift (attr dates "reasoning") ;;
  _ <~ append_step
         (mk_step "3_dates"
            [("duration_start_date", d_start); ("duration_end_date", d_end);
             ("starting_at", d_starting); ("ending_at", d_ending);
             ("price_drop_date", d_price_drop)] r3) ;;
  (* Step 4 *)
  financials <~
    lift (extract_financials (slice_to 6000 mail_body) (slice 6000 12000 mail_body)) ;;
  f_type <~ lift (attr financials "discount_type") ;;
  f_value <~ lift (attr financials "discount_value") ;;
  f_min <~ lift (attr financials "min_order_value") ;;
  f_cap <~ lift (attr financials "max_discount_cap") ;;
  f_gst <~ lift (attr financials "gst_rate") ;;
  f_brand <~ lift (attr financials "brand_support_absolute") ;;
  r4 <~ lift (attr financials "reasoning") ;;
  _ <~ append_step
         (mk_step "4_financials"
            [("discount_type", f_type); ("discount_value", f_value);
             ("min_order_value", f_min); ("max_discount_cap", f_cap);
             ("gst_rate", f_gst); ("brand_support_absolute", f_brand)] r4) ;;
  (* Step 5 *)
  vendors <~ lift (extract_vendors (slice 6000 12000 mail_body) vendor_names) ;;
  vendors_json <~ lift (attr vendors "vendors_json") ;;
  r5 <~ lift (attr vendors "reasoning") ;;
  _ <~ append_step (mk_step "5_vendors" [("vendors_json", vendors_json)] r5) ;;
  (* Step 6 *)
  let context_summary :=
    nl ++ "Subject: " ++ mail_subject ++ nl ++ nl
    ++ "Classification: " ++ format_value c_type ++ " - "
    ++ format_value c_sub_type ++ nl
    ++ "Dates: " ++ format_value d_start ++ " to " ++ format_value d_end ++ nl
    ++ "Discount: " ++ format_value f_type ++ " - " ++ format_value f_value ++ nl
    ++ "Vendors: " ++ format_value vendors_json ++ nl in
  extraction <~
    lift (extract_schemes mail_subject
            (context_summary ++ "\n\n" ++ slice_to 10000 mail_body)) ;;
  schemes_json <~ lift (attr extraction "schemes_json") ;;
  r6 <~ lift (attr extraction "reasoning") ;;
  _ <~ append_step (mk_step "6_full_extraction" [("schemes_json", schemes_json)] r6) ;;
  (* Step 7 *)
  steps <~ get_steps ;;
  rs <~ lift (reasonings steps) ;;
  all_reasoning <~ lift (join_values "\n\n" rs) ;;
  the_confidence <~ lift (assess_confidence schemes_json all_reasoning) ;;
  confidence_score <~ lift (attr the_confidence "confidence_score") ;;
  escalation <~ lift (attr the_confidence "needs_escalation") ;;
  missing_fields <~ lift (attr the_confidence "missing_fields") ;;
  quality_issues <~ lift (attr the_confidence "quality_issues") ;;
  r7 <~ lift (attr the_confidence "reasoning") ;;
  _ <~ append_step
         (mk_step "7_confidence"
            [("confidence_score", confidence_score);
             ("needs_escalation", escalation);
             ("missing_fields", missing_fields);
             ("quality_issues", quality_issues)] r7) ;;
  steps <~ get_steps ;;
  ret (VDict [("schemes_json", schemes_json);
              ("reasoning", VStr all_reasoning);
              ("cot_steps", VList steps);
              ("confidence_score", confidence_score);
              ("needs_escalation", escalation)]).

Definition forward (mail_subject mail_body : string) : value :=
  match forward_try mail_subject mail_body [] with
  | (_, Ok r) => r
  | (steps, Raise e) =>
      VDict [("schemes_json", VStr failed_schemes_json);
             ("reasoning", VStr ("Extraction failed: " ++ exn_str e));
             ("cot_steps", VList steps);
             ("confidence_score", VFloat float_zero);
             ("needs_escalation", VBool true)]
  end.

End Forward.
(** *** [DSPySchemeExtractor] *)

Definition discount_type_map : list (string * string) :=
  [("Percentage of MRP", "PERCENTAGE");
   ("Percentage of NLC", "PERCENTAGE");
   ("Absolute", "FLAT");
   ("PERCENTAGE", "PERCENTAGE");
   ("FLAT", "FLAT");
   ("SLAB", "SLAB");
   ("Other", "OTHER")].

Section Methods.
Context {L : Library} {St : Stages}.
Variable llm : LM.

Definition _map_to_scheme_header (now : datetime) (data : value)
  : result SchemeHeader :=
  discount_type <- get data "discount_type" VNone ;;
  discount_type <-
    (if truthy discount_type
     then DspyModules.table_get discount_type_map discount_type "OTHER"
     else Ok discount_type) ;;
  a_scheme_type <- get data "scheme_type" (VStr "OTHER") ;;
  a_scheme_sub_type <- get data "scheme_sub_type" (VStr "OTHER") ;;
  a_scheme_name <- get data "scheme_name" (VStr "") ;;
  a_duration_start_date <- get data "duration_start_date" VNone ;;
  a_duration_end_date <- get data "duration_end_date" VNone ;;
  a_starting_at <- get data "starting_at" VNone ;;
  a_ending_at <- get data "ending_at" VNone ;;
  a_price_drop_date <- get data "price_drop_date" VNone ;;
  v_discount_value <- get data "discount_value" VNone ;;
  v_global_cap_amount <- get data "global_cap_amount" VNone ;;
  a_min_order_value <- get data "min_order_value" VNone ;;
  v_max_discount_cap <- get data "max_discount_cap" VNone ;;
  a_vendor_name <- get data "vendor_name" VNone ;;
  a_category <- get data "category" VNone ;;
  v_description <- get data "description" VNone ;;
  v_remarks <- get data "remarks" VNone ;;
  a_confidence <- get data "confidence" (VFloat float_half) ;;
  a_needs_escalation <- get data "needs_escalation" (VBool false) ;;
  SchemeHeader_init now
    [("scheme_type", a_scheme_type);
     ("scheme_sub_type", a_scheme_sub_type);
     ("scheme_name", a_scheme_name);
     ("duration_start_date", a_duration_start_date);
     ("duration_end_date", a_duration_end_date);
     ("starting_at", a_starting_at);
     ("ending_at", a_ending_at);
     ("price_drop_date", a_price_drop_date);
     ("discount_type", discount_type);
     ("discount_value", or_ v_discount_value v_global_cap_amount);
     ("min_order_value", a_min_order_value);
     ("max_discount_cap", or_ v_max_discount_cap v_global_cap_amount);
     ("vendor_name", a_vendor_name);
     ("category", a_category);
     ("remarks", or_ v_description v_remarks);
     ("confidence", a_confidence);
     ("needs_escalation", a_needs_escalation)].

(** the two [if ... not in scheme_data] assignments before the mapping *)
Definition apply_defaults (scheme_data default_confidence default_escalation : value)
  : result value :=
  has <- contains scheme_data "confidence" ;;
  scheme_data <-
    (if negb has then setitem scheme_data "confidence" default_confidence
     else Ok scheme_data) ;;
  has <- contains scheme_data "needs_escalation" ;;
  if negb has then setitem scheme_data "needs_escalation" default_escalation
  else Ok scheme_data.

(** the body of the [try] inside the loop *)
Definition loop_body (default_confidence default_escalation : value)
    (now : datetime) (scheme_data : value) : result SchemeHeader :=
  scheme_data <- apply_defaults scheme_data default_confidence default_escalation ;;
  _map_to_scheme_header now scheme_data.

Definition _parse_schemes_json (clock : nat -> datetime) (schemes_json : value)
    (default_confidence default_escalation : value)
  : result (list SchemeHeader) :=
  DspyModules.parse_with (loop_body default_confidence default_escalation)
    clock schemes_json.

Definition extract (clock : nat -> datetime) (email_subject email_body : string)
  : result LLMResponse :=
  try_except
    (let result := forward email_subject email_body in
     schemes_json <- getitem result "schemes_json" ;;
     default_confidence <- get result "confidence_score" (VFloat float_half) ;;
     default_escalation <- get result "needs_escalation" (VBool false) ;;
     the_schemes <-
       _parse_schemes_json clock schemes_json default_confidence default_escalation ;;
     usage_stats <- get_usage_stats llm ;;
     total_tokens <- get usage_stats "total_tokens" VNone ;;
     the_raw_response <- getitem result "schemes_json" ;;
     the_reasoning <- get result "reasoning" (VStr "") ;;
     the_cot_steps <- get result "cot_steps" (VList []) ;;
     LLMResponse_init the_schemes
       [("raw_response", the_raw_response);
        ("tokens_used", total_tokens);
        ("model_used", VStr (model_name llm));
        ("reasoning", the_reasoning);
        ("cot_steps", the_cot_steps)])
    (fun e =>
       LLMResponse_init []
         [("raw_response", VStr (exn_str e));
          ("model_used", VStr (model_name llm));
          ("reasoning", VStr ("Extraction failed: " ++ exn_str e));
          ("cot_steps", VList [])]).

End Methods.
End DspyPipeline.

(** ** [hashlib.md5] (RFC 1321) on byte lists *)

Module Hashlib.
Local Open Scope Z_scope.

Definition mask32 : Z := 0xFFFFFFFF.
Definition add32 (a b : Z) : Z := Z.land (a + b) mask32.
Definition not32 (a : Z) : Z := Z.lxor a mask32.
Definition rotl32 (x c : Z) : Z :=
  Z.land (Z.lor (Z.shiftl x c) (Z.shiftr x (32 - c))) mask32.

Definition shifts : list Z :=
  [7; 12; 17; 22; 7; 12; 17; 22; 7; 12; 17; 22; 7; 12; 17; 22;
   5; 9; 14; 20; 5; 9; 14; 20; 5; 9; 14; 20; 5; 9; 14; 20;
   4; 11; 16; 23; 4; 11; 16; 23; 4; 11; 16; 23; 4; 11; 16; 23;
   6; 10; 15; 21; 6; 10; 15; 21; 6; 10; 15; 21; 6; 10; 15; 21].

Definition sines : list Z :=
  [0xd76aa478; 0xe8c7b756; 0x242070db; 0xc1bdceee;
   0xf57c0faf; 0x4787c62a; 0xa8304613; 0xfd469501;
   0x698098d8; 0x8b44f7af; 0xffff5bb1; 0x895cd7be;
   0x6b901122; 0xfd987193; 0xa679438e; 0x49b40821;
   0xf61e2562; 0xc040b340; 0x265e5a51; 0xe9b6c7aa;
   0xd62f105d; 0x02441453; 0xd8a1e681; 0xe7d3fbc8;
   0x21e1cde6; 0xc33707d6; 0xf4d50d87; 0x455a14ed;
   0xa9e3e905; 0xfcefa3f8; 0x676f02d9; 0x8d2a4c8a;
   0xfffa3942; 0x8771f681; 0x6d9d6122; 0xfde5380c;
   0xa4beea44; 0x4bdecfa9; 0xf6bb4b60; 0xbebfbc70;
   0x289b7ec6; 0xeaa127fa; 0xd4ef3085; 0x04881d05;
   0xd9d4d039; 0xe6db99e5; 0x1fa27cf8; 0xc4ac5665;
   0xf4292244; 0x432aff97; 0xab9423a7; 0xfc93a039;
   0x655b59c3; 0x8f0ccc92; 0xffeff47d; 0x85845dd1;
   0x6fa87e4f; 0xfe2ce6e0; 0xa3014314; 0x4e0811a1;
   0xf7537e82; 0xbd3af235; 0x2ad7d2bb; 0xeb86d391].

(** little-endian words and bytes *)
Definition word_of_bytes (b0 b1 b2 b3 : Z) : Z :=
  b0 + Z.shiftl b1 8 + Z.shiftl b2 16 + Z.shiftl b3 24.

Definition bytes_of_word (w : Z) : list Z :=
  [Z.land w 255; Z.land (Z.shiftr w 8) 255;
   Z.land (Z.shiftr w 16) 255; Z.land (Z.shiftr w 24) 255].

Fixpoint words_of_bytes (bs : list Z) : list Z :=
  match bs with
  | b0 :: b1 :: b2 :: b3 :: rest => word_of_bytes b0 b1 b2 b3 :: words_of_bytes rest
  | _ => []
  end.

Definition bytes_of_length (bits : Z) : list Z :=
  map (fun i => Z.land (Z.shiftr bits (8 * i)) 255) [0; 1; 2; 3; 4; 5; 6; 7].

(** the message, a byte 128, zero bytes up to 56 modulo 64, the bit length *)
Definition pad (msg : list Z) : list Z :=
  let len := Z.of_nat (List.length msg) in
  let zeros := Z.to_nat ((55 - len) mod 64) in
  msg ++ [128] ++ repeat 0 zeros ++ bytes_of_length (Z.land (8 * len) (2 ^ 64 - 1)).

Fixpoint blocks (fuel : nat) (bs : list Z) : list (list Z) :=
  match fuel, bs with
  | O, _ => []
  | _, [] => []
  | S fuel', _ => firstn 64 bs :: blocks fuel' (skipn 64 bs)
  end.

Definition state : Type := (Z * Z * Z * Z)%type.

Definition init : state := (0x67452301, 0xefcdab89, 0x98badcfe, 0x10325476).

Definition step (m : list Z) (st : state) (i : Z) : state :=
  let '(a, b, c, d) := st in
  let f :=
    if i <? 16 then Z.lor (Z.land b c) (Z.land (not32 b) d)
    else if i <? 32 then Z.lor (Z.land d b) (Z.land (not32 d) c)
    else if i <? 48 then Z.lxor b (Z.lxor c d)
    else Z.lxor c (Z.lor b (not32 d)) in
  let g :=
    if i <? 16 then i
    else if i <? 32 then (5 * i + 1) mod 16
    else if i <? 48 then (3 * i + 5) mod 16
    else (7 * i) mod 16 in
  let f' :=
    add32 (add32 (add32 f a) (nth (Z.to_nat i) sines 0)) (nth (Z.to_nat g) m 0) in
  (d, add32 b (rotl32 f' (nth (Z.to_nat i) shifts 0)), b, c).

Definition rounds : list Z := map Z.of_nat (seq 0 64).

Definition compress (st : state) (block : list Z) : state :=
  let m := words_of_bytes block in
  let '(a, b, c, d) := st in
  let '(a', b', c', d') := fold_left (step m) rounds st in
  (add32 a a', add32 b b', add32 c c', add32 d d').

(** [hashlib.md5(msg).digest()] *)
Definition md5 (msg : list Z) : list Z :=
  let padded := pad msg in
  let '(a, b, c, d) := fold_left compress (blocks (List.length padded) padded) init in
  bytes_of_word a ++ bytes_of_word b ++ bytes_of_word c ++ bytes_of_word d.

Definition hex_digit (n : Z) : ascii :=
  if n <? 10 then ascii_of_nat (Z.to_nat (48 + n))
  else ascii_of_nat (Z.to_nat (87 + n)).

Fixpoint hex (bs : list Z) : string :=
  match bs with
  | [] => EmptyString
  | b :: rest => String (hex_digit (Z.shiftr b 4)) (String (hex_digit (Z.land b 15)) (hex rest))
  end.

(** [hashlib.md5(msg).hexdigest()] *)
Definition md5_hexdigest (msg : list Z) : string := hex (md5 msg).

(** [text.encode()]: the UTF-8 bytes of a text of code points below 256.
    Such a text holds no surrogate, the one thing [encode] raises
    [UnicodeEncodeError] on, so the function is total here. *)
Fixpoint encode (text : string) : list Z :=
  match text with
  | EmptyString => []
  | String c rest =>
      let n := Z.of_nat (nat_of_ascii c) in
      if n <? 128 then n :: encode rest
      else (192 + Z.shiftr n 6) :: (128 + Z.land n 63) :: encode rest
  end.

End Hashlib.

(** ** [build_scheme_header.py]: the legacy CSV builder *)

Module BuildSchemeHeader.
Import Py.

(** [pd.DataFrame(rows)]: what pandas makes of the rows (its columns, their
    types, the value of a missing cell) is the library's business *)
Class Pandas : Type := {
  frame : Type;
  DataFrame : list dict -> frame
}.

Section Functions.
Context {L : Library}.

(** [raw_id], the f-string over the three identifying values *)
Definition raw_id (name start_date end_date : value) : string :=
  format_value name ++ "|" ++ format_value start_date ++ "|"
  ++ format_value end_date.

(** [hashlib.md5(raw_id.encode()).hexdigest()[:10]] *)
Definition scheme_id (name start_date end_date : value) : string :=
  slice_to 10
    (Hashlib.md5_hexdigest (Hashlib.encode (raw_id name start_date end_date))).

(** the body of the loop: the row appended for one scheme *)
Definition scheme_row (scheme source_file : value) : result dict :=
  name <- get scheme "scheme_name" VNone ;;
  start_date <- get scheme "duration_start_date" VNone ;;
  end_date <- get scheme "duration_end_date" VNone ;;
  let the_id := scheme_id name start_date end_date in
  c_type <- get scheme "scheme_type" VNone ;;
  c_sub_type <- get scheme "scheme_sub_type" VNone ;;
  c_name <- get scheme "scheme_name" VNone ;;
  c_scheme_description <- get scheme "scheme_description" VNone ;;
  c_description <- get scheme "description" VNone ;;
  c_period <- get scheme "scheme_period" VNone ;;
  c_start <- get scheme "duration_start_date" VNone ;;
  c_end <- get scheme "duration_end_date" VNone ;;
  c_discount_type <- get scheme "discount_type" VNone ;;
  c_cap <- get scheme "global_cap_amount" VNone ;;
  c_min <- get scheme "min_actual_or_agreed" VNone ;;
  c_gst <- get scheme "remove_gst_from_final_claim" VNone ;;
  c_over <- get scheme "over_and_above" VNone ;;
  c_slab <- get scheme "discount_slab_type" VNone ;;
  c_best <- get scheme "best_bet" VNone ;;
  c_brand <- get scheme "brand_support_absolute" VNone ;;
  c_rate <- get scheme "gst_rate" VNone ;;
  Ok [("scheme_id", VStr the_id);
      ("Scheme Type", c_type);
      ("Sub Type", c_sub_type);
      ("Scheme Name", c_name);
      ("Scheme description", c_scheme_description);
      ("Description", c_description);
      ("Scheme Period", c_period);
      ("Duration_start_date", c_start);
      ("Duration_end_date", c_end);
      ("DISCOUNT_TYPE", c_discount_type);
      ("GLOBAL_CAP_AMOUNT", c_cap);
      ("Minimum of actual discount OR agreed claim amount", c_min);
      ("Remove GST from final claim amount", c_gst);
      ("Over & Above", c_over);
      ("DISCOUNT_SLAB_TYPE", c_slab);
      ("BEST_BET", c_best);
      ("BRAND_SUPPORT_ABSOLUTE", c_brand);
      ("GST Rate", c_rate);
      ("Scheme Document", source_file);
      ("FSN File/Config File", VNone)].

Fixpoint rows_loop (items : list value) (source_file : value) (rows : list dict)
  : result (list dict) :=
  match items with
  | [] => Ok rows
  | scheme :: rest =>
      row <- scheme_row scheme source_file ;;
      rows_loop rest source_file (rows ++ [row])%list
  end.

(** the list [rows] once the loop is through *)
Definition rows_of (result source_file : value) : Py.result (list dict) :=
  items <- getitem result "schemes" ;;
  items <- iter items ;;
  rows_loop items source_file [].

Definition build_scheme_header {P : Pandas} (result source_file : value)
  : Py.result frame :=
  rows <- rows_of result source_file ;;
  Ok (DataFrame rows).

End Functions.
End BuildSchemeHeader.

(** ** [src/models.py]: the property [combined_body] of [ExtractionResult] *)

Module ExtractionResult.
Import Py.

Section Properties.
Context {L : Library}.

(** the part appended for the table numbered [i] *)
Definition table_part (i : Z) (table : dict) : string :=
  nl ++ nl ++ "TABLE " ++ format_value (VInt i) ++ ":" ++ nl
  ++ format_value (dict_get_default table "csv_content" (VStr "")).

(** the loop over [enumerate(self.tables, 1)], from the number [i] on *)
Fixpoint table_parts (i : Z) (tables : list dict) (body_parts : list string)
  : list string :=
  match tables with
  | [] => body_parts
  | table :: rest => table_parts (i + 1) rest (body_parts ++ [table_part i table])%list
  end.

Definition combined_body (full_text : string) (tables : list dict) : string :=
  join nl (table_parts 1 tables [full_text]).

End Properties.
End ExtractionResult.

(** ** More built-ins: [len], [x[0]], [+] and [json.dumps]

    An exception class that [exn] has no constructor for is an [External]
    with the name of the class. *)

Module Builtins.
Import Py.

Definition IndexError : exn := External "IndexError".
Definition OverflowError : exn := External "OverflowError".
Definition ValueError : exn := External "ValueError".

(** [len(x)] *)
Definition len (x : value) : result Z :=
  match x with
  | VStr s => Ok (Z.of_nat (String.length s))
  | VList l => Ok (Z.of_nat (List.length l))
  | VDict d => Ok (Z.of_nat (List.length d))
  | _ => Raise TypeError
  end.

(** [x[0]]: the keys of a decoded dictionary are texts, never [0] *)
Definition first (x : value) : result value :=
  match x with
  | VList (a :: _) => Ok a
  | VList [] => Raise IndexError
  | VStr (String c _) => Ok (VStr (String c EmptyString))
  | VStr EmptyString => Raise IndexError
  | VDict _ => Raise KeyError
  | _ => Raise TypeError
  end.

(** [x[:n]]; on a dictionary the slice is looked up as a key and the
    lookup fails, with [TypeError] before Python 3.12 *)
Definition prefix_slice (n : N) (x : value) : result value :=
  match x with
  | VStr s => Ok (VStr (slice_to n s))
  | VList l => Ok (VList (firstn (N.to_nat n) l))
  | _ => Raise TypeError
  end.

(** a number as a float, for an addition with a float *)
Definition as_float (v : value) : option (result float) :=
  match v with
  | VFloat f => Some (Ok f)
  | VInt z =>
      Some (match float_of_int z with Some f => Ok f | None => Raise OverflowError end)
  | VBool b => Some (Ok (if b then float_one else float_zero))
  | _ => None
  end.

Definition as_int (v : value) : option Z :=
  match v with
  | VInt z => Some z
  | VBool b => Some (if b then 1%Z else 0%Z)
  | _ => None
  end.

(** [a + b] *)
Definition add (a b : value) : result value :=
  match as_int a, as_int b with
  | Some x, Some y => Ok (VInt (x + y))
  | _, _ =>
      match as_float a, as_float b with
      | Some fa, Some fb =>
          x <- fa ;; y <- fb ;; Ok (VFloat (SFadd prec emax x y))
      | _, _ =>
          match a, b with
          | VStr s, VStr t => Ok (VStr (s ++ t))
          | VList l, VList m => Ok (VList (l ++ m))
          | _, _ => Raise TypeError
          end
      end
  end.

(** [json.dumps] is the library's *)
Class Encoder : Type := {
  json_dumps : value -> string
}.

End Builtins.

(** ** [src/llm/llm_client.py]: class [OpenRouterLLM]

    The request ([requests.post], [raise_for_status], [response.json]) is
    the field [post] of the client: it gives the decoded body of the
    answer or raises.  The attribute [history] is the state. *)

Module OpenRouterLLM.
Import Py Builtins DspyPipeline.

Record client : Type := mk_client {
  model_name : string;
  temperature : value;
  max_tokens : value;
  post : value -> result value
}.

Definition history : Type := list value.

Section Methods.
Variable self : client.

(** the body of the [try] once the answer has been decoded *)
Definition record_response (messages result : value) : M value :=
  has <~ lift (contains result "choices") ;;
  some <~ lift (if has
                then choices <- getitem result "choices" ;;
                     n <- len choices ;;
                     Ok (0 <? n)%Z
                else Ok false) ;;
  if some then
    choices <~ lift (getitem result "choices") ;;
    choice <~ lift (first choices) ;;
    message <~ lift (getitem choice "message") ;;
    response_text <~ lift (getitem message "content") ;;
    usage <~ lift (get result "usage" (VDict [])) ;;
    _ <~ append_step
           (VDict [("prompt", messages);
                   ("response", response_text);
                   ("model", VStr (model_name self));
                   ("usage", usage)]) ;;
    (* the two values the log line prints *)
    _ <~ lift (len response_text) ;;
    usage <~ lift (get result "usage" (VDict [])) ;;
    _ <~ lift (get usage "total_tokens" (VStr "unknown")) ;;
    ret (VList [response_text])
  else ret (VList [VStr ""]).

(** [self(prompt, messages, **kwargs)]; every handler of the [try] raises
    the exception again *)
Definition __call__ (prompt messages : value) (kwargs : dict) : M value :=
  messages <~
    lift (match messages with
          | VNone =>
              match prompt with
              | VNone => Raise ValueError
              | _ => Ok (VList [VDict [("role", VStr "user"); ("content", prompt)]])
              end
          | _ => Ok messages
          end) ;;
  let payload :=
    VDict [("model", VStr (model_name self));
           ("messages", messages);
           ("temperature", dict_get_default kwargs "temperature" (temperature self));
           ("max_tokens", dict_get_default kwargs "max_tokens" (max_tokens self))] in
  result <~ lift (post self payload) ;;
  record_response messages result.

End Methods.

(** the loop of [get_usage_stats] over the history *)
Fixpoint usage_loop (entries : history) (totals : value * value * value)
  : result (value * value * value) :=
  match entries with
  | [] => Ok totals
  | entry :: rest =>
      let '(total_prompt_tokens, total_completion_tokens, total_tokens) := totals in
      usage <- get entry "usage" (VDict []) ;;
      x <- get usage "prompt_tokens" (VInt 0) ;;
      total_prompt_tokens <- add total_prompt_tokens x ;;
      x <- get usage "completion_tokens" (VInt 0) ;;
      total_completion_tokens <- add total_completion_tokens x ;;
      x <- get usage "total_tokens" (VInt 0) ;;
      total_tokens <- add total_tokens x ;;
      usage_loop rest (total_prompt_tokens, total_completion_tokens, total_tokens)
  end.

Definition get_usage_stats (the_history : history) : result value :=
  totals <- usage_loop the_history (VInt 0, VInt 0, VInt 0) ;;
  let '(total_prompt_tokens, total_completion_tokens, total_tokens) := totals in
  Ok (VDict [("prompt_tokens", total_prompt_tokens);
             ("completion_tokens", total_completion_tokens);
             ("total_tokens", total_tokens);
             ("num_calls", VInt (Z.of_nat (List.length the_history)))]).

End OpenRouterLLM.

(** ** [src/llm/dspy_modules.py]: [SchemeExtractor.extract]

    The client [self.llm] is any object with a state: a call takes the
    messages and gives the responses or raises, [get_usage_stats] reads the
    state.  The text of [SCHEME_SYSTEM_PROMPT], which has characters beyond
    code point 255, is a variable. *)

Module SchemeExtractor.
Import Py Models Response Builtins.

Record LM (state : Type) : Type := mk_LM {
  __call__ : value -> state -> state * result value;
  get_usage_stats : state -> result value;
  model_name : string
}.
Arguments __call__ {state}.
Arguments get_usage_stats {state}.
Arguments model_name {state}.

Section Methods.
Context {L : Library} {E : Encoder}.
Variable SCHEME_SYSTEM_PROMPT : string.
Variable state : Type.
Variable llm : LM state.

(** the body of the [try] after the call *)
Definition read_responses (clock : nat -> datetime) (responses : value) (st : state)
  : result LLMResponse :=
  raw_response <- (if truthy responses then first responses else Ok (VStr "")) ;;
  _ <- prefix_slice 200 raw_response ;;
  the_schemes <- DspyModules._parse_response clock raw_response ;;
  usage_stats <- get_usage_stats llm st ;;
  total_tokens <- get usage_stats "total_tokens" VNone ;;
  LLMResponse_init the_schemes
    [("raw_response", raw_response);
     ("tokens_used", total_tokens);
     ("model_used", VStr (model_name llm))].

Definition extract (clock : nat -> datetime) (email_subject email_body : string)
    (st : state) : state * result LLMResponse :=
  let truncated_body := slice_to 12000 email_body in
  let user_content :=
    json_dumps (VDict [("mail_subject", VStr email_subject);
                       ("mail_body", VStr truncated_body)]) in
  let messages :=
    VList [VDict [("role", VStr "system"); ("content", VStr SCHEME_SYSTEM_PROMPT)];
           VDict [("role", VStr "user"); ("content", VStr user_content)]] in
  let '(st', responses) := __call__ llm messages st in
  (st',
   try_except
     (responses <- responses ;; read_responses clock responses st')
     (fun e =>
        LLMResponse_init []
          [("raw_response", VStr (exn_str e));
           ("model_used", VStr (model_name llm))])).

End Methods.

(** [OpenRouterLLM] as the client of the extractor *)
Definition open_router (self : OpenRouterLLM.client) : LM OpenRouterLLM.history := {|
  __call__ := fun messages => OpenRouterLLM.__call__ self VNone messages [];
  get_usage_stats := OpenRouterLLM.get_usage_stats;
  model_name := OpenRouterLLM.model_name self
|}.

End SchemeExtractor.

(** ** [build_scheme_header.py]: [call_llm]

    [create] stands for [client.chat.completions.create]: it gives the
    [message.content] of the choices of the completion, or raises.  The
    text of the prompt is a variable. *)

Module Legacy.
Import Py Builtins.

Section Functions.
Context {L : Library} {E : Encoder} {P : BuildSchemeHeader.Pandas}.
Variable SCHEME_SYSTEM_PROMPT : string.
Variable create : value -> result (list value).

(** [json.loads(x)] for an arbitrary object *)
Definition loads_object (x : value) : result value :=
  match x with
  | VStr s => DspyModules.loads s
  | _ => Raise TypeError
  end.

Definition call_llm (email_subject email_body : string) : result value :=
  let payload :=
    VDict [("mail_subject", VStr email_subject);
           ("mail_body", VStr (slice_to 12000 email_body))] in
  choices <-
    create
      (VDict [("model", VStr "gpt-4.1-mini");
              ("messages",
               VList [VDict [("role", VStr "system");
                             ("content", VStr SCHEME_SYSTEM_PROMPT)];
                      VDict [("role", VStr "user");
                             ("content", VStr (json_dumps payload))]]);
              ("response_format", VDict [("type", VStr "json_object")])]) ;;
  data <-
    try_except
      (content <- first (VList choices) ;; loads_object content)
      (fun _ => Ok (VDict [("schemes", VList [])])) ;;
  has <- contains data "schemes" ;;
  if negb has then setitem data "schemes" (VList []) else Ok data.

(** one pass of the loop of [main]: the frame of one email *)
Definition rows_of_email (email_subject email_body : string) (source_file : value)
  : result BuildSchemeHeader.frame :=
  data <- call_llm email_subject email_body ;;
  BuildSchemeHeader.build_scheme_header data source_file.

End Functions.
End Legacy.

(** ** [build_scheme_header.py]: the subject of an email in
    [load_emails_from_output]

    The statements between reading the text file and collecting the
    tables: they compute [subject] from the text of the file and from
    [base], the name of the file without its suffix. *)

Module LoadEmails.
Import Py.

(** the line boundaries of [str.splitlines] among the code points below 256 *)
Definition is_line_boundary (c : ascii) : bool :=
  let n := nat_of_ascii c in
  ((10 <=? n) && (n <=? 13) || (28 <=? n) && (n <=? 30) || (n =? 133))%nat.

(** [s.splitlines()], a carriage return and line feed being one boundary;
    [line] holds the characters of the current line in reverse *)
Fixpoint splitlines_from (s : string) (line : string) : list string :=
  match s with
  | EmptyString =>
      match line with
      | EmptyString => []
      | _ => [reverse line]
      end
  | String c rest =>
      if is_line_boundary c then
        reverse line
        :: match rest with
           | String c' rest' =>
               if ((nat_of_ascii c =? 13) && (nat_of_ascii c' =? 10))%nat
               then splitlines_from rest' EmptyString
               else splitlines_from rest EmptyString
           | EmptyString => []
           end
      else splitlines_from rest (String c line)
  end.

Definition splitlines (s : string) : list string := splitlines_from s EmptyString.

(** the text after the first occurrence of [sep] *)
Fixpoint find_after (sep s : string) : option string :=
  if String.prefix sep s then Some (slice_from (N.of_nat (String.length sep)) s)
  else
    match s with
    | String _ s' => find_after sep s'
    | EmptyString => None
    end.

(** [s.split(sep, 1)[-1]] *)
Definition last_of_split (sep s : string) : string :=
  match find_after sep s with
  | Some t => t
  | None => s
  end.

(** the loop over the lines, left at the first line with the marker *)
Fixpoint find_subject (lines : list string) : option string :=
  match lines with
  | [] => None
  | line :: rest =>
      if substring_of "Mail - " line
      then Some (strip (last_of_split "Mail - " line))
      else find_subject rest
  end.

Definition subject_of (txt_content base : string) : string :=
  let subject := find_subject (splitlines txt_content) in
  let found :=
    match subject with
    | Some s => negb (String.eqb s "")
    | None => false
    end in
  if found then match subject with Some s => s | None => "" end
  else
    let lines :=
      map strip
        (filter (fun l => negb (String.eqb (strip l) "")) (splitlines txt_content)) in
    if (3 <=? List.length lines)%nat then nth 2 lines ""
    else
      match lines with
      | first_line :: _ => first_line
      | [] => base
      end.

End LoadEmails.

(** ** A library to run the definitions on

    A JSON decoder after the grammar of [json.loads] (with its [NaN] and
    [Infinity] literals), ISO calendar dates, the truth words pydantic
    accepts, decimal texts as floats.  Escapes of code points above 255 are
    refused, and a float prints as its exact decimal expansion, not as
    Python's shortest one.  The coercions accept less than pydantic's lax
    mode does (no boolean for a float, dates in the form YYYY-MM-DD only,
    nothing for an integer); what they accept, pydantic accepts.  The
    general theorems hold for any [Library]; this one serves the examples,
    which hold no float in an identity and no value the two disagree on. *)

Module Reference.
Import Py.
Local Open Scope Z_scope.

Definition is_digit (c : ascii) : bool :=
  let n := nat_of_ascii c in ((48 <=? n) && (n <=? 57))%nat.

Definition digit_value (c : ascii) : Z := Z.of_nat (nat_of_ascii c) - 48.

(** leading digits of [s]: their value after [acc], their number, the rest *)
Fixpoint take_digits (s : string) (acc : Z) (count : Z) : Z * Z * string :=
  match s with
  | String c rest =>
      if is_digit c then take_digits rest (10 * acc + digit_value c) (count + 1)
      else (acc, count, s)
  | EmptyString => (acc, count, s)
  end.

(** the float nearest to [m * 10 ^ e], ties to even *)
Definition float_of_decimal (negative : bool) (m e : Z) : float :=
  let signed := fun x => if negative then - x else x in
  if m =? 0 then S754_zero negative
  else if 0 <=? e then binary_normalize prec emax (signed (m * 10 ^ e)) 0 false
  else
    let d := 10 ^ (- e) in
    let k := Z.log2 d + 64 in
    let q := (m * 2 ^ k) / d in
    let sticky := if (m * 2 ^ k) mod d =? 0 then 0 else 1 in
    binary_normalize prec emax (signed (2 * q + sticky)) (- k - 1) false.

(** a JSON number at the head of [s] *)
Definition parse_number (s : string) : option (value * string) :=
  let '(negative, s1) :=
    match s with
    | String "-" r => (true, r)
    | _ => (false, s)
    end in
  let int_part :=
    match s1 with
    | String "0" r => Some (0, r)
    | String c _ => if is_digit c then
                      let '(n, _, r) := take_digits s1 0 0 in Some (n, r)
                    else None
    | EmptyString => None
    end in
  match int_part with
  | None => None
  | Some (n, s2) =>
      let '(frac, s3) :=
        match s2 with
        | String "." r =>
            let '(f, count, r') := take_digits r 0 0 in
            if 0 <? count then (Some (f, count), r') else (None, s2)
        | _ => (None, s2)
        end in
      let '(expo, s4) :=
        match s3 with
        | String c r =>
            if Ascii.eqb c "e" || Ascii.eqb c "E" then
              let '(exp_negative, r1) :=
                match r with
                | String "-" r' => (true, r')
                | String "+" r' => (false, r')
                | _ => (false, r)
                end in
              let '(x, count, r2) := take_digits r1 0 0 in
              if 0 <? count then (Some (if exp_negative then - x else x), r2)
              else (None, s3)
            else (None, s3)
        | EmptyString => (None, s3)
        end in
      match frac, expo with
      | None, None => Some (VInt (if negative then - n else n), s4)
      | _, _ =>
          let '(f, count) := match frac with Some fc => fc | None => (0, 0) end in
          let x := match expo with Some x => x | None => 0 end in
          Some (VFloat (float_of_decimal negative (n * 10 ^ count + f) (x - count)), s4)
      end
  end.

Definition hex_value (c : ascii) : option Z :=
  let n := Z.of_nat (nat_of_ascii c) in
  if (48 <=? n) && (n <=? 57) then Some (n - 48)
  else if (97 <=? n) && (n <=? 102) then Some (n - 87)
  else if (65 <=? n) && (n <=? 70) then Some (n - 55)
  else None.

Definition char_of (n : Z) : ascii := ascii_of_nat (Z.to_nat n).

(** the characters of a JSON string up to its closing quote; [acc] holds
    the decoded characters in reverse *)
Fixpoint parse_string (s : string) (acc : string) : option (string * string) :=
  match s with
  | EmptyString => None
  | String c rest =>
      if Ascii.eqb c (char_of 34) then Some (reverse acc, rest)
      else if Ascii.eqb c (char_of 92) then
        match rest with
        | String e rest' =>
            if Ascii.eqb e "u" then
              match rest' with
              | String h1 (String h2 (String h3 (String h4 rest''))) =>
                  match hex_value h1, hex_value h2, hex_value h3, hex_value h4 with
                  | Some a, Some b, Some c', Some d =>
                      let n := 4096 * a + 256 * b + 16 * c' + d in
                      if n <? 256 then parse_string rest'' (String (char_of n) acc)
                      else None
                  | _, _, _, _ => None
                  end
              | _ => None
              end
            else
              let plain := fun n => parse_string rest' (String (char_of n) acc) in
              if Ascii.eqb e (char_of 34) then plain 34
              else if Ascii.eqb e (char_of 92) then plain 92
              else if Ascii.eqb e "/" then plain 47
              else if Ascii.eqb e "b" then plain 8
              else if Ascii.eqb e "f" then plain 12
              else if Ascii.eqb e "n" then plain 10
              else if Ascii.eqb e "r" then plain 13
              else if Ascii.eqb e "t" then plain 9
              else None
        | EmptyString => None
        end
      else if Z.of_nat (nat_of_ascii c) <? 32 then None
      else parse_string rest (String c acc)
  end.

Definition is_json_space (c : ascii) : bool :=
  let n := nat_of_ascii c in
  ((n =? 32) || (n =? 9) || (n =? 10) || (n =? 13))%nat.

Fixpoint skip_ws (s : string) : string :=
  match s with
  | String c rest => if is_json_space c then skip_ws rest else s
  | EmptyString => EmptyString
  end.

Definition literal (word : string) (v : value) (s : string) : option (value * string) :=
  if String.prefix word s
  then Some (v, slice_from (N.of_nat (String.length word)) s)
  else None.

Fixpoint parse_value (fuel : nat) (s : string) {struct fuel} : option (value * string) :=
  match fuel with
  | O => None
  | S fuel' =>
      match s with
      | EmptyString => None
      | String c rest =>
          if Ascii.eqb c "[" then
            match skip_ws rest with
            | String "]" r => Some (VList [], r)
            | rest' => parse_elements fuel' rest' []
            end
          else if Ascii.eqb c "{" then
            match skip_ws rest with
            | String "}" r => Some (VDict [], r)
            | rest' => parse_members fuel' rest' []
            end
          else if Ascii.eqb c (char_of 34) then
            match parse_string rest EmptyString with
            | Some (text, r) => Some (VStr text, r)
            | None => None
            end
          else if Ascii.eqb c "n" then literal "null" VNone s
          else if Ascii.eqb c "t" then literal "true" (VBool true) s
          else if Ascii.eqb c "f" then literal "false" (VBool false) s
          else if Ascii.eqb c "N" then literal "NaN" (VFloat S754_nan) s
          else if Ascii.eqb c "I" then
            literal "Infinity" (VFloat (S754_infinity false)) s
          else if String.prefix "-Infinity" s then
            literal "-Infinity" (VFloat (S754_infinity true)) s
          else parse_number s
      end
  end
with parse_elements (fuel : nat) (s : string) (acc : list value) {struct fuel}
  : option (value * string) :=
  match fuel with
  | O => None
  | S fuel' =>
      match parse_value fuel' s with
      | Some (v, rest) =>
          match skip_ws rest with
          | String "," r => parse_elements fuel' (skip_ws r) (acc ++ [v])
          | String "]" r => Some (VList (acc ++ [v]), r)
          | _ => None
          end
      | None => None
      end
  end
with parse_members (fuel : nat) (s : string) (acc : dict) {struct fuel}
  : option (value * string) :=
  match fuel with
  | O => None
  | S fuel' =>
      match s with
      | String c rest =>
          if Ascii.eqb c (char_of 34) then
            match parse_string rest EmptyString with
            | Some (key, r) =>
                match skip_ws r with
                | String ":" r' =>
                    match parse_value fuel' (skip_ws r') with
                    | Some (v, r'') =>
                        match skip_ws r'' with
                        | String "," r3 =>
                            parse_members fuel' (skip_ws r3) (dict_setitem acc key v)
                        | String "}" r3 => Some (VDict (dict_setitem acc key v), r3)
                        | _ => None
                        end
                    | None => None
                    end
                | _ => None
                end
            | None => None
            end
          else None
      | EmptyString => None
      end
  end.

Definition loads (text : string) : option value :=
  let s := skip_ws text in
  match parse_value (2 * String.length s + 2) s with
  | Some (v, rest) =>
      match skip_ws rest with
      | EmptyString => Some v
      | _ => None
      end
  | None => None
  end.

(** *** Dates, booleans, floats from text *)

Definition is_leap (y : Z) : bool :=
  ((y mod 4 =? 0) && negb (y mod 100 =? 0)) || (y mod 400 =? 0).

Definition days_in_month (y m : Z) : Z :=
  if m =? 2 then (if is_leap y then 29 else 28)
  else if (m =? 4) || (m =? 6) || (m =? 9) || (m =? 11) then 30
  else 31.

(** a text of the form YYYY-MM-DD that names a day of the calendar *)
Definition date_of_iso (s : string) : option date :=
  match s with
  | String y1 (String y2 (String y3 (String y4 (String "-"
      (String m1 (String m2 (String "-" (String d1 (String d2 EmptyString))))))))) =>
      if forallb is_digit [y1; y2; y3; y4; m1; m2; d1; d2] then
        let y := 1000 * digit_value y1 + 100 * digit_value y2
                 + 10 * digit_value y3 + digit_value y4 in
        let m := 10 * digit_value m1 + digit_value m2 in
        let d := 10 * digit_value d1 + digit_value d2 in
        if (1 <=? y) && (1 <=? m) && (m <=? 12) && (1 <=? d)
           && (d <=? days_in_month y m)
        then Some (mk_date y m d) else None
      else None
  | _ => None
  end.

Definition date_of_value (v : value) : option date :=
  match v with
  | VStr s => date_of_iso s
  | _ => None
  end.

Definition lower (c : ascii) : ascii :=
  let n := nat_of_ascii c in
  if ((65 <=? n) && (n <=? 90))%nat then ascii_of_nat (n + 32) else c.

Fixpoint lowercase (s : string) : string :=
  match s with
  | EmptyString => EmptyString
  | String c rest => String (lower c) (lowercase rest)
  end.

Definition bool_of_value (v : value) : option bool :=
  match v with
  | VInt 0 => Some false
  | VInt 1 => Some true
  | VStr s =>
      let w := lowercase s in
      if existsb (String.eqb w) ["0"; "off"; "f"; "false"; "n"; "no"]%string
      then Some false
      else if existsb (String.eqb w) ["1"; "on"; "t"; "true"; "y"; "yes"]%string
      then Some true
      else None
  | _ => None
  end.

Definition float_of_text (v : value) : option float :=
  match v with
  | VStr s =>
      match parse_number (strip s) with
      | Some (VFloat f, EmptyString) => Some f
      | Some (VInt z, EmptyString) => float_of_int z
      | _ => None
      end
  | _ => None
  end.

(** *** Printing *)

Definition decimal (z : Z) : string :=
  DecimalString.NilZero.string_of_int (Z.to_int z).

Fixpoint zeros (n : nat) : string :=
  match n with
  | O => EmptyString
  | S n' => String "0" (zeros n')
  end.

Definition repr_float (f : float) : string :=
  match f with
  | S754_zero false => "0.0"
  | S754_zero true => "-0.0"
  | S754_infinity false => "inf"
  | S754_infinity true => "-inf"
  | S754_nan => "nan"
  | S754_finite negative m e =>
      let sign := if negative then "-" else "" in
      if 0 <=? e then (sign ++ decimal (Z.pos m * 2 ^ e) ++ ".0")%string
      else
        let scaled := Z.pos m * 5 ^ (- e) in
        let whole := scaled / 10 ^ (- e) in
        let part := decimal (scaled mod 10 ^ (- e)) in
        (sign ++ decimal whole ++ "."
         ++ zeros (Z.to_nat (- e) - String.length part) ++ part)%string
  end.

Fixpoint repr (fuel : nat) (v : value) : string :=
  match fuel with
  | O => ""
  | S fuel' =>
      match v with
      | VNone => "None"
      | VBool true => "True"
      | VBool false => "False"
      | VInt z => decimal z
      | VFloat f => repr_float f
      | VStr s => ("'" ++ s ++ "'")%string
      | VList l => ("[" ++ join ", " (map (repr fuel') l) ++ "]")%string
      | VDict d =>
          ("{" ++ join ", "
                    (map (fun kv => "'" ++ fst kv ++ "': " ++ repr fuel' (snd kv)) d)
           ++ "}")%string
      end
  end.

Definition describe (e : exn) : string :=
  match e with
  | ValidationError => "validation error"
  | JSONDecodeError => "Expecting value"
  | TypeError => "TypeError"
  | AttributeError => "AttributeError"
  | KeyError => "KeyError"
  | External msg => msg
  end.

#[export] Instance library : Library := {
  json_loads := loads;
  lax_float := float_of_text;
  lax_date := date_of_value;
  lax_bool := bool_of_value;
  lax_int := fun _ => None;
  py_repr := repr 64;
  exn_str := describe
}.

(** for the examples a frame is the list of its rows *)
#[export] Instance pandas : BuildSchemeHeader.Pandas := {
  BuildSchemeHeader.frame := list dict;
  BuildSchemeHeader.DataFrame := fun rows => rows
}.

(** a JSON text written with apostrophes for the double quotes *)
Fixpoint json_text (s : string) : string :=
  match s with
  | EmptyString => EmptyString
  | String c rest =>
      String (if Ascii.eqb c "'" then char_of 34 else c) (json_text rest)
  end.

End Reference.

(** ** Vocabulary of the statements *)

Module Spec.
Import Py Models.

(** Follows the spec's words (section 4.4): the fixed lookup table for
    [discount_type], every other text going to OTHER. *)
Definition spec_discount_type (s : string) : string :=
  if String.eqb s "Percentage of MRP" || String.eqb s "Percentage of NLC"
  then "PERCENTAGE"
  else if String.eqb s "Absolute" then "FLAT"
  else "OTHER".

(** The table of the chain-of-thought mapper read as a function: the
    canonical names stand for themselves. *)
Definition pipeline_discount_type (s : string) : string :=
  if String.eqb s "Percentage of MRP" || String.eqb s "Percentage of NLC"
     || String.eqb s "PERCENTAGE"
  then "PERCENTAGE"
  else if String.eqb s "Absolute" || String.eqb s "FLAT" then "FLAT"
  else if String.eqb s "SLAB" then "SLAB"
  else "OTHER".

(** what the chain-of-thought mapper hands the constructor as [discount_type] *)
Definition pipeline_discount (v : value) : result value :=
  if truthy v
  then DspyModules.table_get DspyPipeline.discount_type_map v "OTHER"
  else Ok v.

Definition modules_discount (v : value) : result value :=
  if truthy v
  then DspyModules.table_get DspyModules.discount_type_map v "OTHER"
  else Ok v.

(** a record with another creation time *)
Definition with_extracted_at (t : datetime) (r : SchemeHeader) : SchemeHeader :=
  mk_SchemeHeader (scheme_type r) (scheme_sub_type r) (scheme_name r)
    (duration_start_date r) (duration_end_date r) (starting_at r) (ending_at r)
    (price_drop_date r) (discount_type r) (discount_value r) (min_order_value r)
    (max_discount_cap r) (vendor_name r) (category r) (remarks r) (confidence r)
    (needs_escalation r) (source_file r) t.


(** the dictionary after the loop has filled in the two quality keys *)
Definition with_defaults (d : dict) (default_confidence default_escalation : value)
  : dict :=
  let d1 := if dict_contains d "confidence" then d
            else dict_setitem d "confidence" default_confidence in
  if dict_contains d1 "needs_escalation" then d1
  else dict_setitem d1 "needs_escalation" default_escalation.

(** a number equal to zero: [0], [0.0] or [-0.0] *)
Definition is_zero_number (v : value) : bool :=
  match v with
  | VInt z => Z.eqb z 0
  | VFloat f => float_is_zero f
  | _ => false
  end.

(** a record without its creation time, and two outcomes of the loop that
    agree up to the creation times *)
Definition timeless (r : SchemeHeader) : SchemeHeader := with_extracted_at 0%Z r.

Definition same_outcome (a b : result (list SchemeHeader)) : Prop :=
  match a, b with
  | Ok out, Ok out' => map timeless out = map timeless out'
  | Raise e, Raise e' => e = e'
  | _, _ => False
  end.

(** The outcome of the loop's [try] for one element does not depend on the
    clock, which only fills [extracted_at]; it is read off at the reading 0:
    a record, or a [ValidationError]. *)
Definition clock_independent (body : datetime -> value -> result SchemeHeader)
  : Prop :=
  forall t1 t2 x,
    body t2 x = match body t1 x with
                | Ok r => Ok (with_extracted_at t2 r)
                | Raise e => Raise e
                end.

Definition validates (body : datetime -> value -> result SchemeHeader) (x : value)
  : Prop :=
  is_ok (body 0%Z x) = true.

Definition fails_validation (body : datetime -> value -> result SchemeHeader)
    (x : value) : Prop :=
  body 0%Z x = Raise ValidationError.

End Spec.

(** ** Concrete inputs *)

Module Examples.
Import Py Models Response.

(** a clock that reads 0, 1, 2, ... *)
Definition ticks : nat -> datetime := Z.of_nat.

Definition f_0_3 : float := Eval vm_compute in Reference.float_of_decimal false 3 (-1).
Definition f_0_9 : float := Eval vm_compute in Reference.float_of_decimal false 9 (-1).

Definition blank : SchemeHeader :=
  mk_SchemeHeader "" "" "" None None None None None None None None None None None
    None float_zero false None 0%Z.

Definition the_record (m : result SchemeHeader) : SchemeHeader :=
  match m with Ok r => r | Raise _ => blank end.

Definition the_rows (m : result (list dict)) : list dict :=
  match m with Ok rows => rows | Raise _ => [] end.

(** two extractions of the scheme of the spec's end-to-end scenario that
    differ in confidence, vendors and amounts *)
Definition jbp_first : dict :=
  [("scheme_type", VStr "BUY_SIDE");
   ("scheme_name", VStr "JBP Q1 Renewal - Acme Corp");
   ("duration_start_date", VStr "2024-01-01");
   ("duration_end_date", VStr "2024-03-31");
   ("global_cap_amount", VInt 50000);
   ("vendors",
    VList [VDict [("vendor_name", VStr "Acme Corp"); ("location", VStr "Mumbai");
                  ("amount", VInt 20000)]]);
   ("confidence", VFloat f_0_9)].

Definition jbp_second : dict :=
  [("scheme_name", VStr "JBP Q1 Renewal - Acme Corp");
   ("scheme_type", VStr "OTHER");
   ("duration_end_date", VStr "2024-03-31");
   ("duration_start_date", VStr "2024-01-01");
   ("global_cap_amount", VNone);
   ("vendors", VList []);
   ("confidence", VFloat f_0_3);
   ("needs_escalation", VBool true)].

Definition sellout : dict :=
  [("scheme_name", VStr "Sellout support"); ("discount_type", VStr "Absolute")].

Definition first_response : dict := [("schemes", VList [VDict jbp_first])].
Definition second_response : dict :=
  [("schemes", VList [VDict sellout; VDict jbp_second])].

(** dictionaries for the mapper *)
Definition slab : dict := [("scheme_name", VStr "Slab offer"); ("discount_type", VStr "SLAB")].

Definition percentage_of_nlc : dict :=
  [("scheme_name", VStr "NLC offer"); ("discount_type", VStr "Percentage of NLC")].

Definition two_starts : dict :=
  [("scheme_name", VStr "JBP Q1");
   ("duration_start_date", VStr "2024-01-01");
   ("starting_at", VStr "2024-02-01");
   ("duration_end_date", VStr "2024-03-31");
   ("ending_at", VStr "2024-03-31")].

Definition zero_values : dict :=
  [("scheme_name", VStr "Cap only");
   ("discount_value", VInt 0);
   ("max_discount_cap", VFloat float_zero);
   ("global_cap_amount", VInt 50000);
   ("description", VStr "");
   ("remarks", VStr "cap from the legacy key")].

Definition no_quality_keys : dict := [("scheme_name", VStr "JBP Q1")].


(** the four dictionaries of [mixed_completion] below *)
Definition jbp_q1 : value :=
  VDict [("scheme_type", VStr "BUY_SIDE"); ("scheme_sub_type", VStr "PERIODIC_CLAIM");
         ("scheme_name", VStr "JBP Q1"); ("max_discount_cap", VInt 50000)].

Definition negative_amount : value :=
  VDict [("scheme_name", VStr "negative amount"); ("discount_value", VInt (-5))].

Definition sellout_support : value :=
  VDict [("scheme_type", VStr "SELL_SIDE"); ("scheme_sub_type", VStr "PUC_FDC");
         ("scheme_name", VStr "Sellout")].

Definition impossible_date : value :=
  VDict [("scheme_name", VStr "impossible date"); ("starting_at", VStr "2024-13-01")].

(** a completion with a negative amount and an impossible date between two
    sound records *)
Definition mixed_completion : string :=
  Reference.json_text
    "```json
{'schemes': [
  {'scheme_type': 'BUY_SIDE', 'scheme_sub_type': 'PERIODIC_CLAIM',
   'scheme_name': 'JBP Q1', 'max_discount_cap': 50000},
  {'scheme_name': 'negative amount', 'discount_value': -5},
  {'scheme_type': 'SELL_SIDE', 'scheme_sub_type': 'PUC_FDC',
   'scheme_name': 'Sellout'},
  {'scheme_name': 'impossible date', 'starting_at': '2024-13-01'}
]}
```".

(** the same completion without the dictionary of the negative amount *)
Definition mixed_completion_without_negative : string :=
  Reference.json_text
    "{'schemes': [
  {'scheme_type': 'BUY_SIDE', 'scheme_sub_type': 'PERIODIC_CLAIM',
   'scheme_name': 'JBP Q1', 'max_discount_cap': 50000},
  {'scheme_type': 'SELL_SIDE', 'scheme_sub_type': 'PUC_FDC',
   'scheme_name': 'Sellout'},
  {'scheme_name': 'impossible date', 'starting_at': '2024-13-01'}
]}".

Definition nothing_found : string := Reference.json_text "{'note': 'nothing found'}".

(** reasoning stages of which the first times out *)
Definition timeout_stages : DspyPipeline.Stages := {|
  DspyPipeline.extract_key_facts := fun _ _ => Raise (External "Read timed out");
  DspyPipeline.classify_scheme := fun _ _ _ => Ok [];
  DspyPipeline.extract_dates := fun _ _ => Ok [];
  DspyPipeline.extract_financials := fun _ _ => Ok [];
  DspyPipeline.extract_vendors := fun _ _ => Ok [];
  DspyPipeline.extract_schemes := fun _ _ => Ok [];
  DspyPipeline.assess_confidence := fun _ _ => Ok []
|}.

Definition client : DspyPipeline.LM :=
  DspyPipeline.mk_LM "qwen/qwen3-next-80b-a3b-instruct"
    (Ok (VDict [("prompt_tokens", VInt 0); ("completion_tokens", VInt 0);
                ("total_tokens", VInt 0); ("num_calls", VInt 0)])).

End Examples.

(** ** Vocabulary for the records and the elements of a response *)

Module Shape.
Import Py Models.

(** an amount that is absent or at least zero ([ge=0]); a NaN is not *)
Definition not_negative (o : option float) : Prop :=
  match o with
  | Some f => SFleb float_zero f = true
  | None => True
  end.

(** a key the dictionary does not hold *)
Definition absent (d : dict) (k : string) : Prop := dict_lookup d k = None.

(** the constraints of [SchemeHeader]'s fields, read on a record: the
    members of the enumerations, [ge=0] on the amounts, [ge=0.0] and
    [le=1.0] on the confidence *)
Definition well_formed (r : SchemeHeader) : Prop :=
  In (scheme_type r) SchemeType
  /\ In (scheme_sub_type r) SchemeSubType
  /\ match discount_type r with
     | Some s => In s DiscountType
     | None => True
     end
  /\ not_negative (discount_value r)
  /\ not_negative (min_order_value r)
  /\ not_negative (max_discount_cap r)
  /\ SFleb float_zero (confidence r) = true
  /\ SFleb (confidence r) float_one = true
  /\ source_file r = None.

(** an element of [schemes] on which the body of the loop raises something
    other than a [ValidationError]: anything that is not a dictionary, and
    a dictionary whose [discount_type] is a non-empty list or dictionary
    (unhashable as a key of the lookup table) *)
Definition aborts (x : value) : bool :=
  match x with
  | VDict d =>
      match dict_get d "discount_type" with
      | VList (_ :: _) | VDict (_ :: _) => true
      | _ => false
      end
  | _ => true
  end.

(** the four keys whose value must not be null when the key is given *)
Definition strict_keys : list string :=
  ["scheme_type"; "scheme_sub_type"; "scheme_name"; "confidence"].

(** the keys the chain-of-thought mapper reads *)
Definition mapper_keys : list string :=
  ["discount_type"; "scheme_type"; "scheme_sub_type"; "scheme_name";
   "duration_start_date"; "duration_end_date"; "starting_at"; "ending_at";
   "price_drop_date"; "discount_value"; "global_cap_amount"; "min_order_value";
   "max_discount_cap"; "vendor_name"; "category"; "description"; "remarks";
   "confidence"; "needs_escalation"].

(** the record of a scheme about which nothing is known *)
Definition default_record (now : datetime) : SchemeHeader :=
  mk_SchemeHeader "OTHER" "OTHER" "" None None None None None None None None None
    None None None float_half false None now.

End Shape.

(** ** Vocabulary for texts *)

Module Text.
Import Py.

(** a text of white space only *)
Fixpoint blank (s : string) : bool :=
  match s with
  | EmptyString => true
  | String c s' => isspace c && blank s'
  end.

(** a text that is empty or begins with something other than white space *)
Definition trimmed_left (s : string) : bool :=
  match s with
  | EmptyString => true
  | String c _ => negb (isspace c)
  end.

Definition fence : string := "```".
Definition json_fence : string := "```json".

End Text.

(** ** Vocabulary for the trace of [forward] *)

Module Trace.
Import Py.

(** the names of the steps [forward] records, in the order of the stages *)
Definition stage_names : list string :=
  ["1_key_facts"; "2_classification"; "3_dates"; "4_financials"; "5_vendors";
   "6_full_extraction"; "7_confidence"].

(** a step of the trace recorded under [name] *)
Definition is_step (name : string) (v : value) : Prop :=
  exists output the_reasoning, v = DspyPipeline.mk_step name output the_reasoning.

(** the dictionary [forward] returns *)
Definition prediction (schemes_json : value) (the_reasoning : string)
    (steps : list value) (confidence_score escalation : value) : value :=
  VDict [("schemes_json", schemes_json);
         ("reasoning", VStr the_reasoning);
         ("cot_steps", VList steps);
         ("confidence_score", confidence_score);
         ("needs_escalation", escalation)].

End Trace.

(** ** Vocabulary for the client's history *)

Module Usage.
Import Py.

(** the history entry [__call__] appends *)
Definition entry (self : OpenRouterLLM.client) (messages response_text usage : value)
  : value :=
  VDict [("prompt", messages);
         ("response", response_text);
         ("model", VStr (OpenRouterLLM.model_name self));
         ("usage", usage)].

(** the count an entry holds under [k], when the entry is a dictionary
    whose [usage] is absent or a dictionary and the count is absent or an
    integer *)
Definition count (k : string) (e : value) : option Z :=
  match e with
  | VDict d =>
      match dict_get_default d "usage" (VDict []) with
      | VDict u =>
          match dict_get_default u k (VInt 0) with
          | VInt z => Some z
          | _ => None
          end
      | _ => None
      end
  | _ => None
  end.

Definition counted (e : value) : bool :=
  match count "prompt_tokens" e, count "completion_tokens" e, count "total_tokens" e with
  | Some _, Some _, Some _ => true
  | _, _, _ => false
  end.

(** the sum of the counts under [k] *)
Definition total (k : string) (h : OpenRouterLLM.history) : Z :=
  fold_right (fun e acc => match count k e with Some z => z + acc | None => acc end)%Z
    0%Z h.

(** an entry whose [usage] is not a dictionary *)
Definition broken (e : value) : bool :=
  match e with
  | VDict d =>
      match dict_get_default d "usage" (VDict []) with
      | VDict _ => false
      | _ => true
      end
  | _ => true
  end.

End Usage.

(** ** Vocabulary for the rows of [build_scheme_header] *)

Module Rows.
Import Py.

(** the columns of a row, in their order *)
Definition columns : list string :=
  ["scheme_id"; "Scheme Type"; "Sub Type"; "Scheme Name"; "Scheme description";
   "Description"; "Scheme Period"; "Duration_start_date"; "Duration_end_date";
   "DISCOUNT_TYPE"; "GLOBAL_CAP_AMOUNT";
   "Minimum of actual discount OR agreed claim amount";
   "Remove GST from final claim amount"; "Over & Above"; "DISCOUNT_SLAB_TYPE";
   "BEST_BET"; "BRAND_SUPPORT_ABSOLUTE"; "GST Rate"; "Scheme Document";
   "FSN File/Config File"].

Definition is_dict (x : value) : bool :=
  match x with VDict _ => true | _ => false end.

(** a digit of a hexadecimal digest: 0 to 9, a to f *)
Definition is_hex_digit (c : ascii) : bool :=
  let n := nat_of_ascii c in
  ((48 <=? n) && (n <=? 57) || (97 <=? n) && (n <=? 102))%nat.

Fixpoint all_chars (p : ascii -> bool) (s : string) : bool :=
  match s with
  | EmptyString => true
  | String c s' => p c && all_chars p s'
  end.

End Rows.

(** ** An encoder to run the definitions on: [json.dumps] with its default
    separators and [ensure_ascii] *)

Module ReferenceEncoder.
Import Py Builtins.

Definition backslash : string := String (ascii_of_nat 92) EmptyString.

Definition escape (c : ascii) : string :=
  let n := nat_of_ascii c in
  if (n =? 34)%nat then backslash ++ dq
  else if (n =? 92)%nat then backslash ++ backslash
  else if (n =? 10)%nat then backslash ++ "n"
  else if (n =? 13)%nat then backslash ++ "r"
  else if (n =? 9)%nat then backslash ++ "t"
  else if (n =? 8)%nat then backslash ++ "b"
  else if (n =? 12)%nat then backslash ++ "f"
  else if ((n <? 32) || (126 <? n))%nat then
    backslash ++ "u00"
    ++ String (Hashlib.hex_digit (Z.of_nat (n / 16)))
         (String (Hashlib.hex_digit (Z.of_nat (n mod 16))) EmptyString)
  else String c EmptyString.

Fixpoint escape_text (s : string) : string :=
  match s with
  | EmptyString => EmptyString
  | String c rest => escape c ++ escape_text rest
  end.

Definition quoted (s : string) : string := dq ++ escape_text s ++ dq.

Fixpoint dumps (fuel : nat) (v : value) : string :=
  match fuel with
  | O => ""
  | S fuel' =>
      match v with
      | VNone => "null"
      | VBool true => "true"
      | VBool false => "false"
      | VInt z => Reference.decimal z
      | VFloat S754_nan => "NaN"
      | VFloat (S754_infinity false) => "Infinity"
      | VFloat (S754_infinity true) => "-Infinity"
      | VFloat f => Reference.repr_float f
      | VStr s => quoted s
      | VList l => "[" ++ join ", " (map (dumps fuel') l) ++ "]"
      | VDict d =>
          "{" ++ join ", " (map (fun kv => quoted (fst kv) ++ ": " ++ dumps fuel' (snd kv)) d)
          ++ "}"
      end
  end.

#[export] Instance encoder : Encoder := {
  json_dumps := dumps 64
}.

End ReferenceEncoder.

(** ** More concrete inputs *)

Module Cases.
Import Py Models Response Examples.

(** dictionaries for the mappers *)
Definition null_name : dict :=
  [("scheme_type", VStr "BUY_SIDE"); ("scheme_name", VNone)].

Definition lower_case_sub_type : dict :=
  [("scheme_name", VStr "Price drop"); ("scheme_sub_type", VStr "pdc")].

Definition vendors_only : dict := [("vendors", VList [])].

Definition legacy_amounts : dict :=
  [("scheme_name", VStr "Cap"); ("discount_value", VInt 5);
   ("global_cap_amount", VInt 7); ("remarks", VStr "not read");
   ("vendor_name", VStr "Acme Corp")].

(** completions *)
Definition with_a_note : string :=
  Reference.json_text "{'schemes': [{'scheme_name': 'JBP Q1'}, 'see the table above']}".

Definition note_items : list value :=
  [VDict [("scheme_name", VStr "JBP Q1")]; VStr "see the table above"].

Definition single_object : string :=
  Reference.json_text "{'schemes': {'scheme_name': 'JBP Q1'}}".

Definition one_scheme : string :=
  Reference.json_text "{'schemes': [{'scheme_name': 'JBP Q1', 'global_cap_amount': 50000}]}".

Definition mixed_items : list value :=
  [jbp_q1; negative_amount; sellout_support; impossible_date].

(** a scheme whose [discount_type] is a list, after a sound record and one
    with a negative amount; and the same completion without it *)
Definition list_valued_type : dict :=
  [("scheme_name", VStr "Sellout"); ("discount_type", VList [VStr "Absolute"])].

Definition with_a_type_failure : string :=
  Reference.json_text
    "{'schemes': [
  {'scheme_type': 'BUY_SIDE', 'scheme_sub_type': 'PERIODIC_CLAIM',
   'scheme_name': 'JBP Q1', 'max_discount_cap': 50000},
  {'scheme_name': 'negative amount', 'discount_value': -5},
  {'scheme_name': 'Sellout', 'discount_type': ['Absolute']}
]}".

Definition without_the_type_failure : string :=
  Reference.json_text
    "{'schemes': [
  {'scheme_type': 'BUY_SIDE', 'scheme_sub_type': 'PERIODIC_CLAIM',
   'scheme_name': 'JBP Q1', 'max_discount_cap': 50000},
  {'scheme_name': 'negative amount', 'discount_value': -5}
]}".

(** a completion with the literal [NaN], which [json.loads] accepts, as a
    confidence and as an amount *)
Definition with_a_nan : string :=
  Reference.json_text
    "{'schemes': [
  {'scheme_name': 'no confidence', 'confidence': NaN},
  {'scheme_name': 'no amount', 'discount_value': NaN, 'global_cap_amount': NaN},
  {'scheme_name': 'JBP Q1', 'confidence': 0.9}
]}".

(** a dictionary with [global_cap_amount] and no [discount_value] *)
Definition cap_only : dict :=
  [("scheme_name", VStr "x"); ("global_cap_amount", VInt 5)].

(** reasoning stages that all answer; the sixth gives [one_scheme] and
    repeats the context it was given as its rationale *)
Definition answering_stages : DspyPipeline.Stages := {|
  DspyPipeline.extract_key_facts := fun subject _ =>
    Ok [("scheme_names", VStr subject); ("key_dates", VStr "2024-01-01");
        ("key_amounts", VStr "50000"); ("keywords", VStr "JBP");
        ("vendor_names", VStr "Acme Corp"); ("reasoning", VStr "facts")];
  DspyPipeline.classify_scheme := fun _ _ _ =>
    Ok [("scheme_type", VStr "BUY_SIDE"); ("scheme_sub_type", VStr "PERIODIC_CLAIM");
        ("confidence", VFloat f_0_9); ("reasoning", VStr "class")];
  DspyPipeline.extract_dates := fun _ _ =>
    Ok [("duration_start_date", VStr "2024-01-01");
        ("duration_end_date", VStr "2024-03-31");
        ("starting_at", VStr "2024-01-01"); ("ending_at", VStr "2024-03-31");
        ("price_drop_date", VNone); ("reasoning", VStr "dates")];
  DspyPipeline.extract_financials := fun _ _ =>
    Ok [("discount_type", VStr "FLAT"); ("discount_value", VNone);
        ("min_order_value", VNone); ("max_discount_cap", VInt 50000);
        ("gst_rate", VNone); ("brand_support_absolute", VNone);
        ("reasoning", VStr "amounts")];
  DspyPipeline.extract_vendors := fun _ _ =>
    Ok [("vendors_json", VStr "[]"); ("reasoning", VStr "vendors")];
  DspyPipeline.extract_schemes := fun _ context =>
    Ok [("schemes_json", VStr one_scheme); ("reasoning", VStr context)];
  DspyPipeline.assess_confidence := fun _ _ =>
    Ok [("confidence_score", VFloat f_0_9); ("needs_escalation", VBool false);
        ("missing_fields", VStr ""); ("quality_issues", VStr "");
        ("reasoning", VStr "sure")]
|}.

(** a client whose usage statistics are out of reach *)
Definition without_usage : DspyPipeline.LM :=
  DspyPipeline.mk_LM "qwen/qwen3-next-80b-a3b-instruct"
    (Raise (External "usage unavailable")).

(** a text of 12000 characters and a table *)
Definition long_text : string :=
  String.concat "" (List.repeat "0123456789" 1200).

Definition price_table : dict := [("csv_content", VStr "sku,price")].

(** the answer of the API with the completion [one_scheme] and a usage *)
Definition answer (usage : value) : dict :=
  [("choices",
    VList [VDict [("message",
                   VDict [("role", VStr "assistant"); ("content", VStr one_scheme)])]]);
   ("usage", usage)].

Definition router (usage : value) : OpenRouterLLM.client :=
  OpenRouterLLM.mk_client "qwen/qwen3-next-80b-a3b-instruct" (VFloat float_zero)
    (VInt 4000) (fun _ => Ok (VDict (answer usage))).

Definition usage_of_1000 : dict :=
  [("prompt_tokens", VInt 900); ("completion_tokens", VInt 100);
   ("total_tokens", VInt 1000)].

(** a history of two calls, the second without counts *)
Definition two_calls : OpenRouterLLM.history :=
  [VDict [("prompt", VList []); ("response", VStr "{}");
          ("model", VStr "qwen/qwen3-next-80b-a3b-instruct");
          ("usage", VDict [("prompt_tokens", VInt 10); ("completion_tokens", VInt 5);
                           ("total_tokens", VInt 15)])];
   VDict [("prompt", VList []); ("response", VStr "{}");
          ("model", VStr "qwen/qwen3-next-80b-a3b-instruct");
          ("usage", VDict [])]].

Definition third_call : value :=
  VDict [("prompt", VList []); ("response", VStr "{}");
         ("model", VStr "qwen/qwen3-next-80b-a3b-instruct");
         ("usage", VDict usage_of_1000)].

Definition user_message : value :=
  VList [VDict [("role", VStr "user"); ("content", VStr "JBP Q1")]].

Definition the_prompt : string :=
  "You help prepare Flipkart Retailer Hub scheme headers from brand emails.".

(** the text of a printed mail *)
Definition printed_mail : string :=
  "Gmail" ++ nl ++ "  1/2 Mail - JBP Q1 Renewal  " ++ nl ++ "Acme Corp".

(** [client.chat.completions.create] with a fixed content *)
Definition completion_of (content : value) (request : value) : result (list value) :=
  Ok [content].

End Cases.

(** ** Facts about the building blocks *)

(** split the outermost [match] of an equation [H], keeping the branch that
    does not contradict it *)
Ltac split_match H :=
  match type of H with
  | match ?x with _ => _ end = _ =>
      let E := fresh "E" in destruct x eqn:E; [|discriminate H]
  end.

Section Blocks.
Import Py Models Spec.
Context {L : Library}.


Lemma validate_enum_In members v s :
  validate_enum members v = Some s -> In s members.
Proof.
  destruct v; simpl; try discriminate.
  destruct (existsb (String.eqb s0) members) eqn:E; [|discriminate].
  intros [= <-]. apply existsb_exists in E as (x & Hin & Heq).
  apply String.eqb_eq in Heq. now subst.
Qed.

Lemma validate_float_VFloat ge le f g :
  validate_float ge le (VFloat f) = Some g -> g = f.
Proof.
  unfold validate_float. simpl.
  destruct (_ && _); [|discriminate]. now intros [= ->].
Qed.

Lemma validate_float_coerce ge le v g :
  validate_float ge le v = Some g -> coerce_float v = Some g.
Proof.
  unfold validate_float. destruct (coerce_float v); [|discriminate].
  destruct (_ && _); [|discriminate]. now intros [= ->].
Qed.

Lemma dict_lookup_setitem_eq d k v :
  dict_lookup (dict_setitem d k v) k = Some v.
Proof.
  induction d as [|[k' v'] d IH]; simpl.
  - now rewrite String.eqb_refl.
  - destruct (String.eqb k k') eqn:E; simpl; rewrite E; [reflexivity|exact IH].
Qed.

Lemma dict_lookup_setitem_ne d k v k' :
  k <> k' -> dict_lookup (dict_setitem d k v) k' = dict_lookup d k'.
Proof.
  intros Hne. induction d as [|[k0 v0] d IH]; simpl.
  - destruct (String.eqb k' k) eqn:E; [|reflexivity].
    apply String.eqb_eq in E. congruence.
  - destruct (String.eqb k k0) eqn:E; simpl.
    + apply String.eqb_eq in E. subst k0.
      destruct (String.eqb k' k) eqn:E'; [|reflexivity].
      apply String.eqb_eq in E'. congruence.
    + now rewrite IH.
Qed.

(** what a record of the chain-of-thought mapper says about the dictionary
    it was mapped from *)
Lemma pipeline_map_inv now d r :
  DspyPipeline._map_to_scheme_header now (VDict d) = Ok r ->
  exists dt,
    pipeline_discount (dict_get d "discount_type") = Ok dt /\
    validate_enum SchemeType (dict_get_default d "scheme_type" (VStr "OTHER"))
      = Some (scheme_type r) /\
    validate_enum SchemeSubType (dict_get_default d "scheme_sub_type" (VStr "OTHER"))
      = Some (scheme_sub_type r) /\
    validate_str (dict_get_default d "scheme_name" (VStr "")) = Some (scheme_name r) /\
    optional validate_date (dict_get d "duration_start_date")
      = Some (duration_start_date r) /\
    optional validate_date (dict_get d "duration_end_date")
      = Some (duration_end_date r) /\
    optional validate_date (dict_get d "starting_at") = Some (starting_at r) /\
    optional validate_date (dict_get d "ending_at") = Some (ending_at r) /\
    optional validate_date (dict_get d "price_drop_date") = Some (price_drop_date r) /\
    optional (validate_enum DiscountType) dt = Some (discount_type r) /\
    optional (validate_float (Some float_zero) None)
      (or_ (dict_get d "discount_value") (dict_get d "global_cap_amount"))
      = Some (discount_value r) /\
    optional (validate_float (Some float_zero) None) (dict_get d "min_order_value")
      = Some (min_order_value r) /\
    optional (validate_float (Some float_zero) None)
      (or_ (dict_get d "max_discount_cap") (dict_get d "global_cap_amount"))
      = Some (max_discount_cap r) /\
    optional validate_str (dict_get d "vendor_name") = Some (vendor_name r) /\
    optional validate_str (dict_get d "category") = Some (category r) /\
    optional validate_str (or_ (dict_get d "description") (dict_get d "remarks"))
      = Some (remarks r) /\
    validate_float (Some float_zero) (Some float_one)
      (dict_get_default d "confidence" (VFloat float_half)) = Some (confidence r) /\
    validate_bool (dict_get_default d "needs_escalation" (VBool false))
      = Some (needs_escalation r) /\
    source_file r = None /\
    extracted_at r = now.
Proof.
  unfold DspyPipeline._map_to_scheme_header, get, bind, pipeline_discount,
    dict_get, dict_get_default.
  intros H.
  match type of H with
  | match ?x with _ => _ end = _ => destruct x as [dt|e] eqn:Edt; [|discriminate H]
  end.
  exists dt. split; [reflexivity|].
  unfold SchemeHeader_init, SchemeHeader_fields, required, defaulted in H.
  cbn [dict_lookup String.eqb Ascii.eqb Bool.eqb] in H.
  match type of H with
  | match ?x with _ => _ end = _ => destruct x as [r'|] eqn:F; [|discriminate H]
  end.
  injection H as <-.
  repeat split_match F.
  injection F as <-. cbn.
  repeat split; reflexivity.
Qed.

Lemma modules_map_inv now d r :
  DspyModules._map_to_scheme_header now (VDict d) = Ok r ->
  exists dt,
    modules_discount (dict_get d "discount_type") = Ok dt /\
    validate_enum SchemeSubType (dict_get_default d "scheme_sub_type" (VStr "OTHER"))
      = Some (scheme_sub_type r) /\
    optional (validate_enum DiscountType) dt = Some (discount_type r) /\
    extracted_at r = now.
Proof.
  unfold DspyModules._map_to_scheme_header, get, bind, modules_discount,
    dict_get, dict_get_default.
  intros H.
  match type of H with
  | match ?x with _ => _ end = _ => destruct x as [dt|e] eqn:Edt; [|discriminate H]
  end.
  exists dt. split; [reflexivity|].
  unfold SchemeHeader_init, SchemeHeader_fields, required, defaulted in H.
  cbn [dict_lookup String.eqb Ascii.eqb Bool.eqb] in H.
  match type of H with
  | match ?x with _ => _ end = _ => destruct x as [r'|] eqn:F; [|discriminate H]
  end.
  injection H as <-.
  repeat split_match F.
  injection F as <-. cbn.
  repeat split; reflexivity.
Qed.

(** a record is only ever mapped from a dictionary *)
Lemma pipeline_map_dict now x r :
  DspyPipeline._map_to_scheme_header now x = Ok r -> exists d, x = VDict d.
Proof.
  destruct x; try discriminate. intros _. now eexists.
Qed.

Lemma modules_map_dict now x r :
  DspyModules._map_to_scheme_header now x = Ok r -> exists d, x = VDict d.
Proof.
  destruct x; try discriminate. intros _. now eexists.
Qed.

End Blocks.

(** ** The schema mapper *)

Section Mapper.
Import Py Models Spec.
Context {L : Library}.

Lemma SchemeHeader_fields_time t1 t2 kw :
  SchemeHeader_fields t2 kw
  = option_map (with_extracted_at t2) (SchemeHeader_fields t1 kw).
Proof.
  unfold SchemeHeader_fields.
  repeat match goal with
         | |- match ?x with _ => _ end = _ => destruct x; [|reflexivity]
         end.
  reflexivity.
Qed.

Lemma SchemeHeader_init_time t1 t2 kw :
  SchemeHeader_init t2 kw
  = match SchemeHeader_init t1 kw with
    | Ok r => Ok (with_extracted_at t2 r)
    | Raise e => Raise e
    end.
Proof.
  unfold SchemeHeader_init. rewrite (SchemeHeader_fields_time t1 t2).
  now destruct (SchemeHeader_fields t1 kw).
Qed.

Lemma pipeline_mapping_time (t1 t2 : datetime) (data : value) :
  DspyPipeline._map_to_scheme_header t2 data
  = match DspyPipeline._map_to_scheme_header t1 data with
    | Ok r => Ok (with_extracted_at t2 r)
    | Raise e => Raise e
    end.
Proof.
  destruct data; try reflexivity.
  unfold DspyPipeline._map_to_scheme_header, get, bind.
  match goal with
  | |- match ?x with _ => _ end = _ => destruct x; [|reflexivity]
  end.
  apply SchemeHeader_init_time.
Qed.

(** C9, as amended: the mapper is a function of the dictionary and of the
    clock reading.  Two mappings of one dictionary, at the readings [t1] and
    [t2], either both raise the same exception or give two records that
    agree on every field but [extracted_at], which holds the reading of
    each. *)
Theorem mapping_twice_differs_only_in_extracted_at (t1 t2 : datetime) (data : value) :
  match
    DspyPipeline._map_to_scheme_header t1 data,
    DspyPipeline._map_to_scheme_header t2 data
  with
  | Ok r1, Ok r2 =>
      r2 = with_extracted_at t2 r1 /\ extracted_at r1 = t1 /\ extracted_at r2 = t2
  | Raise e1, Raise e2 => e1 = e2
  | _, _ => False
  end.
Proof.
  rewrite (pipeline_mapping_time t1 t2 data).
  destruct (DspyPipeline._map_to_scheme_header t1 data) as [r1|e1] eqn:E;
    [|reflexivity].
  repeat split.
  destruct (pipeline_map_dict _ _ _ E) as [d ->].
  apply pipeline_map_inv in E as (dt & _ & E).
  repeat match type of E with _ /\ _ => destruct E as [_ E] end. exact E.
Qed.

Lemma modules_mapping_time (t1 t2 : datetime) (data : value) :
  DspyModules._map_to_scheme_header t2 data
  = match DspyModules._map_to_scheme_header t1 data with
    | Ok r => Ok (with_extracted_at t2 r)
    | Raise e => Raise e
    end.
Proof.
  destruct data; try reflexivity.
  unfold DspyModules._map_to_scheme_header, get, bind.
  match goal with
  | |- match ?x with _ => _ end = _ => destruct x; [|reflexivity]
  end.
  apply SchemeHeader_init_time.
Qed.

Lemma table_get_text table s dflt :
  DspyModules.table_get table (VStr s) dflt
  = Ok (VStr (match find (fun kv => String.eqb s (fst kv)) table with
              | Some kv => snd kv
              | None => dflt
              end)).
Proof. reflexivity. Qed.

Lemma pipeline_table s :
  match find (fun kv => String.eqb s (fst kv)) DspyPipeline.discount_type_map with
  | Some kv => snd kv
  | None => "OTHER"
  end = pipeline_discount_type s.
Proof.
  unfold pipeline_discount_type, DspyPipeline.discount_type_map.
  cbn [find fst snd].
  repeat match goal with
         | |- context [String.eqb s ?k] =>
             destruct (String.eqb_spec s k); [subst s; reflexivity|]
         end.
  reflexivity.
Qed.

Lemma modules_table s :
  match find (fun kv => String.eqb s (fst kv)) DspyModules.discount_type_map with
  | Some kv => snd kv
  | None => "OTHER"
  end = spec_discount_type s.
Proof.
  unfold spec_discount_type, DspyModules.discount_type_map.
  cbn [find fst snd].
  repeat match goal with
         | |- context [String.eqb s ?k] =>
             destruct (String.eqb_spec s k); [subst s; reflexivity|]
         end.
  reflexivity.
Qed.

Lemma pipeline_discount_type_member s : In (pipeline_discount_type s) DiscountType.
Proof.
  unfold pipeline_discount_type, DiscountType.
  repeat match goal with
         | |- context [if ?b then _ else _] => destruct b
         end; simpl; auto.
Qed.

Lemma spec_discount_type_member s : In (spec_discount_type s) DiscountType.
Proof.
  unfold spec_discount_type, DiscountType.
  repeat match goal with
         | |- context [if ?b then _ else _] => destruct b
         end; simpl; auto.
Qed.

Lemma validate_enum_member members s :
  In s members -> validate_enum members (VStr s) = Some s.
Proof.
  intros Hin. simpl.
  replace (existsb (String.eqb s) members) with true; [reflexivity|].
  symmetry. apply existsb_exists. exists s. split; [assumption|apply String.eqb_refl].
Qed.

(** C2, as amended: a non-empty text given as [discount_type] is looked up
    in the mapper's table, which in the chain-of-thought mapper also holds
    the canonical names PERCENTAGE, FLAT and SLAB; a text outside the table
    gives OTHER; an absent or null [discount_type] stays null. *)
Theorem discount_type_normalization (now : datetime) (d : dict) :
  (forall r, DspyPipeline._map_to_scheme_header now (VDict d) = Ok r ->
     match dict_get d "discount_type" with
     | VNone => discount_type r = None
     | VStr s => s <> "" -> discount_type r = Some (pipeline_discount_type s)
     | _ => True
     end)
  /\
  (forall r, DspyModules._map_to_scheme_header now (VDict d) = Ok r ->
     match dict_get d "discount_type" with
     | VNone => discount_type r = None
     | VStr s => s <> "" -> discount_type r = Some (spec_discount_type s)
     | _ => True
     end).
Proof.
  split; intros r H.
  - apply pipeline_map_inv in H as (dt & Hdt & H).
    destruct H as (_ & _ & _ & _ & _ & _ & _ & _ & Hr & _).
    destruct (dict_get d "discount_type") as [| | | |s| |]; try exact I.
    + injection Hdt as <-. simpl in Hr. congruence.
    + intros Hs. unfold pipeline_discount in Hdt.
      change (truthy (VStr s)) with (negb (String.eqb s "")) in Hdt.
      destruct (String.eqb_spec s ""); [contradiction|].
      cbn [negb] in Hdt. rewrite table_get_text, pipeline_table in Hdt.
      injection Hdt as <-.
      unfold optional in Hr.
      rewrite (validate_enum_member _ _ (pipeline_discount_type_member s)) in Hr.
      simpl in Hr. congruence.
  - apply modules_map_inv in H as (dt & Hdt & _ & Hr & _).
    destruct (dict_get d "discount_type") as [| | | |s| |]; try exact I.
    + injection Hdt as <-. simpl in Hr. congruence.
    + intros Hs. unfold modules_discount in Hdt.
      change (truthy (VStr s)) with (negb (String.eqb s "")) in Hdt.
      destruct (String.eqb_spec s ""); [contradiction|].
      cbn [negb] in Hdt. rewrite table_get_text, modules_table in Hdt.
      injection Hdt as <-.
      unfold optional in Hr.
      rewrite (validate_enum_member _ _ (spec_discount_type_member s)) in Hr.
      simpl in Hr. congruence.
Qed.

(** C7, as amended: the four date fields are validated one by one from the
    raw keys of the same name, so [starting_at] equals [duration_start_date]
    (and [ending_at] equals [duration_end_date]) in the record whenever the
    dictionary gives the two keys the same value. *)
Theorem date_aliases_follow_the_input (now : datetime) (d : dict) (r : SchemeHeader) :
  DspyPipeline._map_to_scheme_header now (VDict d) = Ok r ->
  (optional validate_date (dict_get d "duration_start_date")
     = Some (duration_start_date r)
   /\ optional validate_date (dict_get d "starting_at") = Some (starting_at r)
   /\ optional validate_date (dict_get d "duration_end_date")
     = Some (duration_end_date r)
   /\ optional validate_date (dict_get d "ending_at") = Some (ending_at r))
  /\ (dict_get d "starting_at" = dict_get d "duration_start_date" ->
      starting_at r = duration_start_date r)
  /\ (dict_get d "ending_at" = dict_get d "duration_end_date" ->
      ending_at r = duration_end_date r).
Proof.
  intros H. apply pipeline_map_inv in H as (dt & _ & H).
  destruct H as (_ & _ & _ & Hs & He & Hsa & Hea & _).
  repeat split; try assumption.
  - intros Heq. rewrite Heq in Hsa. congruence.
  - intros Heq. rewrite Heq in Hea. congruence.
Qed.

Lemma or_falsy a b : truthy a = false -> or_ a b = b.
Proof. unfold or_. now intros ->. Qed.

Lemma is_zero_number_falsy v : is_zero_number v = true -> truthy v = false.
Proof.
  destruct v; simpl; try discriminate; now intros ->.
Qed.

Lemma optional_float_present c o :
  c <> VNone ->
  optional (validate_float (Some float_zero) None) c = Some o ->
  exists f, coerce_float c = Some f /\ o = Some f.
Proof.
  intros Hc. unfold optional.
  destruct c; try contradiction;
    (destruct (validate_float _ _ _) as [g|] eqn:E; [|discriminate];
     intros [= <-]; exists g; split; [now apply validate_float_coerce in E|reflexivity]).
Qed.

(** C10: the fallback to the legacy key tests truth, not presence.  With
    [discount_value] (or [max_discount_cap]) a zero and [global_cap_amount]
    a value [c] other than null, the record holds [c]; with [description]
    the empty text, [remarks] is taken from the key [remarks]. *)
Theorem zero_falls_back_to_legacy_key (now : datetime) (d : dict) (r : SchemeHeader) :
  DspyPipeline._map_to_scheme_header now (VDict d) = Ok r ->
  (forall c, is_zero_number (dict_get d "discount_value") = true ->
     dict_lookup d "global_cap_amount" = Some c -> c <> VNone ->
     exists f, coerce_float c = Some f /\ discount_value r = Some f)
  /\ (forall c, is_zero_number (dict_get d "max_discount_cap") = true ->
     dict_lookup d "global_cap_amount" = Some c -> c <> VNone ->
     exists f, coerce_float c = Some f /\ max_discount_cap r = Some f)
  /\ (dict_lookup d "description" = Some (VStr "") ->
     optional validate_str (dict_get d "remarks") = Some (remarks r)).
Proof.
  intros H. apply pipeline_map_inv in H as (dt & _ & H).
  destruct H as (_ & _ & _ & _ & _ & _ & _ & _ & _ & Hdv & _ & Hcap & _ & _ & Hrem & _).
  split; [|split].
  - intros c Hz Hc Hn.
    rewrite (or_falsy _ _ (is_zero_number_falsy _ Hz)) in Hdv.
    unfold dict_get in Hdv at 1. rewrite Hc in Hdv.
    now apply optional_float_present.
  - intros c Hz Hc Hn.
    rewrite (or_falsy _ _ (is_zero_number_falsy _ Hz)) in Hcap.
    unfold dict_get in Hcap at 1. rewrite Hc in Hcap.
    now apply optional_float_present.
  - intros Hd. unfold dict_get in Hrem at 1. rewrite Hd in Hrem. exact Hrem.
Qed.

Lemma apply_defaults_dict d dc de :
  DspyPipeline.apply_defaults (VDict d) dc de = Ok (VDict (with_defaults d dc de)).
Proof.
  unfold DspyPipeline.apply_defaults, with_defaults. simpl.
  destruct (dict_contains d "confidence"); simpl;
    match goal with
    | |- context [dict_contains ?x "needs_escalation"] =>
        destruct (dict_contains x "needs_escalation")
    end; reflexivity.
Qed.

Lemma lookup_after_defaults d dc de :
  dict_lookup (with_defaults d dc de) "confidence"
    = Some (match dict_lookup d "confidence" with Some v => v | None => dc end)
  /\ dict_lookup (with_defaults d dc de) "needs_escalation"
    = Some (match dict_lookup d "needs_escalation" with Some v => v | None => de end).
Proof.
  unfold with_defaults. cbv zeta.
  match goal with
  | |- context [dict_contains ?x "needs_escalation"] => set (d1 := x)
  end.
  assert (H1 : dict_lookup d1 "confidence"
               = Some (match dict_lookup d "confidence" with
                       | Some v => v
                       | None => dc
                       end)).
  { subst d1. unfold dict_contains.
    destruct (dict_lookup d "confidence") eqn:E; [exact E|].
    apply dict_lookup_setitem_eq. }
  assert (H2 : dict_lookup d1 "needs_escalation" = dict_lookup d "needs_escalation").
  { subst d1. destruct (dict_contains d "confidence"); [reflexivity|].
    apply dict_lookup_setitem_ne. discriminate. }
  unfold dict_contains. rewrite !H2.
  destruct (dict_lookup d "needs_escalation") eqn:E.
  - split; [exact H1|]. now rewrite H2.
  - split; [|apply dict_lookup_setitem_eq].
    rewrite dict_lookup_setitem_ne by discriminate. exact H1.
Qed.



End Mapper.

(** ** The output parser *)

Section Parser.
Import Py Models Spec.
Context {L : Library}.
Variable body : datetime -> value -> result SchemeHeader.

(** the loop only ever appends to the records it was given *)
Lemma collect_acc clock items : forall n acc,
  DspyModules.collect body clock n items acc
  = match DspyModules.collect body clock n items [] with
    | Ok out => Ok (acc ++ out)%list
    | Raise e => Raise e
    end.
Proof.
  induction items as [|x items IH]; intros n acc; simpl.
  - now rewrite app_nil_r.
  - destruct (body (clock n) x) as [r|e].
    + rewrite (IH (S n) (acc ++ [r])%list), (IH (S n) [r]).
      destruct (DspyModules.collect body clock (S n) items []); [|reflexivity].
      now rewrite <- app_assoc.
    + destruct e; try reflexivity. apply IH.
Qed.

(** a property of every record the body returns holds of every record of
    the loop's result *)
Lemma collect_Forall (P : SchemeHeader -> Prop) clock :
  (forall now x r, body now x = Ok r -> P r) ->
  forall items n acc out,
    Forall P acc ->
    DspyModules.collect body clock n items acc = Ok out -> Forall P out.
Proof.
  intros HP. induction items as [|x items IH]; intros n acc out Hacc; simpl.
  - now intros [= <-].
  - destruct (body (clock n) x) as [r|e] eqn:E.
    + apply IH. apply Forall_app. split; [assumption|].
      constructor; [|constructor]. eapply HP, E.
    + destruct e; try discriminate. now apply IH.
Qed.

(** when every element either validates or fails validation, the loop
    returns the records of the elements that validate, in their order *)
Lemma collect_keeps_valid clock :
  clock_independent body ->
  forall items n,
    Forall (fun x => validates body x \/ fails_validation body x) items ->
    exists out,
      DspyModules.collect body clock n items [] = Ok out
      /\ Forall2 (fun x r => exists now, body now x = Ok r)
           (filter (fun x => is_ok (body 0%Z x)) items) out.
Proof.
  intros Hci. induction items as [|x items IH]; intros n Hall.
  - exists []. split; [reflexivity|constructor].
  - inversion Hall as [|? ? Hx Hrest]; subst.
    destruct (IH (S n) Hrest) as (out & Hout & Hrel).
    simpl. rewrite (Hci 0%Z (clock n) x).
    unfold validates, fails_validation in Hx.
    destruct (body 0%Z x) as [r0|e] eqn:E0.
    + simpl. rewrite collect_acc, Hout.
      exists (with_extracted_at (clock n) r0 :: out). split; [reflexivity|].
      constructor; [|assumption].
      exists (clock n). now rewrite (Hci 0%Z (clock n) x), E0.
    + destruct Hx as [Hx|Hx]; [discriminate|]. injection Hx as ->.
      simpl. exists out. now split.
Qed.

Lemma timeless_with_extracted_at t r : timeless (with_extracted_at t r) = timeless r.
Proof. reflexivity. Qed.

(** the clock only shows in the creation times of the records *)
Lemma collect_timeless :
  clock_independent body ->
  forall items clock n clock' n' acc acc',
    map timeless acc = map timeless acc' ->
    same_outcome (DspyModules.collect body clock n items acc)
      (DspyModules.collect body clock' n' items acc').
Proof.
  intros Hci. induction items as [|x items IH]; intros clock n clock' n' acc acc' Hacc.
  - exact Hacc.
  - simpl. rewrite (Hci 0%Z (clock n) x), (Hci 0%Z (clock' n') x).
    destruct (body 0%Z x) as [r0|e].
    + apply IH. rewrite !map_app, Hacc. reflexivity.
    + destruct e; try reflexivity. now apply IH.
Qed.

(** an element that fails validation leaves no trace but a clock reading *)
Lemma collect_drop before bad after :
  clock_independent body ->
  fails_validation body bad ->
  forall clock n acc,
    same_outcome (DspyModules.collect body clock n (before ++ bad :: after) acc)
      (DspyModules.collect body clock n (before ++ after) acc).
Proof.
  intros Hci Hbad. induction before as [|x before IH]; intros clock n acc.
  - simpl. rewrite (Hci 0%Z (clock n) bad). unfold fails_validation in Hbad.
    rewrite Hbad. now apply collect_timeless.
  - simpl. destruct (body (clock n) x) as [r|e]; [apply IH|].
    destruct e; try reflexivity. apply IH.
Qed.

(** the method returns a list whatever the completion *)
Lemma parse_with_total clock response :
  exists out, DspyModules.parse_with body clock response = Ok out.
Proof.
  unfold DspyModules.parse_with, try_except.
  match goal with
  | |- exists out, match ?m with _ => _ end = _ => destruct m as [out|e]
  end.
  - now exists out.
  - exists []. now destruct e.
Qed.

Lemma parse_with_not_json clock text :
  json_loads (DspyModules.clean text) = None ->
  DspyModules.parse_with body clock (VStr text) = Ok [].
Proof.
  intros H. unfold DspyModules.parse_with, DspyModules.loads. simpl.
  now rewrite H.
Qed.

Lemma parse_with_no_schemes clock text data :
  json_loads (DspyModules.clean text) = Some data ->
  (forall d, data = VDict d -> dict_lookup d "schemes" = None) ->
  DspyModules.parse_with body clock (VStr text) = Ok [].
Proof.
  intros H Hno. unfold DspyModules.parse_with, DspyModules.loads. simpl.
  rewrite H. simpl.
  destruct data as [| | | |s|l|d]; try reflexivity; simpl.
  - destruct (substring_of "schemes" s); reflexivity.
  - destruct (existsb _ l); reflexivity.
  - unfold dict_contains. now rewrite (Hno d eq_refl).
Qed.

Lemma parse_with_schemes clock text d items :
  json_loads (DspyModules.clean text) = Some (VDict d) ->
  dict_lookup d "schemes" = Some (VList items) ->
  DspyModules.parse_with body clock (VStr text)
  = match DspyModules.collect body clock 0 items [] with
    | Ok out => Ok out
    | Raise _ => Ok []
    end.
Proof.
  intros H Hs. unfold DspyModules.parse_with, DspyModules.loads. simpl.
  rewrite H. simpl. unfold dict_contains. rewrite Hs. simpl.
  destruct (DspyModules.collect body clock 0 items []) as [out|e]; [reflexivity|].
  now destruct e.
Qed.

Lemma parse_with_drop clock text text' d d' before bad after :
  clock_independent body ->
  json_loads (DspyModules.clean text) = Some (VDict d) ->
  dict_lookup d "schemes" = Some (VList (before ++ bad :: after)) ->
  json_loads (DspyModules.clean text') = Some (VDict d') ->
  dict_lookup d' "schemes" = Some (VList (before ++ after)) ->
  fails_validation body bad ->
  exists out out',
    DspyModules.parse_with body clock (VStr text) = Ok out
    /\ DspyModules.parse_with body clock (VStr text') = Ok out'
    /\ map timeless out = map timeless out'.
Proof.
  intros Hci Hj Hs Hj' Hs' Hbad.
  rewrite (parse_with_schemes clock text d _ Hj Hs).
  rewrite (parse_with_schemes clock text' d' _ Hj' Hs').
  pose proof (collect_drop before bad after Hci Hbad clock 0 []) as H.
  destruct (DspyModules.collect body clock 0 (before ++ bad :: after) []) as [out|e];
    destruct (DspyModules.collect body clock 0 (before ++ after) []) as [out'|e'];
    simpl in H; try contradiction.
  - now exists out, out'.
  - now exists [], [].
Qed.

Lemma parse_with_keeps_valid clock text d items :
  clock_independent body ->
  json_loads (DspyModules.clean text) = Some (VDict d) ->
  dict_lookup d "schemes" = Some (VList items) ->
  Forall (fun x => validates body x \/ fails_validation body x) items ->
  exists out,
    DspyModules.parse_with body clock (VStr text) = Ok out
    /\ Forall2 (fun x r => exists now, body now x = Ok r)
         (filter (fun x => is_ok (body 0%Z x)) items) out.
Proof.
  intros Hci Hj Hs Hall.
  destruct (collect_keeps_valid clock Hci items 0 Hall) as (out & Hout & Hrel).
  exists out. split; [|exact Hrel].
  rewrite (parse_with_schemes clock text d items Hj Hs). now rewrite Hout.
Qed.

(** a response without the element that fails validation has the same
    valid elements *)
Lemma filter_without_invalid before bad after :
  fails_validation body bad ->
  filter (fun x => is_ok (body 0%Z x)) (before ++ bad :: after)
  = filter (fun x => is_ok (body 0%Z x)) (before ++ after).
Proof.
  intros Hbad. rewrite !filter_app. simpl.
  unfold fails_validation in Hbad. now rewrite Hbad.
Qed.

Lemma parse_with_Forall (P : SchemeHeader -> Prop) clock response :
  (forall now x r, body now x = Ok r -> P r) ->
  match DspyModules.parse_with body clock response with
  | Ok out => Forall P out
  | Raise _ => False
  end.
Proof.
  intros HP. unfold DspyModules.parse_with, try_except.
  match goal with
  | |- match match ?m with _ => _ end with _ => _ end => destruct m as [out|e] eqn:E
  end.
  2:{ destruct e; constructor. }
  unfold bind in E.
  repeat match type of E with
         | match ?x with _ => _ end = _ =>
             let E' := fresh "E" in destruct x eqn:E'; try discriminate E
         end;
    try (injection E as <-; constructor).
  all: try (eapply (collect_Forall P clock HP); [|exact E]; constructor).
Qed.

End Parser.

Section ParserProperties.
Import Py Models Spec.
Context {L : Library}.

Lemma loop_body_clock_independent dc de :
  clock_independent (DspyPipeline.loop_body dc de).
Proof.
  intros t1 t2 x. unfold DspyPipeline.loop_body, bind.
  destruct (DspyPipeline.apply_defaults x dc de); [|reflexivity].
  apply pipeline_mapping_time.
Qed.

Lemma modules_map_clock_independent :
  clock_independent DspyModules._map_to_scheme_header.
Proof. intros t1 t2 x. apply modules_mapping_time. Qed.

Lemma loop_body_sub_type dc de now x r :
  DspyPipeline.loop_body dc de now x = Ok r ->
  In (scheme_sub_type r) SchemeSubType.
Proof.
  unfold DspyPipeline.loop_body, bind.
  destruct (DspyPipeline.apply_defaults x dc de) as [y|]; [|discriminate].
  intros H. destruct (pipeline_map_dict _ _ _ H) as [d ->].
  apply pipeline_map_inv in H as (dt & _ & _ & H & _).
  eapply validate_enum_In, H.
Qed.

Lemma modules_map_sub_type now x r :
  DspyModules._map_to_scheme_header now x = Ok r ->
  In (scheme_sub_type r) SchemeSubType.
Proof.
  intros H. destruct (modules_map_dict _ _ _ H) as [d ->].
  apply modules_map_inv in H as (dt & _ & H & _).
  eapply validate_enum_In, H.
Qed.

(** C4: neither parser raises.  A completion that is not JSON once the
    fences and blanks are stripped gives the empty list, and so does one
    that decodes to something without a top-level key [schemes]. *)
Theorem parser_never_raises (clock : nat -> datetime)
    (response default_confidence default_escalation : value) :
  ((exists out,
      DspyPipeline._parse_schemes_json clock response default_confidence
        default_escalation = Ok out)
   /\ (exists out, DspyModules._parse_response clock response = Ok out))
  /\ (forall text,
        response = VStr text ->
        json_loads (DspyModules.clean text) = None ->
        DspyPipeline._parse_schemes_json clock response default_confidence
          default_escalation = Ok []
        /\ DspyModules._parse_response clock response = Ok [])
  /\ (forall text data,
        response = VStr text ->
        json_loads (DspyModules.clean text) = Some data ->
        (forall d, data = VDict d -> dict_lookup d "schemes" = None) ->
        DspyPipeline._parse_schemes_json clock response default_confidence
          default_escalation = Ok []
        /\ DspyModules._parse_response clock response = Ok []).
Proof.
  unfold DspyPipeline._parse_schemes_json, DspyModules._parse_response.
  split; [split; apply parse_with_total|].
  split.
  - intros text -> H. split; now apply parse_with_not_json.
  - intros text data -> H Hno. split; now apply parse_with_no_schemes with data.
Qed.

(** A dictionary on which the constructor raises [ValidationError] is
    dropped alone.  The parser returns for the response what it returns for
    the response without that dictionary, up to the creation times; and
    when each of the other elements validates or fails validation, it
    returns exactly the records of those that validate, in their order. *)
Lemma validation_error_is_dropped_alone (clock : nat -> datetime)
    (text text' : string) (default_confidence default_escalation : value)
    (d d' : dict) (before : list value) (bad : value) (after : list value) :
  json_loads (DspyModules.clean text) = Some (VDict d) ->
  dict_lookup d "schemes" = Some (VList (before ++ bad :: after)) ->
  json_loads (DspyModules.clean text') = Some (VDict d') ->
  dict_lookup d' "schemes" = Some (VList (before ++ after)) ->
  fails_validation (DspyPipeline.loop_body default_confidence default_escalation) bad ->
  (exists out out',
     DspyPipeline._parse_schemes_json clock (VStr text) default_confidence
       default_escalation = Ok out
     /\ DspyPipeline._parse_schemes_json clock (VStr text') default_confidence
          default_escalation = Ok out'
     /\ map timeless out = map timeless out')
  /\ (Forall (fun x =>
                validates
                  (DspyPipeline.loop_body default_confidence default_escalation) x
                \/ fails_validation
                     (DspyPipeline.loop_body default_confidence default_escalation) x)
        (before ++ after) ->
      exists out,
        DspyPipeline._parse_schemes_json clock (VStr text) default_confidence
          default_escalation = Ok out
        /\ Forall2
             (fun x r =>
                exists now,
                  DspyPipeline.loop_body default_confidence default_escalation now x
                  = Ok r)
             (filter
                (fun x =>
                   is_ok (DspyPipeline.loop_body default_confidence
                            default_escalation 0%Z x))
                (before ++ after))
             out).
Proof.
  intros Hj Hs Hj' Hs' Hbad.
  unfold DspyPipeline._parse_schemes_json.
  split.
  - now apply (parse_with_drop _ clock text text' d d' before bad after
                 (loop_body_clock_independent _ _)).
  - intros Hall.
    rewrite <- (filter_without_invalid _ before bad after Hbad).
    apply (parse_with_keeps_valid _ clock text d _ (loop_body_clock_independent _ _)
             Hj Hs).
    apply Forall_app in Hall as [H1 H2].
    apply Forall_app. split; [exact H1|]. constructor; [now right|exact H2].
Qed.

(** the same for the parser of [SchemeExtractor] *)
Lemma parse_response_drops_invalid_record_alone (clock : nat -> datetime)
    (text text' : string) (d d' : dict) (before : list value) (bad : value)
    (after : list value) :
  json_loads (DspyModules.clean text) = Some (VDict d) ->
  dict_lookup d "schemes" = Some (VList (before ++ bad :: after)) ->
  json_loads (DspyModules.clean text') = Some (VDict d') ->
  dict_lookup d' "schemes" = Some (VList (before ++ after)) ->
  fails_validation DspyModules._map_to_scheme_header bad ->
  (exists out out',
     DspyModules._parse_response clock (VStr text) = Ok out
     /\ DspyModules._parse_response clock (VStr text') = Ok out'
     /\ map timeless out = map timeless out')
  /\ (Forall (fun x =>
                validates DspyModules._map_to_scheme_header x
                \/ fails_validation DspyModules._map_to_scheme_header x)
        (before ++ after) ->
      exists out,
        DspyModules._parse_response clock (VStr text) = Ok out
        /\ Forall2
             (fun x r => exists now, DspyModules._map_to_scheme_header now x = Ok r)
             (filter (fun x => is_ok (DspyModules._map_to_scheme_header 0%Z x))
                (before ++ after))
             out).
Proof.
  intros Hj Hs Hj' Hs' Hbad.
  unfold DspyModules._parse_response.
  split.
  - now apply (parse_with_drop _ clock text text' d d' before bad after
                 modules_map_clock_independent).
  - intros Hall.
    rewrite <- (filter_without_invalid _ before bad after Hbad).
    apply (parse_with_keeps_valid _ clock text d _ modules_map_clock_independent
             Hj Hs).
    apply Forall_app in Hall as [H1 H2].
    apply Forall_app. split; [exact H1|]. constructor; [now right|exact H2].
Qed.

(** C8: every record either parser returns has a [scheme_sub_type] that is
    one of the values of the enumeration [SchemeSubType], whatever the
    completion. *)
Theorem emitted_sub_type_is_in_the_enumeration (clock : nat -> datetime)
    (response default_confidence default_escalation : value) :
  match
    DspyPipeline._parse_schemes_json clock response default_confidence
      default_escalation
  with
  | Ok out => Forall (fun r => In (scheme_sub_type r) SchemeSubType) out
  | Raise _ => False
  end
  /\ match DspyModules._parse_response clock response with
     | Ok out => Forall (fun r => In (scheme_sub_type r) SchemeSubType) out
     | Raise _ => False
     end.
Proof.
  split.
  - apply parse_with_Forall. apply loop_body_sub_type.
  - apply parse_with_Forall. apply modules_map_sub_type.
Qed.

End ParserProperties.

(** ** The fingerprint of [build_scheme_header] *)

Section Fingerprint.
Import Py Spec.
Context {L : Library}.

Lemma length_slice_to s : forall n,
  String.length (slice_to n s) = Nat.min (N.to_nat n) (String.length s).
Proof.
  induction s as [|c s IH]; intros n; simpl.
  - now rewrite Nat.min_0_r.
  - destruct (N.eqb_spec n 0) as [->|Hn]; [reflexivity|].
    simpl. rewrite IH.
    replace (N.to_nat n) with (S (N.to_nat (N.pred n))) by lia.
    reflexivity.
Qed.

Lemma length_hex bs : String.length (Hashlib.hex bs) = (2 * List.length bs)%nat.
Proof.
  induction bs as [|b bs IH]; simpl; [reflexivity|]. rewrite IH. lia.
Qed.

Lemma length_md5 msg : List.length (Hashlib.md5 msg) = 16%nat.
Proof.
  unfold Hashlib.md5.
  destruct (fold_left Hashlib.compress _ Hashlib.init) as [[[a b] c] d].
  reflexivity.
Qed.

(** the fuel [md5] gives [blocks] is enough: the blocks are the whole of
    the padded message *)
Lemma blocks_cover (fuel : nat) : forall bs,
  (List.length bs <= fuel)%nat -> List.concat (Hashlib.blocks fuel bs) = bs.
Proof.
  induction fuel as [|fuel IH]; intros bs Hlen.
  - destruct bs; [reflexivity|simpl in Hlen; lia].
  - destruct bs as [|b bs]; [reflexivity|].
    change (Hashlib.blocks (S fuel) (b :: bs))
      with (firstn 64 (b :: bs) :: Hashlib.blocks fuel (skipn 64 (b :: bs))).
    cbn [List.concat]. rewrite IH; [apply firstn_skipn|].
    rewrite length_skipn. simpl in *. lia.
Qed.

Lemma length_scheme_id name start_date end_date :
  String.length (BuildSchemeHeader.scheme_id name start_date end_date) = 10%nat.
Proof.
  unfold BuildSchemeHeader.scheme_id, Hashlib.md5_hexdigest.
  now rewrite length_slice_to, length_hex, length_md5.
Qed.

Lemma scheme_row_id d source_file row :
  BuildSchemeHeader.scheme_row (VDict d) source_file = Ok row ->
  dict_lookup row "scheme_id"
  = Some (VStr (BuildSchemeHeader.scheme_id (dict_get d "scheme_name")
                  (dict_get d "duration_start_date")
                  (dict_get d "duration_end_date"))).
Proof.
  unfold BuildSchemeHeader.scheme_row, get, bind. intros [= <-]. reflexivity.
Qed.

Lemma rows_loop_rows source_file : forall items acc rows,
  BuildSchemeHeader.rows_loop items source_file acc = Ok rows ->
  exists rows',
    rows = (acc ++ rows')%list
    /\ Forall2 (fun x row => BuildSchemeHeader.scheme_row x source_file = Ok row)
         items rows'.
Proof.
  induction items as [|x items IH]; intros acc rows; simpl.
  - intros [= <-]. exists []. split; [now rewrite app_nil_r|constructor].
  - unfold bind at 1.
    destruct (BuildSchemeHeader.scheme_row x source_file) as [row|] eqn:E;
      [|discriminate].
    intros H. apply IH in H as (rows' & -> & Hrel).
    exists (row :: rows'). split; [now rewrite <- app_assoc|].
    now constructor.
Qed.

(** the row built for the scheme that stands after [before] in the response *)
Lemma rows_of_row res source_file before d after rows :
  dict_lookup res "schemes" = Some (VList (before ++ VDict d :: after)) ->
  BuildSchemeHeader.rows_of (VDict res) source_file = Ok rows ->
  exists row,
    nth_error rows (List.length before) = Some row
    /\ dict_lookup row "scheme_id"
       = Some (VStr (BuildSchemeHeader.scheme_id (dict_get d "scheme_name")
                       (dict_get d "duration_start_date")
                       (dict_get d "duration_end_date"))).
Proof.
  intros Hs. unfold BuildSchemeHeader.rows_of. simpl.
  rewrite Hs. simpl. intros H.
  apply rows_loop_rows in H as (rows' & -> & Hrel). simpl.
  apply Forall2_app_inv_l in Hrel as (r1 & r2 & H1 & H2 & ->).
  inversion H2 as [|? row ? r2' Hrow Hrest]; subst.
  exists row. split; [|eapply scheme_row_id; eassumption].
  rewrite (Forall2_length H1), nth_error_app2 by lia.
  now rewrite Nat.sub_diag.
Qed.

(** the frame [build_scheme_header] returns is made of the rows of the loop *)
Lemma build_scheme_header_rows {P : BuildSchemeHeader.Pandas} result source_file df :
  BuildSchemeHeader.build_scheme_header result source_file = Ok df ->
  exists rows,
    BuildSchemeHeader.rows_of result source_file = Ok rows
    /\ df = BuildSchemeHeader.DataFrame rows.
Proof.
  unfold BuildSchemeHeader.build_scheme_header, bind.
  destruct (BuildSchemeHeader.rows_of result source_file) as [rows|];
    [|discriminate].
  intros [= <-]. now exists rows.
Qed.

(** C1: the [scheme_id] of a row is a digest of the triple and of nothing
    else: the first ten characters of the hexadecimal MD5 digest of the
    UTF-8 bytes of the text name|start|end, made of the scheme's
    [scheme_name], [duration_start_date] and [duration_end_date] as an
    f-string prints them.  So two schemes that agree on the three get the
    same id, wherever they stand in the frame and whatever the rest of
    their dictionaries or the source file. *)
Theorem scheme_id_depends_on_the_triple_only {P : BuildSchemeHeader.Pandas}
    (res1 res2 : dict) (source_file1 source_file2 : value)
    (before1 after1 before2 after2 : list value) (d1 d2 : dict)
    (frame1 frame2 : BuildSchemeHeader.frame) :
  dict_lookup res1 "schemes" = Some (VList (before1 ++ VDict d1 :: after1)) ->
  dict_lookup res2 "schemes" = Some (VList (before2 ++ VDict d2 :: after2)) ->
  BuildSchemeHeader.build_scheme_header (VDict res1) source_file1 = Ok frame1 ->
  BuildSchemeHeader.build_scheme_header (VDict res2) source_file2 = Ok frame2 ->
  dict_get d1 "scheme_name" = dict_get d2 "scheme_name" ->
  dict_get d1 "duration_start_date" = dict_get d2 "duration_start_date" ->
  dict_get d1 "duration_end_date" = dict_get d2 "duration_end_date" ->
  exists rows1 rows2 row1 row2 id,
    (BuildSchemeHeader.rows_of (VDict res1) source_file1 = Ok rows1
     /\ frame1 = BuildSchemeHeader.DataFrame rows1)
    /\ (BuildSchemeHeader.rows_of (VDict res2) source_file2 = Ok rows2
        /\ frame2 = BuildSchemeHeader.DataFrame rows2)
    /\ nth_error rows1 (List.length before1) = Some row1
    /\ nth_error rows2 (List.length before2) = Some row2
    /\ dict_lookup row1 "scheme_id" = Some (VStr id)
    /\ dict_lookup row2 "scheme_id" = Some (VStr id)
    /\ String.length id = 10%nat
    /\ id = slice_to 10
              (Hashlib.hex
                 (Hashlib.md5
                    (Hashlib.encode
                       (format_value (dict_get d1 "scheme_name") ++ "|"
                        ++ format_value (dict_get d1 "duration_start_date") ++ "|"
                        ++ format_value (dict_get d1 "duration_end_date"))))).
Proof.
  intros Hs1 Hs2 Hb1 Hb2 Hn Hs He.
  apply build_scheme_header_rows in Hb1 as (rows1 & Hr1 & ->).
  apply build_scheme_header_rows in Hb2 as (rows2 & Hr2 & ->).
  destruct (rows_of_row _ _ _ _ _ _ Hs1 Hr1) as (row1 & Hrow1 & Hid1).
  destruct (rows_of_row _ _ _ _ _ _ Hs2 Hr2) as (row2 & Hrow2 & Hid2).
  rewrite <- Hn, <- Hs, <- He in Hid2.
  exists rows1, rows2, row1, row2. eexists.
  repeat split; try eassumption; try reflexivity.
  apply length_scheme_id.
Qed.

End Fingerprint.

(** ** The terminal result of [extract] *)

Section Extract.
Import Py Models Response Spec.
Context {L : Library} {St : DspyPipeline.Stages}.
Variable llm : DspyPipeline.LM.

(** the response the handler of [extract] builds *)
Lemma fallback_response (e : exn) :
  LLMResponse_init []
    [("raw_response", VStr (exn_str e));
     ("model_used", VStr (DspyPipeline.model_name llm));
     ("reasoning", VStr ("Extraction failed: " ++ exn_str e));
     ("cot_steps", VList [])]
  = Ok (mk_LLMResponse [] (Some (exn_str e)) None
          (Some (DspyPipeline.model_name llm))
          (Some ("Extraction failed: " ++ exn_str e)) []).
Proof. reflexivity. Qed.

Lemma extract_total clock email_subject email_body :
  exists r, DspyPipeline.extract llm clock email_subject email_body = Ok r.
Proof.
  unfold DspyPipeline.extract, try_except.
  match goal with
  | |- exists r, match ?m with _ => _ end = _ => destruct m as [r|e]
  end.
  - now exists r.
  - rewrite fallback_response. now eexists.
Qed.

Lemma LLMResponse_init_schemes the_schemes kw r :
  LLMResponse_init the_schemes kw = Ok r -> schemes r = the_schemes.
Proof.
  unfold LLMResponse_init.
  match goal with
  | |- match ?m with _ => _ end = _ -> _ => destruct m as [r'|] eqn:E; [|discriminate]
  end.
  intros [= <-].
  repeat split_match E. now injection E as <-.
Qed.

Lemma empty_response_is_not_escalated (r : LLMResponse) :
  schemes r = [] ->
  Response.needs_escalation r = false /\ average_confidence r = float_zero.
Proof.
  unfold Response.needs_escalation, average_confidence. now intros ->.
Qed.

(** what [forward] returns when a reasoning stage raised *)
Lemma forward_failed mail_subject mail_body steps e :
  DspyPipeline.forward_try mail_subject mail_body [] = (steps, Raise e) ->
  DspyPipeline.forward mail_subject mail_body
  = VDict [("schemes_json", VStr DspyPipeline.failed_schemes_json);
           ("reasoning", VStr ("Extraction failed: " ++ exn_str e));
           ("cot_steps", VList steps);
           ("confidence_score", VFloat float_zero);
           ("needs_escalation", VBool true)].
Proof. unfold DspyPipeline.forward. now intros ->. Qed.

(** C3, what the code does: [extract] never raises, and an attempt in
    which a reasoning stage raised ends in a response without schemes whose
    [needs_escalation] is false: the flag [forward] sets on failure has no
    record to land on. *)
Theorem failed_attempt_is_not_escalated (clock : nat -> datetime)
    (email_subject email_body : string) (steps : list value) (e : exn) :
  DspyPipeline.forward_try email_subject email_body [] = (steps, Raise e) ->
  json_loads (DspyModules.clean DspyPipeline.failed_schemes_json)
  = Some (VDict [("schemes", VList [])]) ->
  exists r,
    DspyPipeline.extract llm clock email_subject email_body = Ok r
    /\ schemes r = []
    /\ Response.needs_escalation r = false
    /\ average_confidence r = float_zero.
Proof.
  intros Hf Hjson.
  destruct (extract_total clock email_subject email_body) as [r Hr].
  exists r. split; [exact Hr|].
  assert (Hs : schemes r = []).
  { revert Hr. unfold DspyPipeline.extract.
    rewrite (forward_failed _ _ _ _ Hf).
    cbn [getitem get dict_lookup dict_get_default String.eqb Ascii.eqb Bool.eqb bind].
    unfold DspyPipeline._parse_schemes_json.
    rewrite (parse_with_schemes _ clock _ _ [] Hjson eq_refl).
    cbn [DspyModules.collect bind].
    destruct (DspyPipeline.get_usage_stats llm) as [usage|e1];
      cbn [bind try_except];
      [destruct (get usage "total_tokens" VNone) as [total|e2];
       cbn [bind try_except]|].
    1: unfold try_except;
       match goal with
       | |- match ?m with _ => _ end = _ -> _ => destruct m as [r'|e3] eqn:E3
       end.
    1: intros [= <-]; now apply LLMResponse_init_schemes in E3.
    all: intros H; now apply LLMResponse_init_schemes in H. }
  split; [exact Hs|]. now apply empty_response_is_not_escalated.
Qed.

End Extract.

(** ** The properties at concrete inputs *)

Section Concrete.
Import Py Models Response Spec Examples.
#[local] Existing Instance Reference.library.
#[local] Existing Instance Reference.pandas.

Example md5_empty :
  Hashlib.md5_hexdigest [] = "d41d8cd98f00b204e9800998ecf8427e".
Proof. vm_compute. reflexivity. Qed.

Example md5_abc :
  Hashlib.md5_hexdigest (Hashlib.encode "abc") = "900150983cd24fb0d6963f7d28e17f72".
Proof. vm_compute. reflexivity. Qed.

Example md5_three_blocks :
  Hashlib.md5_hexdigest
    (Hashlib.encode
       ("The quick brown fox jumps over the lazy dog. "
        ++ "The quick brown fox jumps over the lazy dog. "
        ++ "The quick brown fox jumps over the lazy dog. "))
  = "e6f263d514adf884ef6cc864d206d462".
Proof. vm_compute. reflexivity. Qed.

Example md5_of_two_byte_character :
  BuildSchemeHeader.scheme_id
    (VStr ("Caf" ++ String (ascii_of_nat 233) EmptyString)) VNone VNone
  = "cfc5463452".
Proof. vm_compute. reflexivity. Qed.

Example md5_of_raw_id :
  BuildSchemeHeader.scheme_id (VStr "JBP Q1") (VStr "2024-01-01") VNone
  = "6f7a486585".
Proof. vm_compute. reflexivity. Qed.

(** the scenario of the spec's section 8, from the completion to the record *)
Example end_to_end_scenario :
  exists r,
    DspyPipeline._parse_schemes_json ticks
      (VStr (Reference.json_text
               "{'schemes': [{'scheme_type': 'BUY_SIDE',
                  'scheme_sub_type': 'PERIODIC_CLAIM',
                  'scheme_name': 'JBP Q1 Renewal - Acme Corp',
                  'duration_start_date': '2024-01-01',
                  'duration_end_date': '2024-03-31',
                  'max_discount_cap': 50000,
                  'vendors': [{'vendor_name': 'Acme Corp', 'location': 'Mumbai',
                               'amount': 20000}]}]}"))
      (VFloat f_0_9) (VBool false) = Ok [r]
    /\ scheme_type r = "BUY_SIDE"
    /\ scheme_sub_type r = "PERIODIC_CLAIM"
    /\ duration_start_date r = Some (mk_date 2024 1 1)
    /\ duration_end_date r = Some (mk_date 2024 3 31)
    /\ option_map Some (float_of_int 50000) = Some (max_discount_cap r)
    /\ confidence r = f_0_9
    /\ Models.needs_escalation r = false.
Proof. eexists. split; [vm_compute; reflexivity|]. repeat split. Qed.

(** a fenced completion parses as the JSON between the fences *)
Example fenced_completion :
  DspyModules.clean
    ("```json" ++ nl ++ Reference.json_text "{'schemes': []}" ++ nl ++ "```" ++ nl)
  = Reference.json_text "{'schemes': []}".
Proof. vm_compute. reflexivity. Qed.

(** C1 at two extractions of one scheme that differ in confidence, vendors,
    amounts, position and source file: both rows carry the first ten
    digits of the MD5 digest of
    JBP Q1 Renewal - Acme Corp|2024-01-01|2024-03-31, and the row of another
    scheme in the same response carries another id *)
Lemma scheme_id_witness :
  exists rows1 rows2 row1 row2 other,
    BuildSchemeHeader.build_scheme_header (VDict first_response) (VStr "mail_1.pdf")
    = Ok (BuildSchemeHeader.DataFrame rows1)
    /\ BuildSchemeHeader.build_scheme_header (VDict second_response)
         (VStr "mail_2.pdf")
       = Ok (BuildSchemeHeader.DataFrame rows2)
    /\ nth_error rows1 0 = Some row1
    /\ nth_error rows2 1 = Some row2
    /\ dict_lookup row1 "scheme_id" = Some (VStr "e4d68c80c6")
    /\ dict_lookup row2 "scheme_id" = Some (VStr "e4d68c80c6")
    /\ nth_error rows2 0 = Some other
    /\ dict_lookup other "scheme_id" = Some (VStr "4a4be30e59").
Proof.
  destruct (scheme_id_depends_on_the_triple_only (P := Reference.pandas)
              first_response second_response
              (VStr "mail_1.pdf") (VStr "mail_2.pdf") [] [] [VDict sellout] []
              jbp_first jbp_second
              (the_rows (BuildSchemeHeader.rows_of (VDict first_response)
                           (VStr "mail_1.pdf")))
              (the_rows (BuildSchemeHeader.rows_of (VDict second_response)
                           (VStr "mail_2.pdf"))))
    as (rows1 & rows2 & row1 & row2 & id & [H1 E1] & [H2 E2] & Hr1 & Hr2 & Hi1 & Hi2
        & _ & Hid);
    try (vm_compute; reflexivity).
  vm_compute in Hid. subst id.
  exists rows1, rows2, row1, row2.
  vm_compute in H2. injection H2 as <-.
  vm_compute in H1. injection H1 as <-.
  eexists. repeat split; try eassumption; reflexivity.
Defined.

(** C2 fails as stated at the text SLAB: the chain-of-thought mapper keeps
    it, where the spec's table sends it to OTHER *)
Lemma discount_type_SLAB_is_not_OTHER :
  exists r,
    DspyPipeline._map_to_scheme_header 0%Z (VDict slab) = Ok r
    /\ dict_get slab "discount_type" = VStr "SLAB"
    /\ discount_type r = Some "SLAB"
    /\ spec_discount_type "SLAB" = "OTHER".
Proof. eexists. repeat split; vm_compute; reflexivity. Qed.

(** C2, as amended, at the text Percentage of NLC, in both mappers *)
Lemma discount_type_witness :
  discount_type
    (the_record (DspyPipeline._map_to_scheme_header 0%Z (VDict percentage_of_nlc)))
  = Some "PERCENTAGE"
  /\ discount_type
       (the_record (DspyModules._map_to_scheme_header 0%Z (VDict percentage_of_nlc)))
     = Some "PERCENTAGE".
Proof.
  split.
  - refine (proj1 (discount_type_normalization 0%Z percentage_of_nlc) _ _ _).
    + vm_compute. reflexivity.
    + discriminate.
  - refine (proj2 (discount_type_normalization 0%Z percentage_of_nlc) _ _ _).
    + vm_compute. reflexivity.
    + discriminate.
Defined.

(** C3 at an attempt whose first reasoning stage times out *)
Lemma failed_attempt_witness :
  exists r,
    DspyPipeline.extract (St := timeout_stages) client ticks
      "JBP Q1 Renewal - Acme Corp" "JBP period 2024-01-01 to 2024-03-31, cap INR 50000"
    = Ok r
    /\ schemes r = []
    /\ Response.needs_escalation r = false
    /\ average_confidence r = float_zero.
Proof.
  apply (failed_attempt_is_not_escalated (St := timeout_stages) client ticks
           "JBP Q1 Renewal - Acme Corp"
           "JBP period 2024-01-01 to 2024-03-31, cap INR 50000" []
           (External "Read timed out"));
    vm_compute; reflexivity.
Defined.

(** C4 at a completion that is no JSON and at one without the key
    [schemes] *)
Lemma parser_witness :
  (DspyPipeline._parse_schemes_json ticks (VStr "not json at all")
     (VFloat float_half) (VBool false) = Ok []
   /\ DspyModules._parse_response ticks (VStr "not json at all") = Ok [])
  /\ (DspyPipeline._parse_schemes_json ticks (VStr nothing_found)
        (VFloat float_half) (VBool false) = Ok []
      /\ DspyModules._parse_response ticks (VStr nothing_found) = Ok []).
Proof.
  split.
  - refine (proj1 (proj2 (parser_never_raises ticks (VStr "not json at all")
                            (VFloat float_half) (VBool false)))
              "not json at all" eq_refl _).
    vm_compute. reflexivity.
  - refine (proj2 (proj2 (parser_never_raises ticks (VStr nothing_found)
                            (VFloat float_half) (VBool false)))
              nothing_found (VDict [("note", VStr "nothing found")]) eq_refl _ _).
    + vm_compute. reflexivity.
    + intros d [= <-]. reflexivity.
Defined.

(** at a completion of four dictionaries, the second with a negative
    amount and the fourth with an impossible date: the first and the third
    are returned, as for the completion without the second, with the clock
    readings 0 and 2 instead of 0 and 1 *)
Example validation_error_dropped_alone :
  exists out out',
    DspyPipeline._parse_schemes_json ticks (VStr mixed_completion) (VFloat f_0_3)
      (VBool true) = Ok out
    /\ DspyPipeline._parse_schemes_json ticks
         (VStr mixed_completion_without_negative) (VFloat f_0_3) (VBool true)
       = Ok out'
    /\ map timeless out = map timeless out'
    /\ map scheme_name out = ["JBP Q1"; "Sellout"]
    /\ map extracted_at out = [0%Z; 2%Z]
    /\ map extracted_at out' = [0%Z; 1%Z].
Proof.
  edestruct (validation_error_is_dropped_alone ticks mixed_completion
               mixed_completion_without_negative (VFloat f_0_3) (VBool true)
               [("schemes",
                 VList [jbp_q1; negative_amount; sellout_support; impossible_date])]
               [("schemes", VList [jbp_q1; sellout_support; impossible_date])]
               [jbp_q1] negative_amount [sellout_support; impossible_date])
    as [(out & out' & Hout & Hout' & Hsame) Hvalid].
  { vm_compute. reflexivity. }
  { vm_compute. reflexivity. }
  { vm_compute. reflexivity. }
  { vm_compute. reflexivity. }
  { vm_compute. reflexivity. }
  destruct Hvalid as (out2 & Hout2 & _).
  { repeat constructor;
      first [left; vm_compute; reflexivity | right; vm_compute; reflexivity]. }
  exists out, out'. repeat split; try assumption.
  - revert Hout. vm_compute. now intros [= <-].
  - revert Hout. vm_compute. now intros [= <-].
  - revert Hout'. vm_compute. now intros [= <-].
Defined.


(** C7 fails as stated at a dictionary whose two start keys name
    different days *)
Lemma starting_at_can_differ_from_duration_start_date :
  exists r,
    DspyPipeline._map_to_scheme_header 0%Z (VDict two_starts) = Ok r
    /\ duration_start_date r = Some (mk_date 2024 1 1)
    /\ starting_at r = Some (mk_date 2024 2 1)
    /\ starting_at r <> duration_start_date r.
Proof.
  eexists. split; [vm_compute; reflexivity|].
  repeat split; try reflexivity. discriminate.
Qed.

(** C7, as amended, at the same dictionary, whose two end keys agree *)
Lemma date_aliases_witness :
  ending_at (the_record (DspyPipeline._map_to_scheme_header 0%Z (VDict two_starts)))
  = duration_end_date
      (the_record (DspyPipeline._map_to_scheme_header 0%Z (VDict two_starts))).
Proof.
  refine (proj2 (proj2 (date_aliases_follow_the_input 0%Z two_starts _ _)) _);
    vm_compute; reflexivity.
Defined.

(** C9 fails as stated: one dictionary mapped at the readings 1 and 2 *)
Lemma mapping_twice_can_differ :
  exists r1 r2,
    DspyPipeline._map_to_scheme_header 1%Z (VDict no_quality_keys) = Ok r1
    /\ DspyPipeline._map_to_scheme_header 2%Z (VDict no_quality_keys) = Ok r2
    /\ r1 <> r2.
Proof.
  eexists. eexists. split; [vm_compute; reflexivity|].
  split; [vm_compute; reflexivity|]. discriminate.
Qed.

(** C10 at a dictionary with [discount_value] 0, [max_discount_cap] 0.0,
    an empty [description] and the legacy keys set *)
Lemma zero_falls_back_witness :
  (exists f,
     coerce_float (VInt 50000) = Some f
     /\ discount_value
          (the_record (DspyPipeline._map_to_scheme_header 0%Z (VDict zero_values)))
        = Some f)
  /\ (exists f,
        coerce_float (VInt 50000) = Some f
        /\ max_discount_cap
             (the_record (DspyPipeline._map_to_scheme_header 0%Z (VDict zero_values)))
           = Some f)
  /\ optional validate_str (VStr "cap from the legacy key")
     = Some (remarks
               (the_record
                  (DspyPipeline._map_to_scheme_header 0%Z (VDict zero_values)))).
Proof.
  assert (H : DspyPipeline._map_to_scheme_header 0%Z (VDict zero_values)
              = Ok (the_record
                      (DspyPipeline._map_to_scheme_header 0%Z (VDict zero_values))))
    by (vm_compute; reflexivity).
  destruct (zero_falls_back_to_legacy_key 0%Z zero_values _ H) as (H1 & H2 & H3).
  split; [|split].
  - apply (H1 (VInt 50000)); [reflexivity|reflexivity|discriminate].
  - apply (H2 (VInt 50000)); [reflexivity|reflexivity|discriminate].
  - apply H3. reflexivity.
Defined.

End Concrete.

(** ** More on the mapper and the validated records *)

Section Records.
Import Py Models Spec Shape.
Context {L : Library}.

Lemma validate_float_bounds ge le v f :
  validate_float ge le v = Some f ->
  match ge with Some b => SFleb b f = true | None => True end
  /\ match le with Some b => SFleb f b = true | None => True end.
Proof.
  unfold validate_float. destruct (coerce_float v) as [g|]; [|discriminate].
  cbv zeta.
  destruct (match ge with Some b => SFleb b g | None => true end) eqn:Elo;
    [|discriminate].
  destruct (match le with Some b => SFleb g b | None => true end) eqn:Ehi;
    [|discriminate].
  intros [= <-]. split.
  - now destruct ge.
  - now destruct le.
Qed.

(** a NaN compares with nothing, so no bound admits it *)
Lemma nan_is_out_of_bounds ge le :
  ge <> None \/ le <> None -> validate_float ge le (VFloat S754_nan) = None.
Proof.
  destruct ge as [[]|], le as [[]|]; intros [H|H]; try reflexivity;
    now contradiction H.
Qed.

Lemma optional_not_negative v o :
  optional (validate_float (Some float_zero) None) v = Some o -> not_negative o.
Proof.
  unfold optional.
  destruct v; try (intros [= <-]; exact I);
    (destruct (validate_float _ _ _) as [g|] eqn:E; [|discriminate];
     intros [= <-]; now apply validate_float_bounds in E as [E _]).
Qed.

Lemma optional_enum_member members v o :
  optional (validate_enum members) v = Some o ->
  match o with Some s => In s members | None => True end.
Proof.
  unfold optional.
  destruct v; try (intros [= <-]; exact I);
    (destruct (validate_enum _ _) as [g|] eqn:E; [|discriminate];
     intros [= <-]; now apply validate_enum_In in E).
Qed.

Lemma pipeline_map_well_formed now x r :
  DspyPipeline._map_to_scheme_header now x = Ok r -> well_formed r.
Proof.
  intros H. destruct (pipeline_map_dict _ _ _ H) as [d ->].
  apply pipeline_map_inv in H as (dt & _ & H).
  destruct H as (H1 & H2 & _ & _ & _ & _ & _ & _ & H9 & H10 & H11 & H12 & _ & _ & _
                 & H16 & _ & H18 & _).
  apply validate_float_bounds in H16 as [Hlo Hhi].
  repeat split;
    eauto using validate_enum_In, optional_not_negative.
  now apply optional_enum_member in H9.
Qed.

Lemma loop_body_Ok dc de now x r :
  DspyPipeline.loop_body dc de now x = Ok r ->
  exists d,
    x = VDict d
    /\ DspyPipeline._map_to_scheme_header now (VDict (with_defaults d dc de)) = Ok r.
Proof.
  unfold DspyPipeline.loop_body. intros H.
  destruct x as [| | | |s|l|d].
  1-4: discriminate H.
  - exfalso. revert H. unfold DspyPipeline.apply_defaults. cbn [contains bind].
    destruct (negb (substring_of "confidence" s)); cbn [setitem bind];
      [discriminate|].
    cbn [contains bind].
    destruct (negb (substring_of "needs_escalation" s)); cbn [setitem bind];
      discriminate.
  - exfalso. revert H. unfold DspyPipeline.apply_defaults. cbn [contains bind].
    destruct (negb (existsb _ l)); cbn [setitem bind]; [discriminate|].
    cbn [contains bind].
    destruct (negb (existsb _ l)); cbn [setitem bind]; discriminate.
  - rewrite apply_defaults_dict in H. exists d. now split.
Qed.

Lemma loop_body_well_formed dc de now x r :
  DspyPipeline.loop_body dc de now x = Ok r -> well_formed r.
Proof.
  intros H. apply loop_body_Ok in H as (d & _ & H).
  eapply pipeline_map_well_formed, H.
Qed.

(** what a record of [SchemeExtractor]'s mapper says about the dictionary *)
Lemma modules_map_fields now d r :
  DspyModules._map_to_scheme_header now (VDict d) = Ok r ->
  exists dt,
    modules_discount (dict_get d "discount_type") = Ok dt /\
    validate_enum SchemeType (dict_get_default d "scheme_type" (VStr "OTHER"))
      = Some (scheme_type r) /\
    validate_enum SchemeSubType (dict_get_default d "scheme_sub_type" (VStr "OTHER"))
      = Some (scheme_sub_type r) /\
    validate_str (dict_get_default d "scheme_name" (VStr "")) = Some (scheme_name r) /\
    optional (validate_enum DiscountType) dt = Some (discount_type r) /\
    optional (validate_float (Some float_zero) None) (dict_get d "global_cap_amount")
      = Some (discount_value r) /\
    min_order_value r = None /\
    optional (validate_float (Some float_zero) None) (dict_get d "global_cap_amount")
      = Some (max_discount_cap r) /\
    vendor_name r = None /\
    category r = None /\
    optional validate_str (dict_get d "description") = Some (remarks r) /\
    validate_float (Some float_zero) (Some float_one)
      (dict_get_default d "confidence" (VFloat float_half)) = Some (confidence r) /\
    validate_bool (dict_get_default d "needs_escalation" (VBool false))
      = Some (needs_escalation r) /\
    source_file r = None.
Proof.
  unfold DspyModules._map_to_scheme_header, get, bind, modules_discount,
    dict_get, dict_get_default.
  intros H.
  match type of H with
  | match ?x with _ => _ end = _ => destruct x as [dt|e] eqn:Edt; [|discriminate H]
  end.
  exists dt. split; [reflexivity|].
  unfold SchemeHeader_init, SchemeHeader_fields, required, defaulted in H.
  cbn [dict_lookup String.eqb Ascii.eqb Bool.eqb] in H.
  match type of H with
  | match ?x with _ => _ end = _ => destruct x as [r'|] eqn:F; [|discriminate H]
  end.
  injection H as <-.
  repeat split_match F.
  injection F as <-. cbn.
  repeat match goal with
         | H : optional _ VNone = Some _ |- _ => cbn in H; injection H as <-
         end.
  repeat split; try reflexivity; assumption.
Qed.

Lemma modules_map_well_formed now x r :
  DspyModules._map_to_scheme_header now x = Ok r -> well_formed r.
Proof.
  intros H. destruct (modules_map_dict _ _ _ H) as [d ->].
  apply modules_map_fields in H as (dt & _ & H).
  destruct H as (H1 & H2 & _ & H9 & H10 & H11 & H12 & _ & _ & _ & H16 & _ & H18).
  apply validate_float_bounds in H16 as [Hlo Hhi].
  repeat split;
    eauto using validate_enum_In, optional_not_negative.
  - now apply optional_enum_member in H9.
  - now rewrite H11.
Qed.

(** the numbers of a well-formed record are numbers *)
Lemma well_formed_numbers r :
  well_formed r ->
  confidence r <> S754_nan
  /\ discount_value r <> Some S754_nan
  /\ min_order_value r <> Some S754_nan
  /\ max_discount_cap r <> Some S754_nan.
Proof.
  intros (_ & _ & _ & Hv & Hm & Hc & Hlo & _).
  repeat split; intros E; rewrite E in *; discriminate.
Qed.

(** X1: every record either parser returns obeys the constraints of the
    schema, whatever the completion: its [scheme_type], [scheme_sub_type]
    and [discount_type] (when present) are values of their enumerations,
    every amount that is set is at least zero, [confidence] is at least 0
    and at most 1 (so none of them is a NaN, which [json.loads] can
    produce), and [source_file] is left unset. *)
Theorem emitted_records_are_well_formed (clock : nat -> datetime)
    (response default_confidence default_escalation : value) :
  match
    DspyPipeline._parse_schemes_json clock response default_confidence
      default_escalation
  with
  | Ok out => Forall well_formed out
  | Raise _ => False
  end
  /\ match DspyModules._parse_response clock response with
     | Ok out => Forall well_formed out
     | Raise _ => False
     end.
Proof.
  split.
  - apply parse_with_Forall. apply loop_body_well_formed.
  - apply parse_with_Forall. apply modules_map_well_formed.
Qed.

Lemma lookup_with_defaults_other d dc de k :
  k <> "confidence" -> k <> "needs_escalation" ->
  dict_lookup (with_defaults d dc de) k = dict_lookup d k.
Proof.
  intros H1 H2. unfold with_defaults. cbv zeta.
  assert (E : forall d', dict_lookup
                (if dict_contains d' "needs_escalation" then d'
                 else dict_setitem d' "needs_escalation" de) k
              = dict_lookup d' k).
  { intros d'. destruct (dict_contains d' "needs_escalation"); [reflexivity|].
    apply dict_lookup_setitem_ne. congruence. }
  rewrite E. destruct (dict_contains d "confidence"); [reflexivity|].
  apply dict_lookup_setitem_ne. congruence.
Qed.

(** the value the mapper reads under a key that the dictionary holds *)
Lemma get_default_present d k v dflt :
  dict_lookup d k = Some v -> dict_get_default d k dflt = v.
Proof. unfold dict_get_default. now intros ->. Qed.

(** a confidence that is a NaN fails the validation in both mappers, and
    so does a NaN under [global_cap_amount] in the mapper of
    [SchemeExtractor] *)
Lemma nan_record_is_rejected now d :
  (dict_lookup d "confidence" = Some (VFloat S754_nan) ->
   is_ok (DspyPipeline._map_to_scheme_header now (VDict d)) = false
   /\ is_ok (DspyModules._map_to_scheme_header now (VDict d)) = false)
  /\ (dict_lookup d "global_cap_amount" = Some (VFloat S754_nan) ->
      is_ok (DspyModules._map_to_scheme_header now (VDict d)) = false).
Proof.
  split; [intros H; split|intros H].
  - destruct (DspyPipeline._map_to_scheme_header now (VDict d)) as [r|e] eqn:E;
      [|reflexivity].
    exfalso. apply pipeline_map_inv in E as (dt & _ & F).
    destruct F as (_ & _ & _ & _ & _ & _ & _ & _ & _ & _ & _ & _ & _ & _ & _ & Hc & _).
    rewrite (get_default_present _ _ _ _ H) in Hc. discriminate.
  - destruct (DspyModules._map_to_scheme_header now (VDict d)) as [r|e] eqn:E;
      [|reflexivity].
    exfalso. apply modules_map_fields in E as (dt & _ & F).
    destruct F as (_ & _ & _ & _ & _ & _ & _ & _ & _ & _ & Hc & _).
    rewrite (get_default_present _ _ _ _ H) in Hc. discriminate.
  - destruct (DspyModules._map_to_scheme_header now (VDict d)) as [r|e] eqn:E;
      [|reflexivity].
    exfalso. apply modules_map_fields in E as (dt & _ & F).
    destruct F as (_ & _ & _ & _ & Hv & _).
    unfold dict_get in Hv. rewrite H in Hv. discriminate.
Qed.

Lemma pipeline_map_rejects_null now d k :
  In k strict_keys -> dict_lookup d k = Some VNone ->
  is_ok (DspyPipeline._map_to_scheme_header now (VDict d)) = false.
Proof.
  intros Hk Hnull.
  destruct (DspyPipeline._map_to_scheme_header now (VDict d)) as [r|e] eqn:E;
    [|reflexivity].
  exfalso. apply pipeline_map_inv in E as (dt & _ & H).
  destruct H as (H1 & H2 & H3 & _ & _ & _ & _ & _ & _ & _ & _ & _ & _ & _ & _ & H16 & _).
  simpl in Hk.
  destruct Hk as [<-|[<-|[<-|[<-|[]]]]];
    [rewrite (get_default_present _ _ _ _ Hnull) in H1
    |rewrite (get_default_present _ _ _ _ Hnull) in H2
    |rewrite (get_default_present _ _ _ _ Hnull) in H3
    |rewrite (get_default_present _ _ _ _ Hnull) in H16]; discriminate.
Qed.

Lemma modules_map_rejects_null now d k :
  In k strict_keys -> dict_lookup d k = Some VNone ->
  is_ok (DspyModules._map_to_scheme_header now (VDict d)) = false.
Proof.
  intros Hk Hnull.
  destruct (DspyModules._map_to_scheme_header now (VDict d)) as [r|e] eqn:E;
    [|reflexivity].
  exfalso. apply modules_map_fields in E as (dt & _ & H).
  destruct H as (H1 & H2 & H3 & _ & _ & _ & _ & _ & _ & _ & H16 & _).
  simpl in Hk.
  destruct Hk as [<-|[<-|[<-|[<-|[]]]]];
    [rewrite (get_default_present _ _ _ _ Hnull) in H1
    |rewrite (get_default_present _ _ _ _ Hnull) in H2
    |rewrite (get_default_present _ _ _ _ Hnull) in H3
    |rewrite (get_default_present _ _ _ _ Hnull) in H16]; discriminate.
Qed.

Lemma lookup_with_defaults_present d dc de k v :
  dict_lookup d k = Some v -> dict_lookup (with_defaults d dc de) k = Some v.
Proof.
  intros H. destruct (lookup_after_defaults d dc de) as [L1 L2].
  destruct (String.eqb_spec k "confidence") as [->|N1].
  { now rewrite L1, H. }
  destruct (String.eqb_spec k "needs_escalation") as [->|N2].
  { now rewrite L2, H. }
  now rewrite lookup_with_defaults_other.
Qed.

(** X2: a key given with the value null is not treated as absent.  When
    [scheme_type], [scheme_sub_type], [scheme_name] or [confidence] is
    present and null, neither mapper returns a record, and the loop of
    [_parse_schemes_json] does not fill [confidence] in either: the
    defaults only reach absent keys. *)
Theorem explicit_null_is_rejected (now : datetime) (d : dict) (k : string)
    (default_confidence default_escalation : value) :
  In k strict_keys ->
  dict_lookup d k = Some VNone ->
  is_ok (DspyPipeline._map_to_scheme_header now (VDict d)) = false
  /\ is_ok (DspyModules._map_to_scheme_header now (VDict d)) = false
  /\ is_ok (DspyPipeline.loop_body default_confidence default_escalation now (VDict d))
     = false.
Proof.
  intros Hk Hnull. split; [|split].
  - eapply pipeline_map_rejects_null; eassumption.
  - eapply modules_map_rejects_null; eassumption.
  - unfold DspyPipeline.loop_body. rewrite apply_defaults_dict. cbn [bind].
    eapply pipeline_map_rejects_null; [eassumption|].
    now apply lookup_with_defaults_present.
Qed.

Lemma validate_enum_outside members s :
  ~ In s members -> validate_enum members (VStr s) = None.
Proof.
  intros Hn. simpl. destruct (existsb (String.eqb s) members) eqn:E; [|reflexivity].
  exfalso. apply Hn. apply existsb_exists in E as (x & Hin & Heq).
  apply String.eqb_eq in Heq. now subst.
Qed.

(** X3: a [scheme_type] or [scheme_sub_type] given as a text that is not
    exactly a value of the enumeration (another casing, say) is not turned
    into OTHER: neither mapper returns a record for the dictionary. *)
Theorem unlisted_enum_text_is_rejected (now : datetime) (d : dict) (s : string)
    (default_confidence default_escalation : value) :
  (dict_lookup d "scheme_type" = Some (VStr s) /\ ~ In s SchemeType)
  \/ (dict_lookup d "scheme_sub_type" = Some (VStr s) /\ ~ In s SchemeSubType) ->
  is_ok (DspyPipeline._map_to_scheme_header now (VDict d)) = false
  /\ is_ok (DspyModules._map_to_scheme_header now (VDict d)) = false
  /\ is_ok (DspyPipeline.loop_body default_confidence default_escalation now (VDict d))
     = false.
Proof.
  intros H.
  assert (P : forall d', (dict_lookup d' "scheme_type" = Some (VStr s) /\ ~ In s SchemeType)
                \/ (dict_lookup d' "scheme_sub_type" = Some (VStr s)
                    /\ ~ In s SchemeSubType) ->
              is_ok (DspyPipeline._map_to_scheme_header now (VDict d')) = false).
  { intros d' H'.
    destruct (DspyPipeline._map_to_scheme_header now (VDict d')) as [r|e] eqn:E;
      [|reflexivity].
    exfalso. apply pipeline_map_inv in E as (dt & _ & H1 & H2 & _).
    destruct H' as [[Hl Hn]|[Hl Hn]].
    - rewrite (get_default_present _ _ _ _ Hl), (validate_enum_outside _ _ Hn) in H1.
      discriminate.
    - rewrite (get_default_present _ _ _ _ Hl), (validate_enum_outside _ _ Hn) in H2.
      discriminate. }
  split; [now apply P|]. split.
  - destruct (DspyModules._map_to_scheme_header now (VDict d)) as [r|e] eqn:E;
      [|reflexivity].
    exfalso. apply modules_map_fields in E as (dt & _ & H1 & H2 & _).
    destruct H as [[Hl Hn]|[Hl Hn]].
    + rewrite (get_default_present _ _ _ _ Hl), (validate_enum_outside _ _ Hn) in H1.
      discriminate.
    + rewrite (get_default_present _ _ _ _ Hl), (validate_enum_outside _ _ Hn) in H2.
      discriminate.
  - unfold DspyPipeline.loop_body. rewrite apply_defaults_dict. cbn [bind].
    apply P.
    destruct H as [[Hl Hn]|[Hl Hn]]; [left|right];
      (split; [now apply lookup_with_defaults_present|assumption]).
Qed.

Lemma get_default_absent d k dflt :
  dict_lookup d k = None -> dict_get_default d k dflt = dflt.
Proof. unfold dict_get_default. now intros ->. Qed.

Lemma get_absent d k : absent d k -> dict_get d k = VNone.
Proof. unfold absent, dict_get. now intros ->. Qed.

(** the five dates of a record of [SchemeExtractor]'s mapper *)
Lemma modules_map_dates now d r :
  DspyModules._map_to_scheme_header now (VDict d) = Ok r ->
  optional validate_date (dict_get d "duration_start_date")
    = Some (duration_start_date r) /\
  optional validate_date (dict_get d "duration_end_date")
    = Some (duration_end_date r) /\
  optional validate_date (dict_get d "starting_at") = Some (starting_at r) /\
  optional validate_date (dict_get d "ending_at") = Some (ending_at r) /\
  optional validate_date (dict_get d "price_drop_date") = Some (price_drop_date r).
Proof.
  unfold DspyModules._map_to_scheme_header, get, bind, modules_discount,
    dict_get, dict_get_default.
  intros H.
  match type of H with
  | match ?x with _ => _ end = _ => destruct x as [dt|e] eqn:Edt; [|discriminate H]
  end.
  unfold SchemeHeader_init, SchemeHeader_fields, required, defaulted in H.
  cbn [dict_lookup String.eqb Ascii.eqb Bool.eqb] in H.
  match type of H with
  | match ?x with _ => _ end = _ => destruct x as [r'|] eqn:F; [|discriminate H]
  end.
  injection H as <-.
  repeat split_match F.
  injection F as <-. cbn.
  repeat split; reflexivity.
Qed.

(** the fields both mappers read in the same way, under absent keys *)
Lemma shared_fields_default d dt (r : SchemeHeader) :
  (absent d "discount_type" -> dt = VNone) ->
  validate_enum SchemeType (dict_get_default d "scheme_type" (VStr "OTHER"))
    = Some (scheme_type r) ->
  validate_enum SchemeSubType (dict_get_default d "scheme_sub_type" (VStr "OTHER"))
    = Some (scheme_sub_type r) ->
  validate_str (dict_get_default d "scheme_name" (VStr "")) = Some (scheme_name r) ->
  optional validate_date (dict_get d "duration_start_date")
    = Some (duration_start_date r) ->
  optional validate_date (dict_get d "duration_end_date")
    = Some (duration_end_date r) ->
  optional validate_date (dict_get d "starting_at") = Some (starting_at r) ->
  optional validate_date (dict_get d "ending_at") = Some (ending_at r) ->
  optional validate_date (dict_get d "price_drop_date") = Some (price_drop_date r) ->
  optional (validate_enum DiscountType) dt = Some (discount_type r) ->
  validate_float (Some float_zero) (Some float_one)
    (dict_get_default d "confidence" (VFloat float_half)) = Some (confidence r) ->
  validate_bool (dict_get_default d "needs_escalation" (VBool false))
    = Some (needs_escalation r) ->
  (absent d "scheme_type" -> scheme_type r = "OTHER")
  /\ (absent d "scheme_sub_type" -> scheme_sub_type r = "OTHER")
  /\ (absent d "scheme_name" -> scheme_name r = "")
  /\ (absent d "duration_start_date" -> duration_start_date r = None)
  /\ (absent d "duration_end_date" -> duration_end_date r = None)
  /\ (absent d "starting_at" -> starting_at r = None)
  /\ (absent d "ending_at" -> ending_at r = None)
  /\ (absent d "price_drop_date" -> price_drop_date r = None)
  /\ (absent d "discount_type" -> discount_type r = None)
  /\ (absent d "confidence" -> confidence r = float_half)
  /\ (absent d "needs_escalation" -> needs_escalation r = false).
Proof.
  intros Hdt H1 H2 H3 H4 H5 H6 H7 H8 H9 H16 H17.
  repeat split; intros Hn.
  - rewrite (get_default_absent _ _ _ Hn) in H1. simpl in H1. congruence.
  - rewrite (get_default_absent _ _ _ Hn) in H2. simpl in H2. congruence.
  - rewrite (get_default_absent _ _ _ Hn) in H3. simpl in H3. congruence.
  - rewrite (get_absent _ _ Hn) in H4. simpl in H4. congruence.
  - rewrite (get_absent _ _ Hn) in H5. simpl in H5. congruence.
  - rewrite (get_absent _ _ Hn) in H6. simpl in H6. congruence.
  - rewrite (get_absent _ _ Hn) in H7. simpl in H7. congruence.
  - rewrite (get_absent _ _ Hn) in H8. simpl in H8. congruence.
  - rewrite (Hdt Hn) in H9. simpl in H9. congruence.
  - rewrite (get_default_absent _ _ _ Hn) in H16.
    now apply validate_float_VFloat in H16.
  - rewrite (get_default_absent _ _ _ Hn) in H17. simpl in H17. congruence.
Qed.

(** X4: the mappers never raise on missing keys.  A dictionary with none
    of the keys the mapper reads gives the record of defaults (OTHER,
    OTHER, the empty name, confidence 0.5, no escalation, everything else
    unset).  In any record of either mapper, [scheme_type],
    [scheme_sub_type], [scheme_name], the five dates, [discount_type],
    [confidence] and [needs_escalation] hold their default when their key
    is absent.  The other fields differ between the mappers.  In the
    chain-of-thought mapper [min_order_value], [vendor_name] and [category]
    are unset when their key is absent, but an absent [discount_value] or
    [max_discount_cap] is read from [global_cap_amount] and an absent
    [description] from [remarks], so these three are unset only when the
    fallback key is absent too.  In the mapper of [SchemeExtractor] both
    amounts are unset when [global_cap_amount] is absent, [remarks] when
    [description] is, and the other three always. *)
Theorem absent_keys_take_defaults (now : datetime) (d : dict) :
  ((forall k, In k mapper_keys -> absent d k) ->
   DspyPipeline._map_to_scheme_header now (VDict d) = Ok (default_record now)
   /\ DspyModules._map_to_scheme_header now (VDict d) = Ok (default_record now))
  /\ (forall r,
        DspyPipeline._map_to_scheme_header now (VDict d) = Ok r
        \/ DspyModules._map_to_scheme_header now (VDict d) = Ok r ->
        (absent d "scheme_type" -> scheme_type r = "OTHER")
        /\ (absent d "scheme_sub_type" -> scheme_sub_type r = "OTHER")
        /\ (absent d "scheme_name" -> scheme_name r = "")
        /\ (absent d "duration_start_date" -> duration_start_date r = None)
        /\ (absent d "duration_end_date" -> duration_end_date r = None)
        /\ (absent d "starting_at" -> starting_at r = None)
        /\ (absent d "ending_at" -> ending_at r = None)
        /\ (absent d "price_drop_date" -> price_drop_date r = None)
        /\ (absent d "discount_type" -> discount_type r = None)
        /\ (absent d "confidence" -> confidence r = float_half)
        /\ (absent d "needs_escalation" -> needs_escalation r = false))
  /\ (forall r,
        DspyPipeline._map_to_scheme_header now (VDict d) = Ok r ->
        (absent d "min_order_value" -> min_order_value r = None)
        /\ (absent d "vendor_name" -> vendor_name r = None)
        /\ (absent d "category" -> category r = None)
        /\ (absent d "discount_value" ->
            optional (validate_float (Some float_zero) None)
              (dict_get d "global_cap_amount") = Some (discount_value r)
            /\ (absent d "global_cap_amount" -> discount_value r = None))
        /\ (absent d "max_discount_cap" ->
            optional (validate_float (Some float_zero) None)
              (dict_get d "global_cap_amount") = Some (max_discount_cap r)
            /\ (absent d "global_cap_amount" -> max_discount_cap r = None))
        /\ (absent d "description" ->
            optional validate_str (dict_get d "remarks") = Some (remarks r)
            /\ (absent d "remarks" -> remarks r = None)))
  /\ (forall r,
        DspyModules._map_to_scheme_header now (VDict d) = Ok r ->
        min_order_value r = None
        /\ vendor_name r = None
        /\ category r = None
        /\ (absent d "global_cap_amount" ->
            discount_value r = None /\ max_discount_cap r = None)
        /\ (absent d "description" -> remarks r = None)).
Proof.
  split; [|split; [|split]].
  - intros Hnone.
    assert (G : forall k dflt, In k mapper_keys -> dict_get_default d k dflt = dflt).
    { intros k dflt Hk. apply get_default_absent. now apply Hnone. }
    unfold DspyPipeline._map_to_scheme_header, DspyModules._map_to_scheme_header, get.
    rewrite !G by (simpl; tauto). split; reflexivity.
  - intros r [Hr|Hr].
    + apply pipeline_map_inv in Hr as (dt & Hdt & H).
      destruct H as (H1 & H2 & H3 & H4 & H5 & H6 & H7 & H8 & H9 & _ & _ & _ & _ & _ & _
                     & H16 & H17 & _).
      apply (shared_fields_default d dt r); try assumption.
      intros Hn. rewrite (get_absent _ _ Hn) in Hdt. now injection Hdt.
    + destruct (modules_map_dates _ _ _ Hr) as (H4 & H5 & H6 & H7 & H8).
      apply modules_map_fields in Hr as (dt & Hdt & H).
      destruct H as (H1 & H2 & H3 & H9 & _ & _ & _ & _ & _ & _ & H16 & H17 & _).
      apply (shared_fields_default d dt r); try assumption.
      intros Hn. rewrite (get_absent _ _ Hn) in Hdt. now injection Hdt.
  - intros r Hr. apply pipeline_map_inv in Hr as (dt & _ & H).
    destruct H as (_ & _ & _ & _ & _ & _ & _ & _ & _ & H10 & H11 & H12 & H13 & H14 & H15
                   & _).
    repeat split.
    + intros Hn. rewrite (get_absent _ _ Hn) in H11. simpl in H11. congruence.
    + intros Hn. rewrite (get_absent _ _ Hn) in H13. simpl in H13. congruence.
    + intros Hn. rewrite (get_absent _ _ Hn) in H14. simpl in H14. congruence.
    + rewrite (get_absent _ _ H) in H10. exact H10.
    + intros Hn. rewrite (get_absent _ _ H), (get_absent _ _ Hn) in H10.
      simpl in H10. congruence.
    + rewrite (get_absent _ _ H) in H12. exact H12.
    + intros Hn. rewrite (get_absent _ _ H), (get_absent _ _ Hn) in H12.
      simpl in H12. congruence.
    + rewrite (get_absent _ _ H) in H15. exact H15.
    + intros Hn. rewrite (get_absent _ _ H), (get_absent _ _ Hn) in H15.
      simpl in H15. congruence.
  - intros r Hr. apply modules_map_fields in Hr as (dt & _ & H).
    destruct H as (_ & _ & _ & _ & Hv & Hm & Hc & Hn & Hg & Hr & _).
    repeat split; try assumption.
    + rewrite (get_absent _ _ H) in Hv. simpl in Hv. congruence.
    + rewrite (get_absent _ _ H) in Hc. simpl in Hc. congruence.
    + intros Ha. rewrite (get_absent _ _ Ha) in Hr. simpl in Hr. congruence.
Qed.

(** X5: the mapper of [SchemeExtractor] reads neither [discount_value] nor
    [max_discount_cap], [min_order_value], [vendor_name], [category] or
    [remarks]: both amounts of the record are the validated
    [global_cap_amount], [remarks] is the validated [description], and the
    other three fields are unset. *)
Theorem single_call_mapper_reads_the_legacy_keys (now : datetime) (d : dict)
    (r : SchemeHeader) :
  DspyModules._map_to_scheme_header now (VDict d) = Ok r ->
  optional (validate_float (Some float_zero) None) (dict_get d "global_cap_amount")
  = Some (discount_value r)
  /\ max_discount_cap r = discount_value r
  /\ optional validate_str (dict_get d "description") = Some (remarks r)
  /\ min_order_value r = None
  /\ vendor_name r = None
  /\ category r = None.
Proof.
  intros H. apply modules_map_fields in H as (dt & _ & H).
  destruct H as (_ & _ & _ & _ & Hv & Hm & Hc & Hn & Hg & Hr & _).
  repeat split; try assumption. congruence.
Qed.

End Records.

(** ** Elements on which the loop of the parser stops *)

Section Aborting.
Import Py Models Spec Shape.
Context {L : Library}.

Lemma unhashable_discount_type (table : list (string * string)) v :
  match v with VList (_ :: _) | VDict (_ :: _) => true | _ => false end = true ->
  (if truthy v then DspyModules.table_get table v "OTHER" else Ok v)
  = Raise TypeError.
Proof.
  destruct v as [| | | | |[|x l]|[|kv d]]; try discriminate; reflexivity.
Qed.

Lemma hashable_discount_type (table : list (string * string)) v :
  match v with VList (_ :: _) | VDict (_ :: _) => true | _ => false end = false ->
  exists dt, (if truthy v then DspyModules.table_get table v "OTHER" else Ok v) = Ok dt.
Proof.
  destruct v as [| | | | |[|x l]|[|kv d]]; try discriminate; intros _;
    cbn [truthy];
    try (now eexists);
    match goal with
    | |- context [if ?b then _ else _] => destruct b; now eexists
    end.
Qed.

Lemma pipeline_map_aborts now x :
  aborts x = true ->
  exists e, DspyPipeline._map_to_scheme_header now x = Raise e /\ e <> ValidationError.
Proof.
  destruct x as [| | | |s|l|d]; intros H;
    try (exists AttributeError; split; [reflexivity|discriminate]).
  exists TypeError. split; [|discriminate].
  unfold DspyPipeline._map_to_scheme_header. cbn [get bind].
  change (dict_get_default d "discount_type" VNone) with (dict_get d "discount_type").
  simpl in H. now rewrite (unhashable_discount_type _ _ H).
Qed.

Lemma modules_map_aborts now x :
  aborts x = true ->
  exists e, DspyModules._map_to_scheme_header now x = Raise e /\ e <> ValidationError.
Proof.
  destruct x as [| | | |s|l|d]; intros H;
    try (exists AttributeError; split; [reflexivity|discriminate]).
  exists TypeError. split; [|discriminate].
  unfold DspyModules._map_to_scheme_header. cbn [get bind].
  change (dict_get_default d "discount_type" VNone) with (dict_get d "discount_type").
  simpl in H. now rewrite (unhashable_discount_type _ _ H).
Qed.

Lemma aborts_with_defaults d dc de :
  aborts (VDict (with_defaults d dc de)) = aborts (VDict d).
Proof.
  unfold aborts, dict_get. now rewrite lookup_with_defaults_other by discriminate.
Qed.

Lemma loop_body_aborts dc de now x :
  aborts x = true ->
  exists e, DspyPipeline.loop_body dc de now x = Raise e /\ e <> ValidationError.
Proof.
  intros H. unfold DspyPipeline.loop_body.
  destruct x as [| | | |s|l|d].
  1-4: exists TypeError; split; [reflexivity|discriminate].
  - unfold DspyPipeline.apply_defaults. cbn [contains bind].
    destruct (negb (substring_of "confidence" s)); cbn [setitem bind];
      [exists TypeError; split; [reflexivity|discriminate]|].
    cbn [contains bind].
    destruct (negb (substring_of "needs_escalation" s)); cbn [setitem bind];
      [exists TypeError|exists AttributeError]; (split; [reflexivity|discriminate]).
  - unfold DspyPipeline.apply_defaults. cbn [contains bind].
    destruct (negb (existsb _ l)); cbn [setitem bind];
      [exists TypeError; split; [reflexivity|discriminate]|].
    cbn [contains bind].
    destruct (negb (existsb _ l)); cbn [setitem bind];
      [exists TypeError|exists AttributeError]; (split; [reflexivity|discriminate]).
  - rewrite apply_defaults_dict. cbn [bind].
    apply pipeline_map_aborts. now rewrite aborts_with_defaults.
Qed.

Lemma pipeline_map_settles now d :
  aborts (VDict d) = false ->
  is_ok (DspyPipeline._map_to_scheme_header now (VDict d)) = true
  \/ DspyPipeline._map_to_scheme_header now (VDict d) = Raise ValidationError.
Proof.
  intros H. unfold DspyPipeline._map_to_scheme_header. cbn [get bind].
  change (dict_get_default d "discount_type" VNone) with (dict_get d "discount_type").
  simpl in H.
  destruct (hashable_discount_type DspyPipeline.discount_type_map _ H) as [dt ->].
  cbn [bind]. unfold SchemeHeader_init.
  match goal with
  | |- context [SchemeHeader_fields ?t ?kw] => destruct (SchemeHeader_fields t kw)
  end; [now left|now right].
Qed.

Lemma modules_map_settles now x :
  aborts x = false ->
  is_ok (DspyModules._map_to_scheme_header now x) = true
  \/ DspyModules._map_to_scheme_header now x = Raise ValidationError.
Proof.
  destruct x as [| | | |s|l|d]; try discriminate.
  intros H. unfold DspyModules._map_to_scheme_header. cbn [get bind].
  change (dict_get_default d "discount_type" VNone) with (dict_get d "discount_type").
  simpl in H.
  destruct (hashable_discount_type DspyModules.discount_type_map _ H) as [dt ->].
  cbn [bind]. unfold SchemeHeader_init.
  match goal with
  | |- context [SchemeHeader_fields ?t ?kw] => destruct (SchemeHeader_fields t kw)
  end; [now left|now right].
Qed.

Lemma loop_body_settles dc de now x :
  aborts x = false ->
  is_ok (DspyPipeline.loop_body dc de now x) = true
  \/ DspyPipeline.loop_body dc de now x = Raise ValidationError.
Proof.
  destruct x as [| | | |s|l|d]; try discriminate.
  intros H. unfold DspyPipeline.loop_body. rewrite apply_defaults_dict. cbn [bind].
  apply pipeline_map_settles. now rewrite aborts_with_defaults.
Qed.

Section Loop.
Variable body : datetime -> value -> result SchemeHeader.
Hypothesis body_aborts :
  forall now x, aborts x = true -> exists e, body now x = Raise e /\ e <> ValidationError.

Lemma collect_aborts clock : forall items n acc,
  existsb aborts items = true ->
  exists e, DspyModules.collect body clock n items acc = Raise e.
Proof.
  induction items as [|x items IH]; intros n acc H; [discriminate|].
  simpl in H. simpl.
  destruct (aborts x) eqn:Ex.
  - destruct (body_aborts (clock n) x Ex) as (e & -> & Hne).
    exists e. now destruct e.
  - simpl in H. destruct (body (clock n) x) as [r|e].
    + now apply IH.
    + destruct e; try (now eexists). now apply IH.
Qed.

Lemma collect_of_aborting clock items :
  forallb aborts items = true ->
  match DspyModules.collect body clock 0 items [] with
  | Ok out => out = []
  | Raise _ => True
  end.
Proof.
  destruct items as [|x items]; [reflexivity|].
  intros H. simpl in H. apply andb_true_iff in H as [Hx _].
  destruct (collect_aborts clock (x :: items) 0 []) as [e ->]; [|exact I].
  simpl. now rewrite Hx.
Qed.

Lemma parse_with_aborts clock text d items :
  json_loads (DspyModules.clean text) = Some (VDict d) ->
  dict_lookup d "schemes" = Some (VList items) ->
  existsb aborts items = true ->
  DspyModules.parse_with body clock (VStr text) = Ok [].
Proof.
  intros Hj Hs Hab. rewrite (parse_with_schemes body clock text d items Hj Hs).
  now destruct (collect_aborts clock items 0 [] Hab) as [e ->].
Qed.

Lemma forallb_aborts_chars s : forallb aborts (chars s) = true.
Proof. induction s as [|c s IH]; [reflexivity|exact IH]. Qed.

Lemma forallb_aborts_keys (d : dict) :
  forallb aborts (map (fun kv => VStr (fst kv)) d) = true.
Proof. induction d as [|kv d IH]; [reflexivity|exact IH]. Qed.

Lemma parse_with_not_a_list clock text d v :
  json_loads (DspyModules.clean text) = Some (VDict d) ->
  dict_lookup d "schemes" = Some v ->
  match v with VList _ => false | _ => true end = true ->
  DspyModules.parse_with body clock (VStr text) = Ok [].
Proof.
  intros Hj Hs Hv. unfold DspyModules.parse_with, DspyModules.loads.
  cbn [DspyModules.as_str bind]. rewrite Hj.
  cbn [bind contains]. unfold dict_contains. rewrite Hs.
  cbn [negb getitem]. rewrite Hs. cbn [bind].
  destruct v as [| | | |s|l|d']; try discriminate; try reflexivity; cbn [iter bind].
  - pose proof (collect_of_aborting clock (chars s) (forallb_aborts_chars s)) as H.
    destruct (DspyModules.collect body clock 0 (chars s) []) as [out|e];
      [now subst|now destruct e].
  - pose proof (collect_of_aborting clock _ (forallb_aborts_keys d')) as H.
    destruct (DspyModules.collect body clock 0 _ []) as [out|e];
      [now subst|now destruct e].
Qed.

End Loop.

(** X6: one element on which the body of the loop raises anything but a
    [ValidationError] costs the whole response.  When [schemes] holds an
    element that is not a dictionary, or a dictionary whose [discount_type]
    is a non-empty list or dictionary, both parsers return the empty list,
    whatever the other elements are. *)
Theorem aborting_element_empties_the_response (clock : nat -> datetime)
    (text : string) (d : dict) (items : list value)
    (default_confidence default_escalation : value) :
  json_loads (DspyModules.clean text) = Some (VDict d) ->
  dict_lookup d "schemes" = Some (VList items) ->
  existsb aborts items = true ->
  DspyPipeline._parse_schemes_json clock (VStr text) default_confidence
    default_escalation = Ok []
  /\ DspyModules._parse_response clock (VStr text) = Ok [].
Proof.
  intros Hj Hs Hab. split.
  - apply (parse_with_aborts _ (loop_body_aborts _ _) clock text d items Hj Hs Hab).
  - apply (parse_with_aborts _ modules_map_aborts clock text d items Hj Hs Hab).
Qed.

Lemma unhashable_raises_TypeError dc de now d :
  match dict_get d "discount_type" with
  | VList (_ :: _) | VDict (_ :: _) => true
  | _ => false
  end = true ->
  DspyPipeline.loop_body dc de now (VDict d) = Raise TypeError
  /\ DspyModules._map_to_scheme_header now (VDict d) = Raise TypeError.
Proof.
  intros H. split.
  - unfold DspyPipeline.loop_body. rewrite apply_defaults_dict. cbn [bind].
    unfold DspyPipeline._map_to_scheme_header. cbn [get bind].
    change (dict_get_default (with_defaults d dc de) "discount_type" VNone)
      with (dict_get (with_defaults d dc de) "discount_type").
    unfold dict_get in *. rewrite lookup_with_defaults_other by discriminate.
    now rewrite (unhashable_discount_type _ _ H).
  - unfold DspyModules._map_to_scheme_header. cbn [get bind].
    change (dict_get_default d "discount_type" VNone) with (dict_get d "discount_type").
    now rewrite (unhashable_discount_type _ _ H).
Qed.

(** C5, where the code misses a case: the handler inside the loop catches
    [ValidationError] only.  A scheme dictionary whose [discount_type] is a
    non-empty list or object fails its type check before the schema is
    reached: the lookup in the table of discount types raises [TypeError]
    (the value is unhashable).  The loop ends there, the handler around it
    returns the empty list, and every sibling of the response is lost,
    those that validate included, in both parsers. *)
Theorem type_failure_loses_the_siblings (clock : nat -> datetime)
    (text : string) (d : dict) (before after : list value) (bad : dict)
    (default_confidence default_escalation : value) :
  json_loads (DspyModules.clean text) = Some (VDict d) ->
  dict_lookup d "schemes" = Some (VList (before ++ VDict bad :: after)) ->
  match dict_get bad "discount_type" with
  | VList (_ :: _) | VDict (_ :: _) => true
  | _ => false
  end = true ->
  (forall now,
     DspyPipeline.loop_body default_confidence default_escalation now (VDict bad)
     = Raise TypeError
     /\ DspyModules._map_to_scheme_header now (VDict bad) = Raise TypeError)
  /\ DspyPipeline._parse_schemes_json clock (VStr text) default_confidence
       default_escalation = Ok []
  /\ DspyModules._parse_response clock (VStr text) = Ok [].
Proof.
  intros Hj Hs Hbad.
  assert (Hab : existsb aborts (before ++ VDict bad :: after) = true).
  { rewrite existsb_app. apply orb_true_iff. right. simpl.
    apply orb_true_iff. now left. }
  split; [|split].
  - intros now. now apply unhashable_raises_TypeError.
  - apply (parse_with_aborts _ (loop_body_aborts _ _) clock text d _ Hj Hs Hab).
  - apply (parse_with_aborts _ modules_map_aborts clock text d _ Hj Hs Hab).
Qed.

(** X7: when the value under [schemes] is not a list (null, a number, a
    text, an object), both parsers return the empty list. *)
Theorem schemes_that_is_not_a_list_gives_nothing (clock : nat -> datetime)
    (text : string) (d : dict) (v : value)
    (default_confidence default_escalation : value) :
  json_loads (DspyModules.clean text) = Some (VDict d) ->
  dict_lookup d "schemes" = Some v ->
  match v with VList _ => false | _ => true end = true ->
  DspyPipeline._parse_schemes_json clock (VStr text) default_confidence
    default_escalation = Ok []
  /\ DspyModules._parse_response clock (VStr text) = Ok [].
Proof.
  intros Hj Hs Hv. split.
  - apply (parse_with_not_a_list _ (loop_body_aborts _ _) clock text d v Hj Hs Hv).
  - apply (parse_with_not_a_list _ modules_map_aborts clock text d v Hj Hs Hv).
Qed.

Lemma settles_Forall (body : datetime -> value -> result SchemeHeader) items :
  (forall x, aborts x = false ->
     is_ok (body 0%Z x) = true \/ body 0%Z x = Raise ValidationError) ->
  forallb (fun x => negb (aborts x)) items = true ->
  Forall (fun x => validates body x \/ fails_validation body x) items.
Proof.
  intros Hb H. apply Forall_forall. intros x Hx.
  rewrite forallb_forall in H. specialize (H x Hx).
  apply negb_true_iff in H. now apply Hb.
Qed.

(** X8: when every element of [schemes] is a dictionary with a hashable
    [discount_type], the loop runs to its end: the parser returns exactly
    the records of the elements that validate, in their order, so at most
    one record per element. *)
Theorem valid_records_are_kept_in_order (clock : nat -> datetime)
    (text : string) (d : dict) (items : list value)
    (default_confidence default_escalation : value) :
  json_loads (DspyModules.clean text) = Some (VDict d) ->
  dict_lookup d "schemes" = Some (VList items) ->
  forallb (fun x => negb (aborts x)) items = true ->
  (exists out,
     DspyPipeline._parse_schemes_json clock (VStr text) default_confidence
       default_escalation = Ok out
     /\ Forall2
          (fun x r =>
             exists now,
               DspyPipeline.loop_body default_confidence default_escalation now x
               = Ok r)
          (filter
             (fun x =>
                is_ok (DspyPipeline.loop_body default_confidence default_escalation
                         0%Z x))
             items)
          out
     /\ (List.length out <= List.length items)%nat)
  /\ (exists out,
        DspyModules._parse_response clock (VStr text) = Ok out
        /\ Forall2
             (fun x r => exists now, DspyModules._map_to_scheme_header now x = Ok r)
             (filter (fun x => is_ok (DspyModules._map_to_scheme_header 0%Z x)) items)
             out
        /\ (List.length out <= List.length items)%nat).
Proof.
  intros Hj Hs Hall. split.
  - destruct (parse_with_keeps_valid _ clock text d items
                (loop_body_clock_independent default_confidence default_escalation)
                Hj Hs) as (out & Hout & Hrel).
    { apply settles_Forall; [|exact Hall]. intros x. apply loop_body_settles. }
    exists out. repeat split; try assumption.
    rewrite <- (Forall2_length Hrel). apply filter_length_le.
  - destruct (parse_with_keeps_valid _ clock text d items
                modules_map_clock_independent Hj Hs) as (out & Hout & Hrel).
    { apply settles_Forall; [|exact Hall]. intros x. apply modules_map_settles. }
    exists out. repeat split; try assumption.
    rewrite <- (Forall2_length Hrel). apply filter_length_le.
Qed.

End Aborting.

(** ** Texts: append, reverse, strip and slices *)

Section Texts.
Import Py Text.

Lemma append_nil_r s : s ++ "" = s.
Proof. induction s as [|c s IH]; simpl; [reflexivity|now rewrite IH]. Qed.

Lemma append_assoc (a b c : string) : (a ++ b) ++ c = a ++ (b ++ c).
Proof. induction a as [|x a IH]; simpl; [reflexivity|now rewrite IH]. Qed.

Lemma length_append (a b : string) :
  String.length (a ++ b) = (String.length a + String.length b)%nat.
Proof. induction a as [|x a IH]; simpl; [reflexivity|now rewrite IH]. Qed.

Lemma rev_append_spec s : forall acc, rev_append s acc = reverse s ++ acc.
Proof.
  unfold reverse. induction s as [|c s IH]; intros acc; simpl; [reflexivity|].
  rewrite (IH (String c acc)), (IH (String c EmptyString)).
  now rewrite append_assoc.
Qed.

Lemma reverse_cons c s : reverse (String c s) = reverse s ++ String c "".
Proof. unfold reverse at 1. simpl. apply rev_append_spec. Qed.

Lemma reverse_append (a b : string) : reverse (a ++ b) = reverse b ++ reverse a.
Proof.
  induction a as [|c a IH]; simpl.
  - now rewrite append_nil_r.
  - now rewrite !reverse_cons, IH, append_assoc.
Qed.

Lemma reverse_involutive s : reverse (reverse s) = s.
Proof.
  induction s as [|c s IH]; [reflexivity|].
  now rewrite reverse_cons, reverse_append, IH.
Qed.

Lemma blank_reverse s : blank (reverse s) = blank s.
Proof.
  assert (A : forall a b, blank (a ++ b) = blank a && blank b).
  { induction a as [|c a IH]; intros b; simpl; [reflexivity|].
    now rewrite IH, andb_assoc. }
  induction s as [|c s IH]; [reflexivity|].
  rewrite reverse_cons, A, IH. simpl. rewrite andb_true_r. apply andb_comm.
Qed.

Lemma lstrip_blank (pre s : string) : blank pre = true -> lstrip (pre ++ s) = lstrip s.
Proof.
  induction pre as [|c pre IH]; simpl; [reflexivity|].
  intros H. apply andb_true_iff in H as [-> H]. now apply IH.
Qed.

Lemma rstrip_blank (s post : string) : blank post = true -> rstrip (s ++ post) = rstrip s.
Proof.
  intros H. unfold rstrip. rewrite reverse_append, lstrip_blank; [reflexivity|].
  now rewrite blank_reverse.
Qed.

(** a text between two fences is left alone by [strip] *)
Lemma lstrip_backquote s : lstrip (String "`" s) = String "`" s.
Proof. reflexivity. Qed.

Lemma rstrip_backquote s : rstrip (s ++ "`") = s ++ "`".
Proof.
  unfold rstrip. rewrite reverse_append.
  change (reverse "`" ++ reverse s) with (String "`" (reverse s)).
  rewrite lstrip_backquote, reverse_cons. now rewrite reverse_involutive.
Qed.

Lemma startswith_append (p s : string) : startswith (p ++ s) p = true.
Proof. unfold startswith. induction p as [|c p IH]; simpl.
  - now destruct s.
  - destruct (ascii_dec c c) as [_|N]; [exact IH|contradiction].
Qed.

Lemma endswith_append (s p : string) : endswith (s ++ p) p = true.
Proof. unfold endswith. rewrite reverse_append. apply startswith_append. Qed.

Lemma slice_from_append (p s : string) :
  slice_from (N.of_nat (String.length p)) (p ++ s) = s.
Proof.
  induction p as [|c p IH].
  - simpl. now destruct s.
  - cbn [String.length append slice_from].
    destruct (N.eqb_spec (N.of_nat (S (String.length p))) 0) as [E|_]; [lia|].
    replace (N.pred (N.of_nat (S (String.length p)))) with (N.of_nat (String.length p))
      by lia.
    exact IH.
Qed.

Lemma slice_to_append (s p : string) :
  slice_to (N.of_nat (String.length s)) (s ++ p) = s.
Proof.
  induction s as [|c s IH].
  - simpl. now destruct p.
  - cbn [String.length append slice_to].
    destruct (N.eqb_spec (N.of_nat (S (String.length s))) 0) as [E|_]; [lia|].
    replace (N.pred (N.of_nat (S (String.length s)))) with (N.of_nat (String.length s))
      by lia.
    now rewrite IH.
Qed.

Lemma slice_drop_last_append (s p : string) :
  slice_drop_last (N.of_nat (String.length p)) (s ++ p) = s.
Proof.
  unfold slice_drop_last. rewrite length_append.
  replace (N.of_nat (String.length s + String.length p) - N.of_nat (String.length p))%N
    with (N.of_nat (String.length s)) by lia.
  apply slice_to_append.
Qed.

(** [s[:n][:m]] and [s[:n][a:b]] *)
Lemma slice_to_slice_to s : forall n m,
  (m <= n)%N -> slice_to m (slice_to n s) = slice_to m s.
Proof.
  induction s as [|c s IH]; intros n m H; [reflexivity|].
  cbn [slice_to].
  destruct (N.eqb_spec n 0) as [->|Hn].
  - now replace m with 0%N by lia.
  - cbn [slice_to]. destruct (N.eqb_spec m 0) as [->|Hm]; [reflexivity|].
    rewrite IH by lia. reflexivity.
Qed.

Lemma slice_from_slice_to s : forall n a,
  slice_from a (slice_to n s) = slice_to (n - a) (slice_from a s).
Proof.
  induction s as [|c s IH]; intros n a; [reflexivity|].
  cbn [slice_to slice_from].
  destruct (N.eqb_spec n 0) as [->|Hn].
  - simpl. destruct (N.eqb_spec a 0) as [->|Ha]; [reflexivity|].
    replace (0 - a)%N with 0%N by lia.
    now destruct (slice_from (N.pred a) s).
  - cbn [slice_from]. destruct (N.eqb_spec a 0) as [->|Ha].
    + rewrite N.sub_0_r. cbn [slice_to].
      destruct (N.eqb_spec n 0); [contradiction|reflexivity].
    + rewrite IH. f_equal. lia.
Qed.

Lemma slice_slice_to s n a b :
  (b <= n)%N -> slice a b (slice_to n s) = slice a b s.
Proof.
  intros H. unfold slice. rewrite slice_from_slice_to.
  apply slice_to_slice_to. lia.
Qed.

Lemma slice_to_prefix (s p : string) : forall n,
  (N.to_nat n <= String.length s)%nat -> slice_to n (s ++ p) = slice_to n s.
Proof.
  induction s as [|c s IH]; intros n H.
  - simpl in H. replace n with 0%N by lia. now destruct p.
  - cbn [append slice_to]. destruct (N.eqb_spec n 0) as [->|Hn]; [reflexivity|].
    rewrite IH; [reflexivity|]. simpl in H. lia.
Qed.

Lemma lstrip_trimmed s : trimmed_left (lstrip s) = true.
Proof.
  induction s as [|c s IH]; [reflexivity|]. simpl.
  destruct (isspace c) eqn:E; [exact IH|]. simpl. now rewrite E.
Qed.

Lemma lstrip_of_trimmed s : trimmed_left s = true -> lstrip s = s.
Proof.
  destruct s as [|c s]; [reflexivity|]. simpl.
  now destruct (isspace c).
Qed.

Lemma lstrip_snoc a c :
  isspace c = false -> lstrip (a ++ String c "") = lstrip a ++ String c "".
Proof.
  intros Hc. induction a as [|x a IH]; simpl.
  - now rewrite Hc.
  - destruct (isspace x); [exact IH|reflexivity].
Qed.

Lemma rstrip_trimmed s : trimmed_left s = true -> trimmed_left (rstrip s) = true.
Proof.
  destruct s as [|c s]; [reflexivity|]. simpl. intros Hc.
  apply negb_true_iff in Hc.
  unfold rstrip. rewrite reverse_cons, (lstrip_snoc _ _ Hc), reverse_append.
  change (reverse (String c "")) with (String c ""). simpl. now rewrite Hc.
Qed.

Lemma strip_idempotent s : strip (strip s) = strip s.
Proof.
  unfold strip.
  rewrite (lstrip_of_trimmed (rstrip (lstrip s)))
    by apply rstrip_trimmed, lstrip_trimmed.
  unfold rstrip. rewrite reverse_involutive.
  now rewrite (lstrip_of_trimmed (lstrip _)) by apply lstrip_trimmed.
Qed.

Lemma prefix_longer (p q s : string) :
  String.prefix p s = false -> String.prefix (p ++ q) s = false.
Proof.
  revert s. induction p as [|c p IH]; intros s; simpl.
  - now destruct s.
  - destruct s as [|x s]; [reflexivity|]. simpl.
    destruct (ascii_dec c x); [apply IH|reflexivity].
Qed.

Lemma strip_fenced (pre post m : string) :
  blank pre = true -> blank post = true ->
  strip (pre ++ String "`" (m ++ "`") ++ post) = String "`" (m ++ "`").
Proof.
  intros Hpre Hpost. unfold strip.
  rewrite lstrip_blank by assumption.
  change (String "`" (m ++ "`") ++ post) with (String "`" ((m ++ "`") ++ post)).
  rewrite lstrip_backquote.
  change (String "`" ((m ++ "`") ++ post)) with (String "`" (m ++ "`") ++ post).
  rewrite rstrip_blank by assumption.
  change (String "`" (m ++ "`")) with ((String "`" m) ++ "`").
  apply rstrip_backquote.
Qed.

(** a text without a fence at either end is only stripped *)
Lemma clean_plain t :
  startswith (strip t) fence = false ->
  endswith (strip t) fence = false ->
  DspyModules.clean t = strip t.
Proof.
  intros H2 H3. unfold DspyModules.clean. cbv zeta.
  change "```json" with (fence ++ "json").
  unfold startswith. rewrite (prefix_longer fence "json" _ H2).
  change "```" with fence. unfold startswith in H2. rewrite H2, H3.
  apply strip_idempotent.
Qed.

Lemma clean_json_fenced pre post t :
  blank pre = true -> blank post = true ->
  startswith (t ++ fence) fence = false ->
  DspyModules.clean (pre ++ json_fence ++ t ++ fence ++ post) = strip t.
Proof.
  intros Hpre Hpost H1. unfold DspyModules.clean. cbv zeta.
  replace (pre ++ json_fence ++ t ++ fence ++ post)
    with (pre ++ String "`" (("``json" ++ t ++ "``") ++ "`") ++ post).
  2:{ unfold json_fence, fence. simpl. do 2 f_equal.
      now rewrite !append_assoc. }
  rewrite strip_fenced by assumption.
  replace (String "`" (("``json" ++ t ++ "``") ++ "`"))
    with (json_fence ++ (t ++ fence)).
  2:{ unfold json_fence, fence. simpl. now rewrite !append_assoc. }
  change "```json" with json_fence. rewrite startswith_append.
  change 7%N with (N.of_nat (String.length json_fence)).
  rewrite slice_from_append.
  change "```" with fence. rewrite H1, endswith_append.
  change 3%N with (N.of_nat (String.length fence)).
  now rewrite slice_drop_last_append.
Qed.

Lemma clean_bare_fenced pre post t :
  blank pre = true -> blank post = true ->
  startswith (t ++ fence) "json" = false ->
  DspyModules.clean (pre ++ fence ++ t ++ fence ++ post) = strip t.
Proof.
  intros Hpre Hpost H1. unfold DspyModules.clean. cbv zeta.
  replace (pre ++ fence ++ t ++ fence ++ post)
    with (pre ++ String "`" (("``" ++ t ++ "``") ++ "`") ++ post).
  2:{ unfold fence. simpl. do 2 f_equal. now rewrite !append_assoc. }
  rewrite strip_fenced by assumption.
  replace (String "`" (("``" ++ t ++ "``") ++ "`")) with (fence ++ (t ++ fence)).
  2:{ unfold fence. simpl. now rewrite !append_assoc. }
  assert (E : startswith (fence ++ t ++ fence) "```json" = false) by exact H1.
  rewrite E.
  change "```" with fence. rewrite startswith_append.
  change 3%N with (N.of_nat (String.length fence)).
  rewrite slice_from_append, endswith_append.
  now rewrite slice_drop_last_append.
Qed.

End Texts.

(** ** Fenced completions *)

Section Fences.
Import Py Text.
Context {L : Library}.

(** X9: a completion wrapped in a fence parses like its payload.  Let the
    payload [t] be such that [strip t] has no fence at either end and that
    [t] followed by a fence begins neither with a fence nor with json.
    With white space [pre] and [post] around the fences, the text the
    parsers decode is [strip t] in all three forms (json fence, bare
    fence, no fence), so both parsers return the same result for them. *)
Theorem fenced_completion_parses_like_its_payload (clock : nat -> datetime)
    (pre post t : string) (default_confidence default_escalation : value) :
  blank pre = true -> blank post = true ->
  startswith (t ++ fence) fence = false ->
  startswith (t ++ fence) "json" = false ->
  startswith (strip t) fence = false ->
  endswith (strip t) fence = false ->
  (DspyModules.clean (pre ++ json_fence ++ t ++ fence ++ post) = strip t
   /\ DspyModules.clean (pre ++ fence ++ t ++ fence ++ post) = strip t
   /\ DspyModules.clean t = strip t)
  /\ (DspyPipeline._parse_schemes_json clock
        (VStr (pre ++ json_fence ++ t ++ fence ++ post)) default_confidence
        default_escalation
      = DspyPipeline._parse_schemes_json clock (VStr t) default_confidence
          default_escalation
      /\ DspyPipeline._parse_schemes_json clock
           (VStr (pre ++ fence ++ t ++ fence ++ post)) default_confidence
           default_escalation
         = DspyPipeline._parse_schemes_json clock (VStr t) default_confidence
             default_escalation)
  /\ (DspyModules._parse_response clock
        (VStr (pre ++ json_fence ++ t ++ fence ++ post))
      = DspyModules._parse_response clock (VStr t)
      /\ DspyModules._parse_response clock (VStr (pre ++ fence ++ t ++ fence ++ post))
         = DspyModules._parse_response clock (VStr t)).
Proof.
  intros Hpre Hpost H1 H1' H2 H3.
  pose proof (clean_json_fenced pre post t Hpre Hpost H1) as Ej.
  pose proof (clean_bare_fenced pre post t Hpre Hpost H1') as Eb.
  pose proof (clean_plain t H2 H3) as Ep.
  split; [now repeat split|].
  unfold DspyPipeline._parse_schemes_json, DspyModules._parse_response,
    DspyModules.parse_with.
  cbn [DspyModules.as_str bind]. rewrite Ej, Eb, Ep. now repeat split.
Qed.

End Fences.

(** ** The reasoning stages: [forward] and [extract] *)

Section Stages.
Import Py Models Response Spec Shape Text Trace.
Context {L : Library} {St : DspyPipeline.Stages}.

Ltac step_through :=
  repeat match goal with
         | |- context [match ?x with Ok _ => _ | Raise _ => _ end] =>
             destruct x; cbv beta iota
         end.

Lemma forward_try_trace mail_subject mail_body :
  match DspyPipeline.forward_try mail_subject mail_body [] with
  | (steps, Ok r) =>
      (exists sj rs c e, r = prediction sj rs steps c e)
      /\ Forall2 is_step stage_names steps
  | (steps, Raise _) =>
      exists k, (k < 7)%nat /\ Forall2 is_step (firstn k stage_names) steps
  end.
Proof.
  unfold DspyPipeline.forward_try, DspyPipeline.bindM, DspyPipeline.lift,
    DspyPipeline.append_step, DspyPipeline.get_steps, DspyPipeline.ret.
  cbv beta iota. cbn [app].
  step_through.
  all: cbn [app].
  all: try (split; [do 4 eexists; reflexivity|]).
  all: try (repeat constructor; do 2 eexists; reflexivity).
  all: match goal with
       | |- exists k, _ /\ Forall2 _ _ ?steps =>
           exists (List.length steps); split; [simpl; lia|];
           repeat constructor; do 2 eexists; reflexivity
       end.
Qed.

Lemma forward_prediction mail_subject mail_body :
  exists sj rs steps c e,
    DspyPipeline.forward mail_subject mail_body = prediction sj rs steps c e
    /\ (List.length steps <= 7)%nat.
Proof.
  pose proof (forward_try_trace mail_subject mail_body) as H.
  unfold DspyPipeline.forward.
  destruct (DspyPipeline.forward_try mail_subject mail_body []) as [steps [r|x]].
  - destruct H as [(sj & rs & c & e & ->) Hsteps].
    exists sj, rs, steps, c, e. split; [reflexivity|].
    now rewrite <- (Forall2_length Hsteps).
  - destruct H as (k & Hk & Hsteps).
    do 5 eexists. split; [reflexivity|].
    rewrite <- (Forall2_length Hsteps), length_firstn. lia.
Qed.

(** X10: [forward] always returns a dictionary with the five keys
    [schemes_json], [reasoning], [cot_steps], [confidence_score] and
    [needs_escalation].  Its trace holds the steps of the stages that were
    completed, under their names and in their order: all seven when no
    stage raised, fewer when one did, and then with the empty scheme list,
    confidence 0.0 and escalation set. *)
Theorem forward_returns_a_trace_of_the_completed_stages
    (mail_subject mail_body : string) :
  exists sj rs steps c e,
    DspyPipeline.forward mail_subject mail_body = prediction sj rs steps c e
    /\ Forall2 is_step (firstn (List.length steps) stage_names) steps
    /\ match DspyPipeline.forward_try mail_subject mail_body [] with
       | (_, Ok _) => List.length steps = 7%nat
       | (_, Raise x) =>
           (List.length steps < 7)%nat
           /\ sj = VStr DspyPipeline.failed_schemes_json
           /\ rs = "Extraction failed: " ++ exn_str x
           /\ c = VFloat float_zero
           /\ e = VBool true
       end.
Proof.
  pose proof (forward_try_trace mail_subject mail_body) as H.
  unfold DspyPipeline.forward.
  destruct (DspyPipeline.forward_try mail_subject mail_body []) as [steps [r|x]].
  - destruct H as [(sj & rs & c & e & ->) Hsteps].
    exists sj, rs, steps, c, e. split; [reflexivity|].
    rewrite <- (Forall2_length Hsteps). now split.
  - destruct H as (k & Hk & Hsteps).
    do 5 eexists. split; [reflexivity|].
    assert (Hlen : List.length steps = k).
    { rewrite <- (Forall2_length Hsteps), length_firstn. simpl. lia. }
    rewrite Hlen. repeat split; try assumption.
Qed.

Lemma forward_truncates mail_subject mail_body :
  DspyPipeline.forward mail_subject (slice_to 12000 mail_body)
  = DspyPipeline.forward mail_subject mail_body.
Proof.
  unfold DspyPipeline.forward, DspyPipeline.forward_try.
  rewrite !slice_slice_to by lia.
  rewrite !slice_to_slice_to by lia.
  reflexivity.
Qed.

(** X11: the stages only ever see the first 12000 characters of the mail
    body: [forward], and with it [extract], returns for a body what it
    returns for the body cut to 12000 characters, hence the same for two
    bodies that agree on their first 12000 characters. *)
Theorem forward_reads_the_first_12000_characters (llm : DspyPipeline.LM)
    (clock : nat -> datetime) (mail_subject mail_body : string) :
  DspyPipeline.forward mail_subject (slice_to 12000 mail_body)
  = DspyPipeline.forward mail_subject mail_body
  /\ DspyPipeline.extract llm clock mail_subject (slice_to 12000 mail_body)
     = DspyPipeline.extract llm clock mail_subject mail_body
  /\ (forall other,
        slice_to 12000 other = slice_to 12000 mail_body ->
        DspyPipeline.extract llm clock mail_subject other
        = DspyPipeline.extract llm clock mail_subject mail_body).
Proof.
  assert (E : forall b,
             DspyPipeline.extract llm clock mail_subject (slice_to 12000 b)
             = DspyPipeline.extract llm clock mail_subject b).
  { intros b. unfold DspyPipeline.extract. now rewrite forward_truncates. }
  split; [apply forward_truncates|]. split; [apply E|].
  intros other H. now rewrite <- (E other), H, E.
Qed.

Lemma validate_dict_list_items_length l ds :
  validate_dict_list_items l = Some ds -> List.length ds = List.length l.
Proof.
  revert ds. induction l as [|x l IH]; intros ds; simpl.
  - now intros [= <-].
  - destruct x; try discriminate.
    destruct (validate_dict_list_items l) as [ds'|]; [|discriminate].
    intros [= <-]. simpl. now rewrite (IH ds' eq_refl).
Qed.

(** the fields of a response that was built *)
Lemma LLMResponse_init_fields the_schemes kw r :
  LLMResponse_init the_schemes kw = Ok r ->
  schemes r = the_schemes
  /\ defaulted None (optional validate_int_ge0) kw "tokens_used" = Some (tokens_used r)
  /\ defaulted None (optional validate_str) kw "model_used" = Some (model_used r)
  /\ defaulted [] validate_dict_list kw "cot_steps" = Some (cot_steps r).
Proof.
  unfold LLMResponse_init.
  match goal with
  | |- match ?m with _ => _ end = _ -> _ => destruct m as [r'|] eqn:E; [|discriminate]
  end.
  intros [= <-].
  repeat split_match E. injection E as <-. now repeat split.
Qed.

Lemma validate_int_ge0_bound v z : validate_int_ge0 v = Some z -> (0 <= z)%Z.
Proof.
  unfold validate_int_ge0.
  destruct (match v with VInt z0 => Some z0 | _ => lax_int v end) as [z'|];
    [|discriminate].
  destruct (Z.ltb_spec z' 0); [discriminate|]. intros [= <-]. assumption.
Qed.

(** X12: [extract] never raises, and its response keeps the constraints of
    the models whatever the stages and the client do: every record obeys
    the constraints of [SchemeHeader] (members of the enumerations, amounts
    at least zero, a confidence at least 0 and at most 1, hence no NaN),
    the trace has at most seven steps, [model_used] is the client's model,
    and [tokens_used], when set, is not negative. *)
Theorem extract_returns_a_sound_response (llm : DspyPipeline.LM)
    (clock : nat -> datetime) (email_subject email_body : string) :
  exists r,
    DspyPipeline.extract llm clock email_subject email_body = Ok r
    /\ Forall well_formed (schemes r)
    /\ (List.length (cot_steps r) <= 7)%nat
    /\ model_used r = Some (DspyPipeline.model_name llm)
    /\ match tokens_used r with Some z => (0 <= z)%Z | None => True end.
Proof.
  unfold DspyPipeline.extract.
  destruct (forward_prediction email_subject email_body)
    as (sj & rs & steps & c & e & -> & Hlen).
  unfold prediction.
  cbn [getitem get dict_lookup dict_get_default String.eqb Ascii.eqb Bool.eqb bind].
  pose proof (parse_with_Forall
                (DspyPipeline.loop_body c e) well_formed clock sj
                (loop_body_well_formed c e)) as Hwf.
  unfold DspyPipeline._parse_schemes_json.
  destruct (DspyModules.parse_with (DspyPipeline.loop_body c e) clock sj)
    as [out|x]; [|contradiction].
  cbn [bind].
  destruct (DspyPipeline.get_usage_stats llm) as [usage|x]; cbn [bind try_except].
  2:{ rewrite fallback_response. eexists. split; [reflexivity|].
      repeat split; simpl; try lia. constructor. }
  destruct (get usage "total_tokens" VNone) as [total|x]; cbn [bind try_except].
  2:{ rewrite fallback_response. eexists. split; [reflexivity|].
      repeat split; simpl; try lia. constructor. }
  unfold try_except.
  match goal with
  | |- exists r, match ?m with _ => _ end = _ /\ _ => destruct m as [r|x] eqn:E
  end.
  2:{ rewrite fallback_response. eexists. split; [reflexivity|].
      repeat split; simpl; try lia. constructor. }
  exists r. split; [reflexivity|].
  apply LLMResponse_init_fields in E as (Hs & Ht & Hm & Hc).
  unfold defaulted in Ht, Hm, Hc.
  cbn [dict_lookup String.eqb Ascii.eqb Bool.eqb] in Ht, Hm, Hc.
  repeat split.
  - now rewrite Hs.
  - simpl in Hc. apply validate_dict_list_items_length in Hc. lia.
  - simpl in Hm. congruence.
  - destruct (tokens_used r) as [z|]; [|exact I].
    unfold optional in Ht. destruct total; try discriminate;
      (destruct (validate_int_ge0 _) as [z'|] eqn:Ez; [|discriminate];
       injection Ht as ->; now apply validate_int_ge0_bound in Ez).
Qed.

(** X13: the records are lost when the usage statistics fail.  If the
    client's [get_usage_stats] raises, [extract] returns the response of
    its handler, without schemes and without trace, whatever the stages
    had extracted. *)
Theorem usage_failure_discards_the_schemes (llm : DspyPipeline.LM)
    (clock : nat -> datetime) (email_subject email_body : string) (x : exn) :
  DspyPipeline.get_usage_stats llm = Raise x ->
  DspyPipeline.extract llm clock email_subject email_body
  = Ok (mk_LLMResponse [] (Some (exn_str x)) None
          (Some (DspyPipeline.model_name llm))
          (Some ("Extraction failed: " ++ exn_str x)) []).
Proof.
  intros Hu. unfold DspyPipeline.extract.
  destruct (forward_prediction email_subject email_body)
    as (sj & rs & steps & c & e & -> & _).
  unfold prediction.
  cbn [getitem get dict_lookup dict_get_default String.eqb Ascii.eqb Bool.eqb bind].
  unfold DspyPipeline._parse_schemes_json.
  destruct (parse_with_total (DspyPipeline.loop_body c e) clock sj) as [out ->].
  cbn [bind]. rewrite Hu. cbn [bind try_except].
  apply fallback_response.
Qed.

Lemma steps_are_dictionaries names steps :
  Forall2 is_step names steps ->
  exists ds,
    validate_dict_list_items steps = Some ds /\ List.length ds = List.length names.
Proof.
  induction 1 as [|name step names steps (output & rs & ->) _ (ds & Hds & Hlen)].
  - now exists [].
  - eexists. simpl. rewrite Hds. split; [reflexivity|]. simpl. now rewrite Hlen.
Qed.

(** X14: an attempt in which every stage answered keeps its results.  When
    no stage raised, the sixth stage gave a text and the client reports a
    token count that is not negative, [extract] returns the records parsed
    from that text, with the seventh stage's confidence and escalation as
    their defaults, the text itself as [raw_response], the token count,
    and a trace of seven steps. *)
Theorem successful_attempt_keeps_its_results (llm : DspyPipeline.LM)
    (clock : nat -> datetime) (email_subject email_body : string)
    (steps : list value) (res : value) (text : string) (usage : dict) (n : Z) :
  DspyPipeline.forward_try email_subject email_body [] = (steps, Ok res) ->
  getitem res "schemes_json" = Ok (VStr text) ->
  DspyPipeline.get_usage_stats llm = Ok (VDict usage) ->
  dict_lookup usage "total_tokens" = Some (VInt n) ->
  (0 <= n)%Z ->
  exists r out c e,
    DspyPipeline.extract llm clock email_subject email_body = Ok r
    /\ get res "confidence_score" (VFloat float_half) = Ok c
    /\ get res "needs_escalation" (VBool false) = Ok e
    /\ DspyPipeline._parse_schemes_json clock (VStr text) c e = Ok out
    /\ schemes r = out
    /\ raw_response r = Some text
    /\ tokens_used r = Some n
    /\ List.length (cot_steps r) = 7%nat.
Proof.
  intros Hf Hsj Hu Hn Hpos.
  pose proof (forward_try_trace email_subject email_body) as H.
  unfold DspyPipeline.extract, DspyPipeline.forward. rewrite Hf in H |- *.
  destruct H as [(sj & rs & c & e & ->) Hsteps].
  unfold prediction in *.
  cbn [getitem get dict_lookup dict_get_default String.eqb Ascii.eqb Bool.eqb bind]
    in Hsj |- *.
  injection Hsj as ->.
  destruct (parse_with_total (DspyPipeline.loop_body c e) clock (VStr text))
    as [out Hout].
  unfold DspyPipeline._parse_schemes_json. rewrite Hout, Hu.
  cbn [bind get]. unfold dict_get_default. rewrite Hn. cbn [bind].
  destruct (steps_are_dictionaries _ _ Hsteps) as (ds & Hds & Hlen).
  unfold LLMResponse_init, defaulted.
  cbn [dict_lookup String.eqb Ascii.eqb Bool.eqb optional validate_str option_map
         validate_dict_list].
  unfold validate_int_ge0. destruct (Z.ltb_spec n 0) as [Hneg|_]; [lia|].
  rewrite Hds. cbn [try_except].
  eexists. exists out, c, e. split; [reflexivity|]. now repeat split.
Qed.

End Stages.

(** ** [combined_body] *)

Section CombinedBody.
Import Py Text ExtractionResult.
Context {L : Library}.

Lemma join_snoc sep (a : list string) b :
  a <> [] -> join sep (a ++ [b]) = join sep a ++ sep ++ b.
Proof.
  induction a as [|x a IH]; [contradiction|]. intros _.
  destruct a as [|y a]; [reflexivity|].
  change (join sep ((x :: y :: a) ++ [b])) with (x ++ sep ++ join sep ((y :: a) ++ [b])).
  rewrite IH by discriminate.
  change (join sep (x :: y :: a)) with (x ++ sep ++ join sep (y :: a)).
  now rewrite !append_assoc.
Qed.

Lemma table_parts_snoc tables t : forall i acc,
  table_parts i (tables ++ [t]) acc
  = (table_parts i tables acc ++ [table_part (i + Z.of_nat (List.length tables)) t])%list.
Proof.
  induction tables as [|x tables IH]; intros i acc; simpl.
  - now rewrite Z.add_0_r.
  - rewrite IH. do 3 f_equal. lia.
Qed.

Lemma table_parts_keeps tables : forall i acc,
  exists more, table_parts i tables acc = (acc ++ more)%list.
Proof.
  induction tables as [|x tables IH]; intros i acc; simpl.
  - exists []. now rewrite app_nil_r.
  - destruct (IH (i + 1)%Z (acc ++ [table_part i x])%list) as [more ->].
    exists (table_part i x :: more). now rewrite <- app_assoc.
Qed.

Lemma join_from_head sep x (more : list string) :
  exists rest, join sep (x :: more) = x ++ rest.
Proof.
  destruct more as [|y more].
  - exists "". simpl. now rewrite append_nil_r.
  - now exists (sep ++ join sep (y :: more)).
Qed.

Lemma combined_body_prefix full_text tables :
  exists rest, combined_body full_text tables = full_text ++ rest.
Proof.
  unfold combined_body.
  destruct (table_parts_keeps tables 1 [full_text]) as [more ->].
  apply join_from_head.
Qed.

(** X15: [combined_body] is the text followed by one part per table.
    Without tables it is the text itself; a further table appends a line
    break and the part of that table under its number, counted from 1;
    and the text is always the beginning of the body. *)
Theorem combined_body_appends_the_tables (full_text : string) (tables : list dict)
    (table : dict) :
  combined_body full_text [] = full_text
  /\ combined_body full_text (tables ++ [table])
     = combined_body full_text tables ++ nl
       ++ table_part (1 + Z.of_nat (List.length tables)) table
  /\ startswith (combined_body full_text tables) full_text = true.
Proof.
  split; [reflexivity|]. split.
  - unfold combined_body. rewrite table_parts_snoc.
    apply join_snoc.
    destruct (table_parts_keeps tables 1 [full_text]) as [more ->]. discriminate.
  - destruct (combined_body_prefix full_text tables) as [rest ->].
    apply startswith_append.
Qed.

Lemma slice_to_combined_body full_text tables (n : N) :
  (N.to_nat n <= String.length full_text)%nat ->
  slice_to n (combined_body full_text tables) = slice_to n full_text.
Proof.
  intros H. destruct (combined_body_prefix full_text tables) as [rest ->].
  now apply slice_to_prefix.
Qed.

End CombinedBody.

(** ** The client's history and usage statistics *)

Section Client.
Import Py Builtins Usage OpenRouterLLM.

Lemma usage_loop_counted : forall h a b c,
  forallb counted h = true ->
  usage_loop h (VInt a, VInt b, VInt c)
  = Ok (VInt (a + total "prompt_tokens" h),
        VInt (b + total "completion_tokens" h),
        VInt (c + total "total_tokens" h))%Z.
Proof.
  induction h as [|e h IH]; intros a b c H.
  - simpl. now rewrite !Z.add_0_r.
  - simpl in H. apply andb_true_iff in H as [He Hh].
    unfold counted in He.
    destruct (count "prompt_tokens" e) as [x|] eqn:Ex; [|discriminate].
    destruct (count "completion_tokens" e) as [y|] eqn:Ey; [|discriminate].
    destruct (count "total_tokens" e) as [z|] eqn:Ez; [|discriminate].
    cbn [total fold_right]. rewrite Ex, Ey, Ez.
    fold (total "prompt_tokens" h) (total "completion_tokens" h)
      (total "total_tokens" h).
    unfold count in Ex, Ey, Ez.
    destruct e as [| | | | | |d]; try discriminate.
    cbn [usage_loop get bind].
    destruct (dict_get_default d "usage" (VDict [])) as [| | | | | |u];
      try discriminate.
    cbn [get bind].
    destruct (dict_get_default u "prompt_tokens" (VInt 0)); try discriminate.
    destruct (dict_get_default u "completion_tokens" (VInt 0)); try discriminate.
    destruct (dict_get_default u "total_tokens" (VInt 0)); try discriminate.
    injection Ex as ->. injection Ey as ->. injection Ez as ->.
    cbn [add as_int bind]. rewrite IH by assumption.
    now rewrite !Z.add_assoc.
Qed.

Lemma get_usage_stats_counted h :
  forallb counted h = true ->
  get_usage_stats h
  = Ok (VDict [("prompt_tokens", VInt (total "prompt_tokens" h));
               ("completion_tokens", VInt (total "completion_tokens" h));
               ("total_tokens", VInt (total "total_tokens" h));
               ("num_calls", VInt (Z.of_nat (List.length h)))]).
Proof.
  intros H. unfold get_usage_stats. now rewrite usage_loop_counted.
Qed.

Lemma total_app k (h1 h2 : history) :
  total k (h1 ++ h2)%list = (total k h1 + total k h2)%Z.
Proof.
  induction h1 as [|e h1 IH]; [reflexivity|].
  cbn [app total fold_right]. fold (total k (h1 ++ h2)%list) (total k h1).
  rewrite IH. destruct (count k e); lia.
Qed.

Lemma total_single k e z : count k e = Some z -> total k [e] = z.
Proof. unfold total. simpl. intros ->. lia. Qed.

(** X16: the usage statistics are the sums over the history.  When each
    entry holds integer counts (a missing [usage] or count being zero),
    [get_usage_stats] returns the three sums and the number of entries;
    with no entry all four are zero, and a further entry adds its counts
    and one call. *)
Theorem usage_statistics_are_the_sums (h : history) (e : value) :
  forallb counted h = true ->
  get_usage_stats h
  = Ok (VDict [("prompt_tokens", VInt (total "prompt_tokens" h));
               ("completion_tokens", VInt (total "completion_tokens" h));
               ("total_tokens", VInt (total "total_tokens" h));
               ("num_calls", VInt (Z.of_nat (List.length h)))])
  /\ get_usage_stats []
     = Ok (VDict [("prompt_tokens", VInt 0); ("completion_tokens", VInt 0);
                  ("total_tokens", VInt 0); ("num_calls", VInt 0)])
  /\ (forall x y z,
        count "prompt_tokens" e = Some x ->
        count "completion_tokens" e = Some y ->
        count "total_tokens" e = Some z ->
        get_usage_stats (h ++ [e])%list
        = Ok (VDict [("prompt_tokens", VInt (total "prompt_tokens" h + x));
                     ("completion_tokens", VInt (total "completion_tokens" h + y));
                     ("total_tokens", VInt (total "total_tokens" h + z));
                     ("num_calls", VInt (Z.of_nat (List.length h) + 1))])%Z).
Proof.
  intros H. split; [now apply get_usage_stats_counted|].
  split; [reflexivity|]. intros x y z Hx Hy Hz.
  rewrite get_usage_stats_counted.
  - rewrite !total_app, (total_single _ _ _ Hx), (total_single _ _ _ Hy),
      (total_single _ _ _ Hz), length_app.
    simpl. repeat f_equal. lia.
  - rewrite forallb_app, H. simpl. unfold counted. now rewrite Hx, Hy, Hz.
Qed.

Lemma usage_loop_broken : forall h totals,
  existsb broken h = true -> is_ok (usage_loop h totals) = false.
Proof.
  induction h as [|e h IH]; intros [[p c] t] H; [discriminate|].
  simpl in H. cbn [usage_loop].
  destruct (broken e) eqn:Eb.
  - clear H. unfold broken in Eb.
    destruct e as [| | | | | |d]; try reflexivity.
    cbn [get bind].
    destruct (dict_get_default d "usage" (VDict [])); try reflexivity.
    discriminate.
  - simpl in H.
    repeat match goal with
           | |- is_ok (bind ?m _) = false =>
               destruct m; cbn [bind]; [|reflexivity]
           end.
    now apply IH.
Qed.

Lemma get_usage_stats_broken h :
  existsb broken h = true -> is_ok (get_usage_stats h) = false.
Proof.
  intros H. unfold get_usage_stats.
  pose proof (usage_loop_broken h (VInt 0, VInt 0, VInt 0) H) as E.
  destruct (usage_loop h (VInt 0, VInt 0, VInt 0)); [discriminate|reflexivity].
Qed.

Section Calls.
Variable self : client.

Ltac run :=
  repeat match goal with
         | |- context [match ?x with Ok _ => _ | Raise _ => _ end] =>
             destruct x; cbv beta iota
         | |- context [if ?b then _ else _] => destruct b; cbv beta iota
         end.

Lemma record_response_history messages result h :
  match record_response self messages result h with
  | (h', Ok out) =>
      (h' = h /\ out = VList [VStr ""])
      \/ exists text usage,
           h' = (h ++ [entry self messages text usage])%list /\ out = VList [text]
  | (h', Raise _) =>
      h' = h \/ exists text usage, h' = (h ++ [entry self messages text usage])%list
  end.
Proof.
  unfold record_response, DspyPipeline.bindM, DspyPipeline.lift,
    DspyPipeline.append_step, DspyPipeline.ret.
  cbv beta iota.
  run; try (now left); right; do 2 eexists; try split; reflexivity.
Qed.

End Calls.
Lemma call_history (self : client) (prompt messages : value) (kwargs : dict)
    (h : history) :
  match __call__ self prompt messages kwargs h with
  | (h', Ok out) =>
      (h' = h /\ out = VList [VStr ""])
      \/ exists msgs text usage,
           h' = (h ++ [entry self msgs text usage])%list /\ out = VList [text]
  | (h', Raise _) =>
      h' = h \/ exists msgs text usage, h' = (h ++ [entry self msgs text usage])%list
  end.
Proof.
  unfold __call__, DspyPipeline.bindM, DspyPipeline.lift. cbv beta iota.
  match goal with
  | |- context [match ?m with Ok _ => _ | Raise _ => _ end] =>
      destruct m as [msgs|x]; cbv beta iota
  end; [|now left].
  match goal with
  | |- context [post self ?p] => destruct (post self p) as [result|x]
  end; cbv beta iota; [|now left].
  pose proof (record_response_history self msgs result h) as H.
  destruct (record_response self msgs result h) as [h' [out|x]].
  - destruct H as [H|(text & usage & H)]; [now left|right].
    now exists msgs, text, usage.
  - destruct H as [H|(text & usage & H)]; [now left|right].
    now exists msgs, text, usage.
Qed.

(** X17: a call records at most one entry, and only for an answer with
    choices.  The history after a call is the history before it, or that
    with one entry for this call appended; a call that returns gives one
    response, the recorded one, or the empty text when the answer has no
    choices (and nothing is recorded); a request that raises leaves the
    history as it was and the exception goes on to the caller. *)
Theorem call_records_at_most_one_entry (self : client) (prompt messages : value)
    (kwargs : dict) (h : history) :
  match __call__ self prompt messages kwargs h with
  | (h', Ok out) =>
      (h' = h /\ out = VList [VStr ""])
      \/ exists msgs text usage,
           h' = (h ++ [entry self msgs text usage])%list /\ out = VList [text]
  | (h', Raise _) =>
      h' = h \/ exists msgs text usage, h' = (h ++ [entry self msgs text usage])%list
  end
  /\ (forall x,
        (forall payload, post self payload = Raise x) ->
        (messages <> VNone \/ prompt <> VNone) ->
        __call__ self prompt messages kwargs h = (h, Raise x))
  /\ (forall res,
        (forall payload, post self payload = Ok (VDict res)) ->
        (messages <> VNone \/ prompt <> VNone) ->
        dict_lookup res "choices" = None ->
        __call__ self prompt messages kwargs h = (h, Ok (VList [VStr ""]))).
Proof.
  split; [apply call_history|]. split.
  - intros x Hpost Hgiven.
    unfold __call__, DspyPipeline.bindM, DspyPipeline.lift. cbv beta iota.
    destruct messages; try (now rewrite Hpost).
    destruct prompt; try (now rewrite Hpost).
    destruct Hgiven; contradiction.
  - intros res Hpost Hgiven Hno.
    unfold __call__, DspyPipeline.bindM, DspyPipeline.lift. cbv beta iota.
    assert (R : forall msgs,
               record_response self msgs (VDict res) h = (h, Ok (VList [VStr ""]))).
    { intros msgs.
      unfold record_response, DspyPipeline.bindM, DspyPipeline.lift,
        DspyPipeline.ret.
      cbn [contains]. unfold dict_contains. now rewrite Hno. }
    destruct messages; try (now rewrite Hpost, R).
    destruct prompt; try (now rewrite Hpost, R).
    destruct Hgiven; contradiction.
Qed.

(** X18: an answer whose [usage] is null breaks the client for good.  The
    call appends its entry and then raises [AttributeError] on the log
    line; and from then on, whatever is recorded later, [get_usage_stats]
    raises. *)
Theorem null_usage_breaks_the_statistics (self : client) (messages : value)
    (kwargs : dict) (h : history) (res choice message : dict) (others : list value)
    (text : string) (usage : value) :
  (forall payload, post self payload = Ok (VDict res)) ->
  messages <> VNone ->
  dict_lookup res "choices" = Some (VList (VDict choice :: others)) ->
  dict_lookup choice "message" = Some (VDict message) ->
  dict_lookup message "content" = Some (VStr text) ->
  dict_lookup res "usage" = Some usage ->
  match usage with VDict _ => false | _ => true end = true ->
  __call__ self VNone messages kwargs h
  = ((h ++ [entry self messages (VStr text) usage])%list, Raise AttributeError)
  /\ forall later,
       is_ok (get_usage_stats
                (h ++ entry self messages (VStr text) usage :: later)%list)
       = false.
Proof.
  intros Hpost Hm Hc Hmsg Htext Hu Hbad. split.
  - unfold __call__, DspyPipeline.bindM, DspyPipeline.lift. cbv beta iota.
    destruct messages; try contradiction;
      rewrite Hpost; cbv beta iota;
      unfold record_response, DspyPipeline.bindM, DspyPipeline.lift,
        DspyPipeline.append_step, DspyPipeline.ret;
      cbn [contains getitem get bind]; unfold dict_contains, dict_get_default;
      rewrite Hc; cbn [bind len first];
      replace (0 <? Z.of_nat (List.length (VDict choice :: others)))%Z with true
        by (symmetry; apply Z.ltb_lt; simpl; lia);
      cbv beta iota; cbn [getitem]; rewrite Hmsg; cbn [getitem]; rewrite Htext, Hu;
      cbn [len get]; destruct usage; try discriminate; reflexivity.
  - intros later. apply get_usage_stats_broken.
    rewrite existsb_app. apply orb_true_iff. right.
    cbn [existsb]. apply orb_true_iff. left.
    unfold broken, entry. cbn [dict_get_default dict_lookup String.eqb Ascii.eqb Bool.eqb].
    now destruct usage.
Qed.

End Client.

(** ** [SchemeExtractor.extract] *)

Section SingleCall.
Import Py Models Response Builtins Spec Shape Text Usage SchemeExtractor.
Context {L : Library} {E : Encoder}.
Variable SCHEME_SYSTEM_PROMPT : string.

(** the response the handler of [extract] builds *)
Lemma single_call_fallback (name : string) (x : exn) :
  LLMResponse_init []
    [("raw_response", VStr (exn_str x)); ("model_used", VStr name)]
  = Ok (mk_LLMResponse [] (Some (exn_str x)) None (Some name) None []).
Proof. reflexivity. Qed.

Section AnyClient.
Variable state : Type.
Variable llm : LM state.

Lemma read_responses_sound clock responses st r :
  read_responses state llm clock responses st = Ok r ->
  Forall well_formed (schemes r)
  /\ model_used r = Some (model_name llm)
  /\ match tokens_used r with Some z => (0 <= z)%Z | None => True end
  /\ cot_steps r = [].
Proof.
  unfold read_responses.
  destruct (if truthy responses then first responses else Ok (VStr "")) as [raw|x];
    [|discriminate].
  cbn [bind]. destruct (prefix_slice 200 raw) as [shown|x]; [|discriminate].
  cbn [bind].
  pose proof (parse_with_Forall DspyModules._map_to_scheme_header well_formed clock raw
                modules_map_well_formed) as Hwf.
  unfold DspyModules._parse_response.
  destruct (DspyModules.parse_with DspyModules._map_to_scheme_header clock raw)
    as [out|x]; [|contradiction].
  cbn [bind]. destruct (get_usage_stats llm st) as [usage|x]; [|discriminate].
  cbn [bind]. destruct (get usage "total_tokens" VNone) as [total|x]; [|discriminate].
  cbn [bind]. intros H.
  apply LLMResponse_init_fields in H as (Hs & Ht & Hm & Hc).
  unfold defaulted in Ht, Hm, Hc.
  cbn [dict_lookup String.eqb Ascii.eqb Bool.eqb] in Ht, Hm, Hc.
  repeat split.
  - now rewrite Hs.
  - simpl in Hm. congruence.
  - destruct (tokens_used r) as [z|]; [|exact I].
    unfold optional in Ht. destruct total; try discriminate;
      (destruct (validate_int_ge0 _) as [z'|] eqn:Ez; [|discriminate];
       injection Ht as ->; now apply validate_int_ge0_bound in Ez).
  - congruence.
Qed.

(** X19: [SchemeExtractor.extract] never raises and reads at most 12000
    characters of the body.  Its response always names the client's model,
    holds only records that obey the constraints of [SchemeHeader] (members
    of the enumerations, amounts at least zero, a confidence at least 0 and
    at most 1, hence no NaN) and a token count that is not negative;
    when the call to the client raises, the response has no schemes and
    carries the text of the exception as [raw_response]. *)
Theorem single_call_extract_never_raises (clock : nat -> datetime)
    (email_subject email_body : string) (st : state) :
  (exists r,
     snd (extract SCHEME_SYSTEM_PROMPT state llm clock email_subject email_body st)
     = Ok r
     /\ Forall well_formed (schemes r)
     /\ model_used r = Some (model_name llm)
     /\ match tokens_used r with Some z => (0 <= z)%Z | None => True end)
  /\ extract SCHEME_SYSTEM_PROMPT state llm clock email_subject
       (slice_to 12000 email_body) st
     = extract SCHEME_SYSTEM_PROMPT state llm clock email_subject email_body st
  /\ (forall st' x,
        (forall messages, __call__ llm messages st = (st', Raise x)) ->
        extract SCHEME_SYSTEM_PROMPT state llm clock email_subject email_body st
        = (st', Ok (mk_LLMResponse [] (Some (exn_str x)) None (Some (model_name llm))
                      None []))).
Proof.
  split; [|split].
  - unfold extract. cbv zeta.
    match goal with
    | |- context [__call__ llm ?m st] =>
        destruct (__call__ llm m st) as [st' [responses|x]]
    end; cbn [snd bind try_except].
    + unfold try_except.
      destruct (read_responses state llm clock responses st') as [r|x] eqn:Er.
      * exists r. split; [reflexivity|].
        apply read_responses_sound in Er as (H1 & H2 & H3 & _). now repeat split.
      * rewrite single_call_fallback. eexists. split; [reflexivity|].
        repeat split. constructor.
    + rewrite single_call_fallback. eexists. split; [reflexivity|].
      repeat split. constructor.
  - unfold extract. cbv zeta. now rewrite slice_to_slice_to by lia.
  - intros st' x Hcall. unfold extract. cbv zeta. rewrite Hcall.
    cbn [bind try_except]. now rewrite single_call_fallback.
Qed.

End AnyClient.

Section WithOpenRouter.
Variable self : OpenRouterLLM.client.

(** X20: with [OpenRouterLLM] as the client, [tokens_used] is the total of
    the client's whole history, not the cost of this extraction.  For an
    answer with a text completion and integer usage counts, [extract]
    appends one entry to the history and returns the records parsed from
    the completion, the completion as [raw_response], and as [tokens_used]
    the [total_tokens] of all earlier entries plus those of this answer. *)
Theorem tokens_used_is_the_total_of_the_history (clock : nat -> datetime)
    (email_subject email_body : string) (h : OpenRouterLLM.history)
    (res choice message u : dict) (others : list value) (text : string)
    (p c n : Z) :
  (forall payload, OpenRouterLLM.post self payload = Ok (VDict res)) ->
  dict_lookup res "choices" = Some (VList (VDict choice :: others)) ->
  dict_lookup choice "message" = Some (VDict message) ->
  dict_lookup message "content" = Some (VStr text) ->
  dict_lookup res "usage" = Some (VDict u) ->
  dict_lookup u "prompt_tokens" = Some (VInt p) ->
  dict_lookup u "completion_tokens" = Some (VInt c) ->
  dict_lookup u "total_tokens" = Some (VInt n) ->
  forallb counted h = true ->
  (0 <= total "total_tokens" h + n)%Z ->
  exists messages out,
    extract SCHEME_SYSTEM_PROMPT OpenRouterLLM.history (open_router self) clock
      email_subject email_body h
    = ((h ++ [entry self messages (VStr text) (VDict u)])%list,
       Ok (mk_LLMResponse out (Some text) (Some (total "total_tokens" h + n)%Z)
             (Some (OpenRouterLLM.model_name self)) None []))
    /\ DspyModules._parse_response clock (VStr text) = Ok out.
Proof.
  intros Hpost Hc Hmsg Htext Hu Hp Hcm Hn Hh Hpos.
  unfold extract. cbv zeta.
  match goal with
  | |- context [__call__ (open_router self) ?m h] => set (messages := m)
  end.
  exists messages.
  destruct (parse_with_total DspyModules._map_to_scheme_header clock (VStr text))
    as [out Hout].
  exists out. split; [|exact Hout].
  assert (Hcall : __call__ (open_router self) messages h
                  = ((h ++ [entry self messages (VStr text) (VDict u)])%list,
                     Ok (VList [VStr text]))).
  { unfold open_router, __call__, OpenRouterLLM.__call__, DspyPipeline.bindM,
      DspyPipeline.lift.
    cbv beta iota. subst messages. cbv beta iota. rewrite Hpost. cbv beta iota.
    unfold OpenRouterLLM.record_response, DspyPipeline.bindM, DspyPipeline.lift,
      DspyPipeline.append_step, DspyPipeline.ret.
    cbn [contains getitem get bind]. unfold dict_contains, dict_get_default.
    rewrite Hc. cbn [bind len first].
    replace (0 <? Z.of_nat (List.length (VDict choice :: others)))%Z with true
      by (symmetry; apply Z.ltb_lt; simpl; lia).
    cbv beta iota. cbn [getitem]. rewrite Hmsg. cbn [getitem].
    rewrite Htext, Hu. cbn [len get]. reflexivity. }
  rewrite Hcall. cbn [bind]. unfold read_responses.
  cbn [truthy first bind prefix_slice].
  unfold DspyModules._parse_response in Hout |- *. rewrite Hout. cbn [bind].
  cbn [get_usage_stats open_router].
  assert (Hx : forall k z, dict_lookup u k = Some (VInt z) ->
               count k (entry self messages (VStr text) (VDict u)) = Some z).
  { intros k z Hk. unfold count, entry, dict_get_default.
    cbn [dict_lookup String.eqb Ascii.eqb Bool.eqb]. now rewrite Hk. }
  rewrite get_usage_stats_counted.
  2:{ rewrite forallb_app, Hh. simpl. unfold counted.
      now rewrite (Hx _ _ Hp), (Hx _ _ Hcm), (Hx _ _ Hn). }
  cbn [get dict_get_default dict_lookup String.eqb Ascii.eqb Bool.eqb bind].
  rewrite total_app, (total_single _ _ _ (Hx _ _ Hn)).
  unfold LLMResponse_init, defaulted.
  cbn [dict_lookup String.eqb Ascii.eqb Bool.eqb optional validate_str option_map].
  unfold validate_int_ge0.
  destruct (Z.ltb_spec (total "total_tokens" h + n) 0) as [Hneg|_]; [lia|].
  reflexivity.
Qed.

(** X21: once the history holds an entry whose [usage] is not a
    dictionary, every extraction through this client returns a response
    without schemes, whatever the answer of the model; and the entry stays
    in the history. *)
Theorem broken_history_extracts_nothing (clock : nat -> datetime)
    (email_subject email_body : string) (h : OpenRouterLLM.history) :
  existsb broken h = true ->
  exists h' r,
    extract SCHEME_SYSTEM_PROMPT OpenRouterLLM.history (open_router self) clock
      email_subject email_body h = (h', Ok r)
    /\ schemes r = []
    /\ existsb broken h' = true.
Proof.
  intros Hb. unfold extract. cbv zeta.
  match goal with
  | |- context [__call__ (open_router self) ?m h] => set (messages := m)
  end.
  pose proof (call_history self VNone messages [] h) as Hh.
  change (OpenRouterLLM.__call__ self VNone messages [] h)
    with (__call__ (open_router self) messages h) in Hh.
  destruct (__call__ (open_router self) messages h) as [h' [responses|x]].
  - assert (Hb' : existsb broken h' = true).
    { destruct Hh as [[-> _]|(msgs & t & us & -> & _)]; [exact Hb|].
      rewrite existsb_app, Hb. reflexivity. }
    exists h'.
    assert (Hraise : is_ok (read_responses OpenRouterLLM.history (open_router self)
                              clock responses h') = false).
    { unfold read_responses.
      destruct (if truthy responses then first responses else Ok (VStr ""));
        [|reflexivity].
      cbn [bind]. destruct (prefix_slice 200 a); [|reflexivity].
      cbn [bind]. destruct (DspyModules._parse_response clock a); [|reflexivity].
      cbn [bind get_usage_stats open_router].
      pose proof (get_usage_stats_broken h' Hb') as Hu.
      destruct (OpenRouterLLM.get_usage_stats h'); [discriminate|reflexivity]. }
    cbn [bind].
    destruct (read_responses OpenRouterLLM.history (open_router self) clock responses h')
      as [r|x]; [discriminate|].
    cbn [try_except]. rewrite single_call_fallback. eexists. now repeat split.
  - exists h'. cbn [bind try_except]. rewrite single_call_fallback.
    eexists. repeat split.
    destruct Hh as [->|(msgs & t & us & ->)]; [exact Hb|].
    rewrite existsb_app, Hb. reflexivity.
Qed.

End WithOpenRouter.
End SingleCall.

(** ** The legacy builder: [call_llm] and [build_scheme_header] *)

Section LegacyBuilder.
Import Py Builtins Text Rows Legacy.
Context {L : Library} {E : Encoder} {P : BuildSchemeHeader.Pandas}.
Variable SCHEME_SYSTEM_PROMPT : string.
Variable create : value -> result (list value).

Lemma build_scheme_header_empty d source_file :
  dict_lookup d "schemes" = Some (VList []) ->
  BuildSchemeHeader.build_scheme_header (VDict d) source_file
  = Ok (BuildSchemeHeader.DataFrame []).
Proof.
  intros H. unfold BuildSchemeHeader.build_scheme_header, BuildSchemeHeader.rows_of.
  cbn [getitem]. now rewrite H.
Qed.

(** X22: [call_llm] hands [build_scheme_header] a dictionary with the key
    [schemes].  A completion without choices, with a content that is not a
    text or not JSON gives the dictionary with the empty list, hence the
    frame of no rows; a JSON object is returned as it is, with [schemes] set to the
    empty list when the key is missing; only the first 12000 characters of
    the body are sent. *)
Theorem call_llm_ensures_the_schemes_key (email_subject email_body : string)
    (source_file : value) (choices : list value) :
  (forall request, create request = Ok choices) ->
  (is_ok (content <- first (VList choices) ;; loads_object content) = false ->
   call_llm SCHEME_SYSTEM_PROMPT create email_subject email_body
   = Ok (VDict [("schemes", VList [])])
   /\ rows_of_email SCHEME_SYSTEM_PROMPT create email_subject email_body source_file
      = Ok (BuildSchemeHeader.DataFrame []))
  /\ (forall s rest d,
        choices = VStr s :: rest ->
        json_loads s = Some (VDict d) ->
        exists d',
          call_llm SCHEME_SYSTEM_PROMPT create email_subject email_body
          = Ok (VDict d')
          /\ dict_lookup d' "schemes"
             = Some (match dict_lookup d "schemes" with
                     | Some v => v
                     | None => VList []
                     end)
          /\ forall k, k <> "schemes" -> dict_lookup d' k = dict_lookup d k)
  /\ call_llm SCHEME_SYSTEM_PROMPT create email_subject (slice_to 12000 email_body)
     = call_llm SCHEME_SYSTEM_PROMPT create email_subject email_body.
Proof.
  intros Hcreate. split; [|split].
  - intros Hfail.
    assert (Hc : call_llm SCHEME_SYSTEM_PROMPT create email_subject email_body
                 = Ok (VDict [("schemes", VList [])])).
    { unfold call_llm. cbv zeta. rewrite Hcreate. cbn [bind].
      destruct (content <- first (VList choices) ;; loads_object content);
        [discriminate|].
      reflexivity. }
    split; [exact Hc|].
    unfold rows_of_email. rewrite Hc. reflexivity.
  - intros s rest d -> Hjson.
    unfold call_llm. cbv zeta. rewrite Hcreate.
    cbn [bind first loads_object]. unfold DspyModules.loads. rewrite Hjson.
    cbn [try_except bind contains]. unfold dict_contains.
    destruct (dict_lookup d "schemes") as [v|] eqn:Hs; cbn [negb setitem].
    + exists d. now repeat split.
    + exists (dict_setitem d "schemes" (VList [])). split; [reflexivity|].
      split; [apply dict_lookup_setitem_eq|].
      intros k Hk. apply dict_lookup_setitem_ne. congruence.
  - unfold call_llm. cbv zeta. now rewrite slice_to_slice_to by lia.
Qed.

(** X23: a completion that is a JSON array makes [call_llm] raise: the
    array has no key to set.  (An array that holds the text schemes is
    returned as it is.) *)
Theorem call_llm_raises_on_an_array (email_subject email_body : string)
    (s : string) (rest l : list value) :
  (forall request, create request = Ok (VStr s :: rest)) ->
  json_loads s = Some (VList l) ->
  call_llm SCHEME_SYSTEM_PROMPT create email_subject email_body
  = if existsb (fun v => match v with VStr t => String.eqb t "schemes" | _ => false end) l
    then Ok (VList l)
    else Raise TypeError.
Proof.
  intros Hcreate Hjson. unfold call_llm. cbv zeta. rewrite Hcreate.
  cbn [bind first loads_object]. unfold DspyModules.loads. rewrite Hjson.
  cbn [try_except bind contains].
  now destruct (existsb _ l).
Qed.

Lemma scheme_row_shape d source_file :
  exists row,
    BuildSchemeHeader.scheme_row (VDict d) source_file = Ok row
    /\ map fst row = columns
    /\ dict_lookup row "Scheme Document" = Some source_file
    /\ dict_lookup row "FSN File/Config File" = Some VNone
    /\ dict_lookup row "Scheme Name" = Some (dict_get d "scheme_name")
    /\ dict_lookup row "Duration_start_date" = Some (dict_get d "duration_start_date")
    /\ dict_lookup row "Duration_end_date" = Some (dict_get d "duration_end_date").
Proof.
  eexists. split; [reflexivity|]. now repeat split.
Qed.

Lemma rows_loop_dicts source_file : forall items acc,
  forallb is_dict items = true ->
  exists rows,
    BuildSchemeHeader.rows_loop items source_file acc = Ok (acc ++ rows)%list
    /\ Forall2
         (fun x row =>
            map fst row = columns
            /\ dict_lookup row "Scheme Document" = Some source_file
            /\ exists d,
                 x = VDict d
                 /\ dict_lookup row "Scheme Name" = Some (dict_get d "scheme_name"))
         items rows.
Proof.
  induction items as [|x items IH]; intros acc H.
  - exists []. split; [simpl; now rewrite app_nil_r|constructor].
  - simpl in H. apply andb_true_iff in H as [Hx Hrest].
    destruct x as [| | | | | |d]; try discriminate.
    destruct (scheme_row_shape d source_file)
      as (row & Hrow & Hcols & Hdoc & _ & Hname & _).
    cbn [BuildSchemeHeader.rows_loop]. rewrite Hrow. cbn [bind].
    destruct (IH (acc ++ [row])%list Hrest) as (rows & -> & Hrel).
    exists (row :: rows). split; [now rewrite <- app_assoc|].
    constructor; [|exact Hrel].
    repeat split; try assumption. now exists d.
Qed.

Lemma rows_loop_not_a_dict source_file : forall items acc,
  forallb is_dict items = false ->
  BuildSchemeHeader.rows_loop items source_file acc = Raise AttributeError.
Proof.
  induction items as [|x items IH]; intros acc H; [discriminate|].
  simpl in H. cbn [BuildSchemeHeader.rows_loop].
  destruct x as [| | | | | |d]; try reflexivity.
  destruct (scheme_row_shape d source_file) as (row & -> & _).
  cbn [bind]. now apply IH.
Qed.

(** X24: the frame of [build_scheme_header] is made of one row per scheme.
    Without the key [schemes] the function raises [KeyError], and
    [TypeError] when the value cannot be iterated; it returns nothing when
    an element is not a dictionary; for the empty list it returns the frame
    of no rows.  Whenever it returns, the frame is [pd.DataFrame] of one
    row per element, in order, each with the twenty columns in their fixed
    order, the scheme's name and the source file.  (That it returns for
    every list of dictionaries holds of the texts modelled here, whose
    code points are below 256; [encode] raises on a lone surrogate.) *)
Theorem build_scheme_header_gives_one_row_per_scheme (res : dict)
    (source_file : value) :
  (dict_lookup res "schemes" = None ->
   BuildSchemeHeader.build_scheme_header (VDict res) source_file = Raise KeyError)
  /\ (forall v,
        dict_lookup res "schemes" = Some v ->
        (is_ok (iter v) = false ->
         BuildSchemeHeader.build_scheme_header (VDict res) source_file
         = Raise TypeError)
        /\ (forall items,
              iter v = Ok items -> forallb is_dict items = false ->
              is_ok (BuildSchemeHeader.build_scheme_header (VDict res) source_file)
              = false)
        /\ (forall df,
              BuildSchemeHeader.build_scheme_header (VDict res) source_file = Ok df ->
              exists items rows,
                iter v = Ok items
                /\ df = BuildSchemeHeader.DataFrame rows
                /\ Forall2
                     (fun x row =>
                        map fst row = columns
                        /\ dict_lookup row "Scheme Document" = Some source_file
                        /\ exists d,
                             x = VDict d
                             /\ dict_lookup row "Scheme Name"
                                = Some (dict_get d "scheme_name"))
                     items rows))
  /\ (dict_lookup res "schemes" = Some (VList []) ->
      BuildSchemeHeader.build_scheme_header (VDict res) source_file
      = Ok (BuildSchemeHeader.DataFrame [])).
Proof.
  split; [|split].
  - intros H. unfold BuildSchemeHeader.build_scheme_header, BuildSchemeHeader.rows_of.
    cbn [getitem]. now rewrite H.
  - intros v Hv.
    assert (Erows : BuildSchemeHeader.rows_of (VDict res) source_file
                = (items <- iter v ;; BuildSchemeHeader.rows_loop items source_file [])).
    { unfold BuildSchemeHeader.rows_of. cbn [getitem]. now rewrite Hv. }
    unfold BuildSchemeHeader.build_scheme_header. rewrite Erows. clear Erows.
    split; [|split].
    + destruct v; try discriminate; reflexivity.
    + intros items -> Hnd. cbn [bind].
      now rewrite (rows_loop_not_a_dict source_file items [] Hnd).
    + intros df. destruct (iter v) as [items|e] eqn:Ei; [|discriminate].
      cbn [bind]. destruct (forallb is_dict items) eqn:Hd.
      * destruct (rows_loop_dicts source_file items [] Hd) as (rows & -> & Hrel).
        cbn [bind app]. intros [= <-]. now exists items, rows.
      * now rewrite (rows_loop_not_a_dict source_file items [] Hd).
  - apply build_scheme_header_empty.
Qed.

Lemma hex_digit_is_hex n :
  (0 <= n < 16)%Z -> is_hex_digit (Hashlib.hex_digit n) = true.
Proof.
  intros H. rewrite <- (Z2Nat.id n) by lia.
  assert (Hk : (Z.to_nat n < 16)%nat) by lia.
  revert Hk. generalize (Z.to_nat n) as k. intros k Hk.
  do 16 (destruct k as [|k]; [reflexivity|]). lia.
Qed.

Lemma hex_all_hex bs :
  Forall (fun b => 0 <= b < 256)%Z bs -> all_chars is_hex_digit (Hashlib.hex bs) = true.
Proof.
  induction 1 as [|b bs Hb _ IH]; [reflexivity|].
  cbn [Hashlib.hex all_chars]. rewrite IH, !hex_digit_is_hex; [reflexivity| |].
  - change 15%Z with (Z.ones 4). rewrite Z.land_ones by lia.
    apply Z.mod_pos_bound. lia.
  - rewrite Z.shiftr_div_pow2 by lia. change (2 ^ 4)%Z with 16%Z.
    split; [apply Z.div_pos; lia|apply Z.div_lt_upper_bound; lia].
Qed.

Lemma bytes_of_word_bytes w :
  Forall (fun b => 0 <= b < 256)%Z (Hashlib.bytes_of_word w).
Proof.
  unfold Hashlib.bytes_of_word.
  repeat constructor;
    change 255%Z with (Z.ones 8); rewrite Z.land_ones by lia;
    apply Z.mod_pos_bound; lia.
Qed.

Lemma md5_bytes msg : Forall (fun b => 0 <= b < 256)%Z (Hashlib.md5 msg).
Proof.
  unfold Hashlib.md5.
  destruct (fold_left Hashlib.compress _ Hashlib.init) as [[[a b] c] d].
  repeat (apply Forall_app; split); apply bytes_of_word_bytes.
Qed.

Lemma all_chars_slice_to p s : forall n,
  all_chars p s = true -> all_chars p (slice_to n s) = true.
Proof.
  induction s as [|c s IH]; intros n H; [reflexivity|].
  simpl in H. apply andb_true_iff in H as [Hc Hs].
  cbn [slice_to]. destruct (n =? 0)%N; [reflexivity|].
  cbn [all_chars]. now rewrite Hc, IH.
Qed.

(** X25: a [scheme_id] is written with the digits 0 to 9 and a to f
    only, whatever the three values are. *)
Theorem scheme_id_is_hexadecimal (name start_date end_date : value) :
  all_chars is_hex_digit (BuildSchemeHeader.scheme_id name start_date end_date) = true.
Proof.
  unfold BuildSchemeHeader.scheme_id, Hashlib.md5_hexdigest.
  apply all_chars_slice_to, hex_all_hex, md5_bytes.
Qed.

(** X26: the [scheme_id] does not tell every triple apart, even without a
    collision of the digest: an absent value and the text None give the
    same id, and so do two triples whose values differ only in where the
    separator falls. *)
Theorem scheme_id_confuses_some_triples (start_date end_date : value)
    (a b c : string) :
  BuildSchemeHeader.scheme_id VNone start_date end_date
  = BuildSchemeHeader.scheme_id (VStr "None") start_date end_date
  /\ BuildSchemeHeader.scheme_id (VStr (a ++ "|" ++ b)) (VStr c) end_date
     = BuildSchemeHeader.scheme_id (VStr a) (VStr (b ++ "|" ++ c)) end_date.
Proof.
  split; [reflexivity|].
  unfold BuildSchemeHeader.scheme_id, BuildSchemeHeader.raw_id.
  cbn [format_value]. now rewrite !append_assoc.
Qed.

End LegacyBuilder.
(** ** The body of an extraction result as the body of the mail *)

Section Composition.
Import Py Models Response ExtractionResult.
Context {L : Library} {St : DspyPipeline.Stages}.

(** X27: when the text alone has 12000 characters or more, the tables of
    [combined_body] never reach the stages: [forward] and [extract] return
    for the combined body what they return for the text alone, whatever
    the tables hold. *)
Theorem tables_after_12000_characters_are_not_read (llm : DspyPipeline.LM)
    (clock : nat -> datetime) (mail_subject full_text : string)
    (tables : list dict) :
  (12000 <= N.of_nat (String.length full_text))%N ->
  DspyPipeline.forward mail_subject (combined_body full_text tables)
  = DspyPipeline.forward mail_subject full_text
  /\ DspyPipeline.extract llm clock mail_subject (combined_body full_text tables)
     = DspyPipeline.extract llm clock mail_subject full_text.
Proof.
  intros Hlen.
  assert (E : DspyPipeline.forward mail_subject (combined_body full_text tables)
              = DspyPipeline.forward mail_subject full_text).
  { rewrite <- (forward_truncates mail_subject (combined_body full_text tables)),
      <- (forward_truncates mail_subject full_text).
    rewrite slice_to_combined_body; [reflexivity|lia]. }
  split; [exact E|]. unfold DspyPipeline.extract. now rewrite E.
Qed.

End Composition.

(** ** The subject of an email *)

Section Subject.
Import Py Text LoadEmails.

Lemma find_subject_stripped lines s :
  find_subject lines = Some s -> strip s = s.
Proof.
  induction lines as [|line lines IH]; [discriminate|]. simpl.
  destruct (substring_of "Mail - " line); [|exact IH].
  intros [= <-]. apply strip_idempotent.
Qed.

Lemma find_subject_first before line after :
  forallb (fun l => negb (substring_of "Mail - " l)) before = true ->
  substring_of "Mail - " line = true ->
  find_subject (before ++ line :: after)
  = Some (strip (last_of_split "Mail - " line)).
Proof.
  intros Hb Hl. induction before as [|x before IH]; simpl.
  - now rewrite Hl.
  - simpl in Hb. apply andb_true_iff in Hb as [Hx Hb].
    apply negb_true_iff in Hx. rewrite Hx. now apply IH.
Qed.

Lemma stripped_lines_sound lines :
  Forall (fun l => String.eqb l "" = false /\ strip l = l)
    (map strip (filter (fun l => negb (String.eqb (strip l) "")) lines)).
Proof.
  induction lines as [|l lines IH]; [constructor|]. simpl.
  destruct (String.eqb (strip l) "") eqn:E; [exact IH|].
  simpl. constructor; [|exact IH]. split; [exact E|apply strip_idempotent].
Qed.

(** X28: every email gets a subject.  The subject computed from the text
    of the file is [base], the name of the file, or a text that is not
    empty and has no white space at either end; and the first line with
    the marker decides: when something other than white space follows the
    marker there, that is the subject, whatever the later lines hold. *)
Theorem subject_is_the_file_name_or_a_stripped_text (txt_content base : string) :
  (subject_of txt_content base = base
   \/ (String.eqb (subject_of txt_content base) "" = false
       /\ strip (subject_of txt_content base) = subject_of txt_content base))
  /\ (forall before line after,
        splitlines txt_content = (before ++ line :: after)%list ->
        forallb (fun l => negb (substring_of "Mail - " l)) before = true ->
        substring_of "Mail - " line = true ->
        String.eqb (strip (last_of_split "Mail - " line)) "" = false ->
        subject_of txt_content base = strip (last_of_split "Mail - " line)).
Proof.
  split.
  - unfold subject_of. cbv zeta.
    destruct (find_subject (splitlines txt_content)) as [s|] eqn:Es.
    + destruct (String.eqb s "") eqn:E; cbn [negb].
      2:{ right. split; [exact E|]. eapply find_subject_stripped, Es. }
      pose proof (stripped_lines_sound (splitlines txt_content)) as H.
      destruct (map strip _) as [|l1 [|l2 [|l3 more]]]; cbn; auto;
        inversion H as [|? ? H1 H']; subst; auto.
      inversion H' as [|? ? H2 H'']; subst.
      inversion H'' as [|? ? H3 _]; subst. auto.
    + pose proof (stripped_lines_sound (splitlines txt_content)) as H.
      destruct (map strip _) as [|l1 [|l2 [|l3 more]]]; cbn; auto;
        inversion H as [|? ? H1 H']; subst; auto.
      inversion H' as [|? ? H2 H'']; subst.
      inversion H'' as [|? ? H3 _]; subst. auto.
  - intros before line after Hlines Hb Hl Hs.
    assert (E : find_subject (splitlines txt_content)
                = Some (strip (last_of_split "Mail - " line))).
    { rewrite Hlines. now apply find_subject_first. }
    unfold subject_of. cbv zeta. rewrite E. cbn [negb]. now rewrite Hs.
Qed.

End Subject.

(** ** The further properties at concrete inputs *)

Section Instances.
Import Py Models Response Builtins Spec Shape Text Trace Usage Rows Examples Cases.
#[local] Existing Instance Reference.library.
#[local] Existing Instance ReferenceEncoder.encoder.
#[local] Existing Instance Reference.pandas.

(** the records whose confidence or amount is a NaN are dropped *)
Example nan_records_are_dropped :
  (exists r,
     DspyPipeline._parse_schemes_json ticks (VStr with_a_nan) (VFloat float_half)
       (VBool false) = Ok [r]
     /\ scheme_name r = "JBP Q1")
  /\ (exists r,
        DspyModules._parse_response ticks (VStr with_a_nan) = Ok [r]
        /\ scheme_name r = "JBP Q1").
Proof.
  split; eexists; (split; [vm_compute; reflexivity|reflexivity]).
Qed.

Lemma explicit_null_witness :
  is_ok (DspyPipeline._map_to_scheme_header 0%Z (VDict null_name)) = false
  /\ is_ok (DspyModules._map_to_scheme_header 0%Z (VDict null_name)) = false
  /\ is_ok (DspyPipeline.loop_body (VFloat float_half) (VBool false) 0%Z
              (VDict null_name)) = false.
Proof.
  apply (explicit_null_is_rejected 0%Z null_name "scheme_name").
  - simpl. tauto.
  - reflexivity.
Defined.

Lemma unlisted_enum_text_witness :
  is_ok (DspyPipeline._map_to_scheme_header 0%Z (VDict lower_case_sub_type)) = false
  /\ is_ok (DspyModules._map_to_scheme_header 0%Z (VDict lower_case_sub_type)) = false
  /\ is_ok (DspyPipeline.loop_body (VFloat float_half) (VBool false) 0%Z
              (VDict lower_case_sub_type)) = false.
Proof.
  apply (unlisted_enum_text_is_rejected 0%Z lower_case_sub_type "pdc").
  right. split; [reflexivity|].
  simpl. intros H. repeat (destruct H as [H|H]; [discriminate H|]). exact H.
Defined.

Lemma absent_keys_witness :
  (DspyPipeline._map_to_scheme_header 7%Z (VDict vendors_only) = Ok (default_record 7%Z)
   /\ DspyModules._map_to_scheme_header 7%Z (VDict vendors_only)
      = Ok (default_record 7%Z))
  /\ optional (validate_float (Some float_zero) None) (VInt 5)
     = Some (discount_value
               (the_record (DspyPipeline._map_to_scheme_header 7%Z (VDict cap_only))))
  /\ vendor_name (the_record (DspyPipeline._map_to_scheme_header 7%Z (VDict cap_only)))
     = None.
Proof.
  split.
  - apply (proj1 (absent_keys_take_defaults 7%Z vendors_only)).
    intros k Hk. simpl in Hk.
    repeat (destruct Hk as [<-|Hk]; [reflexivity|]). contradiction.
  - destruct (proj1 (proj2 (proj2 (absent_keys_take_defaults 7%Z cap_only)))
                (the_record (DspyPipeline._map_to_scheme_header 7%Z (VDict cap_only))))
      as (_ & Hvendor & _ & Hvalue & _).
    + vm_compute. reflexivity.
    + split; [exact (proj1 (Hvalue eq_refl))|exact (Hvendor eq_refl)].
Defined.

Lemma single_call_mapper_witness :
  optional (validate_float (Some float_zero) None) (VInt 7)
  = Some (discount_value
            (the_record (DspyModules._map_to_scheme_header 0%Z (VDict legacy_amounts))))
  /\ vendor_name
       (the_record (DspyModules._map_to_scheme_header 0%Z (VDict legacy_amounts)))
     = None.
Proof.
  destruct (single_call_mapper_reads_the_legacy_keys 0%Z legacy_amounts
              (the_record (DspyModules._map_to_scheme_header 0%Z (VDict legacy_amounts))))
    as (H1 & _ & _ & _ & H5 & _).
  - vm_compute. reflexivity.
  - split; [exact H1|exact H5].
Defined.

Lemma aborting_element_witness :
  DspyPipeline._parse_schemes_json ticks (VStr with_a_note) (VFloat float_half)
    (VBool false) = Ok []
  /\ DspyModules._parse_response ticks (VStr with_a_note) = Ok [].
Proof.
  apply (aborting_element_empties_the_response ticks with_a_note
           [("schemes", VList note_items)] note_items).
  - vm_compute. reflexivity.
  - reflexivity.
  - reflexivity.
Defined.

(** the response of the record with a list under [discount_type] is empty,
    while the two other elements alone give the record of JBP Q1 (and, in
    the mapper that does not read [discount_value], a second one) *)
Lemma type_failure_witness :
  (DspyPipeline._parse_schemes_json ticks (VStr with_a_type_failure)
     (VFloat float_half) (VBool false) = Ok []
   /\ DspyModules._parse_response ticks (VStr with_a_type_failure) = Ok [])
  /\ (exists r,
        DspyPipeline._parse_schemes_json ticks (VStr without_the_type_failure)
          (VFloat float_half) (VBool false) = Ok [r]
        /\ scheme_name r = "JBP Q1")
  /\ (exists r r',
        DspyModules._parse_response ticks (VStr without_the_type_failure) = Ok [r; r']
        /\ scheme_name r = "JBP Q1").
Proof.
  split; [|split].
  - apply (type_failure_loses_the_siblings ticks with_a_type_failure
             [("schemes", VList [jbp_q1; negative_amount; VDict list_valued_type])]
             [jbp_q1; negative_amount] [] list_valued_type).
    + vm_compute. reflexivity.
    + reflexivity.
    + reflexivity.
  - eexists. split; [vm_compute; reflexivity|reflexivity].
  - do 2 eexists. split; [vm_compute; reflexivity|reflexivity].
Defined.

Lemma not_a_list_witness :
  DspyPipeline._parse_schemes_json ticks (VStr single_object) (VFloat float_half)
    (VBool false) = Ok []
  /\ DspyModules._parse_response ticks (VStr single_object) = Ok [].
Proof.
  apply (schemes_that_is_not_a_list_gives_nothing ticks single_object
           [("schemes", VDict [("scheme_name", VStr "JBP Q1")])]
           (VDict [("scheme_name", VStr "JBP Q1")])).
  - vm_compute. reflexivity.
  - reflexivity.
  - reflexivity.
Defined.

Lemma kept_in_order_witness :
  exists out,
    DspyPipeline._parse_schemes_json ticks (VStr mixed_completion) (VFloat float_half)
      (VBool false) = Ok out
    /\ (List.length out <= 4)%nat.
Proof.
  destruct (valid_records_are_kept_in_order ticks mixed_completion
              [("schemes", VList mixed_items)] mixed_items (VFloat float_half)
              (VBool false)) as [(out & Hout & _ & Hlen) _].
  - vm_compute. reflexivity.
  - reflexivity.
  - reflexivity.
  - exists out. split; [exact Hout|exact Hlen].
Defined.

Lemma fenced_completion_witness :
  DspyModules.clean (json_fence ++ (nl ++ one_scheme ++ nl) ++ fence ++ nl)
  = strip (nl ++ one_scheme ++ nl)
  /\ DspyModules._parse_response ticks
       (VStr (json_fence ++ (nl ++ one_scheme ++ nl) ++ fence ++ nl))
     = DspyModules._parse_response ticks (VStr (nl ++ one_scheme ++ nl)).
Proof.
  destruct (fenced_completion_parses_like_its_payload ticks "" nl
              (nl ++ one_scheme ++ nl) (VFloat float_half) (VBool false))
    as ((H1 & _) & _ & (H2 & _)); try (vm_compute; reflexivity).
  split; [exact H1|exact H2].
Defined.

Lemma usage_failure_witness :
  DspyPipeline.extract (St := answering_stages) without_usage ticks
    "JBP Q1 Renewal - Acme Corp" "JBP period 2024-01-01 to 2024-03-31"
  = Ok (mk_LLMResponse [] (Some "usage unavailable") None
          (Some "qwen/qwen3-next-80b-a3b-instruct")
          (Some "Extraction failed: usage unavailable") []).
Proof.
  exact (usage_failure_discards_the_schemes (St := answering_stages) without_usage
           ticks "JBP Q1 Renewal - Acme Corp" "JBP period 2024-01-01 to 2024-03-31"
           (External "usage unavailable") eq_refl).
Defined.

Lemma tables_not_read_witness :
  DspyPipeline.forward (St := answering_stages) "JBP Q1"
    (ExtractionResult.combined_body long_text [price_table])
  = DspyPipeline.forward (St := answering_stages) "JBP Q1" long_text.
Proof.
  apply (proj1 (tables_after_12000_characters_are_not_read (St := answering_stages)
                  client ticks "JBP Q1" long_text [price_table]
                  ltac:(apply N.leb_le; vm_compute; reflexivity))).
Defined.

Lemma usage_statistics_witness :
  OpenRouterLLM.get_usage_stats two_calls
  = Ok (VDict [("prompt_tokens", VInt 10); ("completion_tokens", VInt 5);
               ("total_tokens", VInt 15); ("num_calls", VInt 2)])
  /\ OpenRouterLLM.get_usage_stats (two_calls ++ [third_call])%list
     = Ok (VDict [("prompt_tokens", VInt 910); ("completion_tokens", VInt 105);
                  ("total_tokens", VInt 1015); ("num_calls", VInt 3)]).
Proof.
  destruct (usage_statistics_are_the_sums two_calls third_call eq_refl)
    as (H1 & _ & H3).
  split; [exact H1|].
  exact (H3 900%Z 100%Z 1000%Z eq_refl eq_refl eq_refl).
Defined.

Lemma null_usage_witness :
  OpenRouterLLM.__call__ (router VNone) VNone user_message [] two_calls
  = ((two_calls ++ [entry (router VNone) user_message (VStr one_scheme) VNone])%list,
     Raise AttributeError)
  /\ is_ok (OpenRouterLLM.get_usage_stats
              (two_calls
               ++ entry (router VNone) user_message (VStr one_scheme) VNone
                  :: [third_call])%list) = false.
Proof.
  destruct (null_usage_breaks_the_statistics (router VNone) user_message [] two_calls
              (answer VNone)
              [("message",
                VDict [("role", VStr "assistant"); ("content", VStr one_scheme)])]
              [("role", VStr "assistant"); ("content", VStr one_scheme)]
              [] one_scheme VNone) as [H1 H2];
    try reflexivity; try discriminate.
  split; [exact H1|exact (H2 [third_call])].
Defined.

Lemma tokens_used_witness :
  exists messages out,
    SchemeExtractor.extract the_prompt OpenRouterLLM.history
      (SchemeExtractor.open_router (router (VDict usage_of_1000))) ticks
      "JBP Q1 Renewal - Acme Corp" "JBP period 2024-01-01 to 2024-03-31" two_calls
    = ((two_calls
        ++ [entry (router (VDict usage_of_1000)) messages (VStr one_scheme)
              (VDict usage_of_1000)])%list,
       Ok (mk_LLMResponse out (Some one_scheme) (Some 1015%Z)
             (Some "qwen/qwen3-next-80b-a3b-instruct") None []))
    /\ List.length out = 1%nat.
Proof.
  destruct (tokens_used_is_the_total_of_the_history the_prompt
              (router (VDict usage_of_1000)) ticks
              "JBP Q1 Renewal - Acme Corp" "JBP period 2024-01-01 to 2024-03-31"
              two_calls (answer (VDict usage_of_1000))
              [("message",
                VDict [("role", VStr "assistant"); ("content", VStr one_scheme)])]
              [("role", VStr "assistant"); ("content", VStr one_scheme)]
              usage_of_1000 [] one_scheme 900%Z 100%Z 1000%Z)
    as (messages & out & H & Hout); try reflexivity.
  - vm_compute. discriminate.
  - exists messages, out. split; [exact H|].
    vm_compute in Hout. injection Hout as <-. reflexivity.
Defined.

Lemma broken_history_witness :
  exists h' r,
    SchemeExtractor.extract the_prompt OpenRouterLLM.history
      (SchemeExtractor.open_router (router (VDict usage_of_1000))) ticks
      "JBP Q1 Renewal - Acme Corp" "JBP period 2024-01-01 to 2024-03-31"
      (two_calls ++ [entry (router VNone) user_message (VStr one_scheme) VNone])%list
    = (h', Ok r)
    /\ schemes r = []
    /\ existsb broken h' = true.
Proof.
  apply (broken_history_extracts_nothing the_prompt (router (VDict usage_of_1000))
           ticks "JBP Q1 Renewal - Acme Corp" "JBP period 2024-01-01 to 2024-03-31"
           (two_calls ++ [entry (router VNone) user_message (VStr one_scheme) VNone])%list).
  reflexivity.
Defined.

Lemma call_llm_witness :
  Legacy.call_llm the_prompt (completion_of (VStr "Sorry, I found no scheme."))
    "JBP Q1" "no scheme here"
  = Ok (VDict [("schemes", VList [])])
  /\ Legacy.rows_of_email the_prompt (completion_of (VStr "Sorry, I found no scheme."))
       "JBP Q1" "no scheme here" (VStr "mail.pdf")
     = Ok (BuildSchemeHeader.DataFrame []).
Proof.
  apply (proj1 (call_llm_ensures_the_schemes_key the_prompt
                  (completion_of (VStr "Sorry, I found no scheme."))
                  "JBP Q1" "no scheme here" (VStr "mail.pdf")
                  [VStr "Sorry, I found no scheme."] (fun _ => eq_refl))).
  vm_compute. reflexivity.
Defined.

Lemma one_row_per_scheme_witness :
  exists rows,
    BuildSchemeHeader.build_scheme_header (VDict second_response) (VStr "mail_2.pdf")
    = Ok (BuildSchemeHeader.DataFrame rows)
    /\ map (fun row => dict_lookup row "Scheme Name") rows
       = [Some (VStr "Sellout support"); Some (VStr "JBP Q1 Renewal - Acme Corp")]
    /\ map (fun row => dict_lookup row "Scheme Document") rows
       = [Some (VStr "mail_2.pdf"); Some (VStr "mail_2.pdf")].
Proof.
  destruct (proj2 (proj2 (proj1 (proj2
              (build_scheme_header_gives_one_row_per_scheme
                 (P := Reference.pandas) second_response
                 (VStr "mail_2.pdf")))
              (VList [VDict sellout; VDict jbp_second]) eq_refl))
              (the_rows
                 (BuildSchemeHeader.rows_of (VDict second_response) (VStr "mail_2.pdf"))))
    as (items & rows & _ & Hdf & _).
  - vm_compute. reflexivity.
  - exists rows. vm_compute in Hdf. subst rows.
    split; [|split]; vm_compute; reflexivity.
Defined.

Lemma call_llm_array_witness :
  Legacy.call_llm the_prompt (completion_of (VStr "[]")) "JBP Q1" "no scheme here"
  = Raise TypeError.
Proof.
  apply (call_llm_raises_on_an_array the_prompt (completion_of (VStr "[]"))
           "JBP Q1" "no scheme here" "[]" [] [] (fun _ => eq_refl)).
  vm_compute. reflexivity.
Defined.

Lemma successful_attempt_witness :
  exists r,
    DspyPipeline.extract (St := answering_stages) client ticks
      "JBP Q1 Renewal - Acme Corp" "JBP period 2024-01-01 to 2024-03-31" = Ok r
    /\ List.length (schemes r) = 1%nat
    /\ raw_response r = Some one_scheme
    /\ tokens_used r = Some 0%Z
    /\ List.length (cot_steps r) = 7%nat.
Proof.
  edestruct (successful_attempt_keeps_its_results (St := answering_stages) client ticks
               "JBP Q1 Renewal - Acme Corp" "JBP period 2024-01-01 to 2024-03-31")
    as (r & out & c & e & H & Hc & He & Hout & Hs & Hraw & Ht & Hlen).
  - vm_compute. reflexivity.
  - vm_compute. reflexivity.
  - reflexivity.
  - reflexivity.
  - lia.
  - exists r. split; [exact H|].
    vm_compute in Hc. injection Hc as <-.
    vm_compute in He. injection He as <-.
    vm_compute in Hout. injection Hout as <-.
    rewrite Hs. now repeat split.
Defined.

Lemma subject_witness :
  LoadEmails.subject_of printed_mail "mail_0001" = "JBP Q1 Renewal".
Proof.
  exact (proj2 (subject_is_the_file_name_or_a_stripped_text printed_mail "mail_0001")
           ["Gmail"] "  1/2 Mail - JBP Q1 Renewal  " ["Acme Corp"]
           eq_refl eq_refl eq_refl eq_refl).
Defined.

End Instances.
